(** * Risk-scoring and verification-state engine: a verification development

    A shallow embedding of the authentication services of the repository
    (src/modules/auth/services/otp.service.ts, ip-blocker.service.ts,
    fraud-detection.service.ts, the DualVerificationService that shares a
    file with it, and AuthService.signin), followed by the theorems that
    settle the claims made about them.

    Conventions of the embedding
    - a JavaScript [Date] is the integer number of milliseconds since the
      epoch ([Z]); every service call reads the clock once and receives
      that reading as the argument [now];
    - an optional or nullable string is [option string]; JavaScript
      truthiness of such a value is [truthy];
    - a TypeORM repository is the list of its rows in insertion order;
      the primary key a row receives on insertion is an argument of the
      inserting operation;
    - an in-process [Map<string, V>] is a [gmap string V];
    - an exception thrown to the caller is the [inl] side of a sum. *)

From stdpp Require Import gmap strings list fin_maps.
From Stdlib Require Import ZArith Lia Bool Ascii String.
From Stdlib Require Import Floats.SpecFloat.

Local Open Scope string_scope.
Local Open Scope Z_scope.

(** ** JavaScript values and string primitives *)
Module Js.

(** A [Date] as milliseconds since the epoch. *)
Definition Date := Z.

(** Truthiness of [string | undefined | null]. *)
Definition truthy (o : option string) : bool :=
  match o with
  | Some s => negb (String.eqb s "")
  | None => false
  end.

(** [a || b] on optional strings. *)
Definition or_else (o : option string) (d : string) : string :=
  match o with
  | Some s => if String.eqb s "" then d else s
  | None => d
  end.

Definition opt_eqb (a b : option string) : bool :=
  match a, b with
  | Some x, Some y => String.eqb x y
  | None, None => true
  | _, _ => false
  end.

Definition is_digit (c : ascii) : bool :=
  let n := Z.of_nat (nat_of_ascii c) in (48 <=? n) && (n <=? 57).

(** [String.prototype.toLowerCase] on the ASCII letters. *)
Definition lower_char (c : ascii) : ascii :=
  let n := nat_of_ascii c in
  if ((65 <=? n) && (n <=? 90))%nat then ascii_of_nat (n + 32) else c.

Fixpoint toLowerCase (s : string) : string :=
  match s with
  | EmptyString => EmptyString
  | String c r => String (lower_char c) (toLowerCase r)
  end.

(** [s.split(sep)] for a one-character separator. *)
Fixpoint split_acc (sep : ascii) (s : string) (cur : string) : list string :=
  match s with
  | EmptyString => [String.rev cur]
  | String c r =>
      if Ascii.eqb c sep then String.rev cur :: split_acc sep r EmptyString
      else split_acc sep r (String c cur)
  end.

Definition split (sep : ascii) (s : string) : list string :=
  split_acc sep s EmptyString.

Fixpoint startsWith (p s : string) : bool :=
  match p, s with
  | EmptyString, _ => true
  | String a p', String b s' => Ascii.eqb a b && startsWith p' s'
  | String _ _, EmptyString => false
  end.

(** [s.includes(p)]: [p] occurs somewhere in [s]. *)
Fixpoint includes (p s : string) : bool :=
  startsWith p s ||
  match s with
  | EmptyString => false
  | String _ r => includes p r
  end.

(** [s.replace(/\D/g, '')]: the decimal digits of [s]. *)
Fixpoint digitsOnly (s : string) : string :=
  match s with
  | EmptyString => EmptyString
  | String c r => if is_digit c then String c (digitsOnly r) else digitsOnly r
  end.

Definition digit_char (d : Z) : ascii := ascii_of_nat (Z.to_nat (48 + d)).

(** Decimal digits of a non-negative integer, most significant first. *)
Fixpoint dec_digits (fuel : nat) (n : Z) (acc : string) : string :=
  match fuel with
  | O => acc
  | S f =>
      let acc' := String (digit_char (n mod 10)) acc in
      if n / 10 =? 0 then acc' else dec_digits f (n / 10) acc'
  end.

(** [Number.prototype.toString] on an integer value. *)
Definition int_toString (n : Z) : string :=
  if n <? 0
  then String "-" (dec_digits (S (Z.to_nat (Z.log2 (- n)))) (- n) EmptyString)
  else dec_digits (S (Z.to_nat (Z.log2 n))) n EmptyString.

(** *** IEEE 754 binary64, the JavaScript [number] *)
Definition number := spec_float.
Definition prec : Z := 53.
Definition emax : Z := 1024.
Definition mul (x y : number) : number := SFmul prec emax x y.
Definition add (x y : number) : number := SFadd prec emax x y.

(** The binary64 value of a non-negative integer literal. *)
Definition of_int (n : Z) : number := binary_normalize prec emax n 0 false.

(** The result of [Math.floor]: an integer, or one of the values on
    which [Math.floor] is the identity. *)
Inductive floored := FInt (n : Z) | FInf (neg : bool) | FNaN.

Definition Math_floor (x : number) : floored :=
  match x with
  | S754_zero _ => FInt 0
  | S754_infinity s => FInf s
  | S754_nan => FNaN
  | S754_finite s m e =>
      let v := if s then Z.neg m else Z.pos m in
      FInt (if 0 <=? e then v * 2 ^ e else v / 2 ^ (- e))
  end.

Definition floored_toString (f : floored) : string :=
  match f with
  | FInt n => int_toString n
  | FInf false => "Infinity"
  | FInf true => "-Infinity"
  | FNaN => "NaN"
  end.

(** [new Date(ms)] holds a time value only within 8.64e15 ms of the
    epoch; beyond that, and for a time value that is not a number, it is
    an Invalid Date, and a comparison by [>] or [<=] with an Invalid Date
    on either side is false.  Where two dates are compared by the
    functions below, a time value outside the range stands for an Invalid
    Date. *)
Definition valid_time (t : Date) : bool :=
  (-8640000000000000 <=? t) && (t <=? 8640000000000000).

(** [a > b] on two [Date]s. *)
Definition date_gt (a b : Date) : bool :=
  valid_time a && valid_time b && (b <? a).

(** [a <= b] on two [Date]s. *)
Definition date_le (a b : Date) : bool :=
  valid_time a && valid_time b && (a <=? b).

End Js.

(** ** database/entities/otp.entity.ts *)
Module OtpEntity.

Inductive OtpPurpose := EMAIL_VERIFICATION | PHONE_VERIFICATION | PASSWORD_RESET | LOGIN.

Inductive OtpStatus := PENDING | VERIFIED | EXPIRED | FAILED.

Definition purpose_eqb (a b : OtpPurpose) : bool :=
  match a, b with
  | EMAIL_VERIFICATION, EMAIL_VERIFICATION
  | PHONE_VERIFICATION, PHONE_VERIFICATION
  | PASSWORD_RESET, PASSWORD_RESET
  | LOGIN, LOGIN => true
  | _, _ => false
  end.

Definition status_eqb (a b : OtpStatus) : bool :=
  match a, b with
  | PENDING, PENDING | VERIFIED, VERIFIED | EXPIRED, EXPIRED | FAILED, FAILED => true
  | _, _ => false
  end.

Record Otp := mkOtp {
  id : string;
  userId : option string;
  email : option string;
  phone : option string;
  code : string;
  purpose : OtpPurpose;
  status : OtpStatus;
  attempts : Z;
  maxAttempts : Z;
  expiresAt : Js.Date;
  ipAddress : option string;
  createdAt : Js.Date;
  verifiedAt : option Js.Date
}.

Definition set_status (s : OtpStatus) (o : Otp) : Otp :=
  mkOtp (id o) (userId o) (email o) (phone o) (code o) (purpose o) s
        (attempts o) (maxAttempts o) (expiresAt o) (ipAddress o) (createdAt o)
        (verifiedAt o).

Definition set_attempts (n : Z) (o : Otp) : Otp :=
  mkOtp (id o) (userId o) (email o) (phone o) (code o) (purpose o) (status o)
        n (maxAttempts o) (expiresAt o) (ipAddress o) (createdAt o)
        (verifiedAt o).

Definition set_verifiedAt (t : Js.Date) (o : Otp) : Otp :=
  mkOtp (id o) (userId o) (email o) (phone o) (code o) (purpose o) (status o)
        (attempts o) (maxAttempts o) (expiresAt o) (ipAddress o) (createdAt o)
        (Some t).

End OtpEntity.

(** ** modules/auth/services/otp.service.ts *)
Module OtpService.
Import OtpEntity.

(** The [otps] table. *)
Definition Repo := list Otp.

(** [findOne({ where: { id } })]. *)
Definition findById (r : Repo) (otpId : string) : option Otp :=
  List.find (fun o => String.eqb (id o) otpId) r.

(** [save] of a loaded entity: the row with its primary key is rewritten. *)
Definition save (r : Repo) (o : Otp) : Repo :=
  List.map (fun x => if String.eqb (id x) (id o) then o else x) r.

(** [save] of a new entity: a row is appended to the table. *)
Definition insert (r : Repo) (o : Otp) : Repo := (r ++ [o])%list.

Inductive OtpError :=
| OtpNotFound
| OtpHasExpired
| OtpAlreadyUsed
| MaxAttemptsExceeded
| InvalidOtpCode
| FailedToGenerate.

(** The message of the [BadRequestException] thrown. *)
Definition message (e : OtpError) : string :=
  match e with
  | OtpNotFound => "OTP not found"
  | OtpHasExpired => "OTP has expired"
  | OtpAlreadyUsed => "OTP already used"
  | MaxAttemptsExceeded => "Maximum OTP attempts exceeded"
  | InvalidOtpCode => "Invalid OTP code"
  | FailedToGenerate => "Failed to generate OTP"
  end.

Record Verified := mkVerified {
  verified : bool;
  v_userId : option string;
  v_email : option string;
  v_phone : option string
}.

(** [Math.floor(100000 + Math.random() * 900000).toString()], [rnd]
    being the value of [Math.random()]. *)
Definition generateRandomCode (rnd : Js.number) : string :=
  Js.floored_toString
    (Js.Math_floor (Js.add (Js.of_int 100000) (Js.mul rnd (Js.of_int 900000)))).

(** The rows the UPDATE of [invalidatePreviousOtps] selects. *)
Definition invalidated (p : OtpPurpose) (em ph uid : option string) (o : Otp) : bool :=
  purpose_eqb (purpose o) p
  && status_eqb (status o) PENDING
  && (if Js.truthy em then Js.opt_eqb (email o) em else true)
  && (if Js.truthy ph then Js.opt_eqb (phone o) ph else true)
  && (if Js.truthy uid then Js.opt_eqb (userId o) uid else true).

Definition invalidatePreviousOtps (r : Repo) (p : OtpPurpose)
    (em ph uid : option string) : Repo :=
  List.map (fun o => if invalidated p em ph uid o then set_status EXPIRED o else o) r.

Record Generated := mkGenerated { g_id : string; expiresIn : Z }.

Definition generateOtp (r : Repo) (now : Js.Date) (uuid : string) (rnd : Js.number)
    (p : OtpPurpose) (em ph uid ip : option string) : Repo * Generated :=
  let r1 := invalidatePreviousOtps r p em ph uid in
  let c := generateRandomCode rnd in
  let expires := now + 60 * 1000 in
  let otp := mkOtp uuid uid em ph c p PENDING 0 3 expires ip now None in
  (insert r1 otp, mkGenerated uuid 60).

Definition verifyOtp (r : Repo) (now : Js.Date) (otpId c : string) (p : OtpPurpose)
    : Repo * (OtpError + Verified) :=
  match findById r otpId with
  | None => (r, inl OtpNotFound)
  | Some otp =>
      if expiresAt otp <? now then
        (save r (set_status EXPIRED otp), inl OtpHasExpired)
      else if status_eqb (status otp) VERIFIED then
        (r, inl OtpAlreadyUsed)
      else if maxAttempts otp <=? attempts otp then
        (save r (set_status FAILED otp), inl MaxAttemptsExceeded)
      else if negb (String.eqb (code otp) c) then
        (save r (set_attempts (attempts otp + 1) otp), inl InvalidOtpCode)
      else
        (save r (set_verifiedAt now (set_status VERIFIED otp)),
         inr (mkVerified true (userId otp) (email otp) (phone otp)))
  end.

(** [findOne] with [order: { verifiedAt: 'DESC' }] is only tested for
    being non-null, so the order plays no part. *)
Definition isEmailVerified (r : Repo) (em : string) : bool :=
  List.existsb (fun o => Js.opt_eqb (email o) (Some em)
                         && purpose_eqb (purpose o) EMAIL_VERIFICATION
                         && status_eqb (status o) VERIFIED) r.

Definition isPhoneVerified (r : Repo) (ph : string) : bool :=
  List.existsb (fun o => Js.opt_eqb (phone o) (Some ph)
                         && purpose_eqb (purpose o) PHONE_VERIFICATION
                         && status_eqb (status o) VERIFIED) r.

(** A [where] property that is [undefined] puts no condition on the row. *)
Definition where_opt (cond : option string) (col : option string) : bool :=
  match cond with
  | Some _ => Js.opt_eqb col cond
  | None => true
  end.

Definition pending_filter (now : Js.Date) (p : OtpPurpose) (em ph : option string)
    (o : Otp) : bool :=
  purpose_eqb (purpose o) p
  && where_opt em (email o)
  && where_opt ph (phone o)
  && status_eqb (status o) PENDING
  && (expiresAt o <? now).

Definition getPendingOtp (r : Repo) (now : Js.Date) (p : OtpPurpose)
    (em ph : option string) : option Otp :=
  List.find (pending_filter now p em ph) r.

Definition cleanupExpiredOtps (r : Repo) (now : Js.Date) : Repo * Z :=
  let old o := expiresAt o <? now - 24 * 60 * 60 * 1000 in
  (List.filter (fun o => negb (old o)) r,
   Z.of_nat (List.length (List.filter old r))).

End OtpService.

(** ** modules/auth/services/ip-blocker.service.ts *)
Module IpBlocker.

Record BlockedIpRecord := mkBlocked {
  ipAddress : string;
  reason : string;
  blockedAt : Js.Date;
  unblockAt : Js.Date;
  isActive : bool
}.

(** The private [blockedIps] map. *)
Abbreviation Blocked := (gmap string BlockedIpRecord).

Definition blockIp (m : Blocked) (now : Js.Date) (ip why : string)
    (durationHours : Z) : Blocked * BlockedIpRecord :=
  let record := mkBlocked ip why now (now + durationHours * 60 * 60 * 1000) true in
  (<[ip := record]> m, record).

Definition isIpBlocked (m : Blocked) (now : Js.Date) (ip : string) : Blocked * bool :=
  match m !! ip with
  | None => (m, false)
  | Some record =>
      if unblockAt record <? now then (delete ip m, false)
      else (m, isActive record)
  end.

Definition getBlockRecord (m : Blocked) (now : Js.Date) (ip : string)
    : Blocked * option BlockedIpRecord :=
  match m !! ip with
  | None => (m, None)
  | Some record =>
      if unblockAt record <? now then (delete ip m, None)
      else (m, Some record)
  end.

Definition unblockIp (m : Blocked) (ip : string) : Blocked * bool :=
  (delete ip m, bool_decide (is_Some (m !! ip))).

(** [for (const [ip, record] of this.blockedIps.entries())] with the
    test [now <= record.unblockAt]: a record that passes is pushed, any
    other is deleted, also one whose date is invalid.  The entries come
    in the order of the map's keys, not in the insertion order of a
    JavaScript [Map]. *)
Definition getAllBlockedIps (m : Blocked) (now : Js.Date)
    : Blocked * list BlockedIpRecord :=
  foldl (fun (acc : Blocked * list BlockedIpRecord) (entry : string * BlockedIpRecord) =>
           if Js.date_le now (unblockAt entry.2)
           then (acc.1, (acc.2 ++ [entry.2])%list)
           else (delete entry.1 acc.1, acc.2))
        (m, []) (map_to_list m).

(** The same loop with the test [now > record.unblockAt]: a record that
    passes is deleted and counted, any other is kept, also one whose
    date is invalid. *)
Definition clearExpiredBlocks (m : Blocked) (now : Js.Date) : Blocked * Z :=
  foldl (fun (acc : Blocked * Z) (entry : string * BlockedIpRecord) =>
           if Js.date_gt now (unblockAt entry.2)
           then (delete entry.1 acc.1, acc.2 + 1)
           else acc)
        (m, 0) (map_to_list m).

End IpBlocker.

(** ** modules/auth/services/fraud-detection.service.ts: FraudDetectionService *)
Module FraudDetection.

Inductive FraudReason :=
| FAKE_EMAIL | DISPOSABLE_EMAIL | INVALID_MX_RECORD | FAKE_PHONE | VOIP_NUMBER
| VIRTUAL_SIM | INVALID_CARRIER | VPN_IP | PROXY_IP | TOR_IP | BLACKLISTED_IP
| HIGH_RISK_COUNTRY | BRUTEFORCE_ATTEMPT | MULTIPLE_ACCOUNTS_SAME_IP.

Definition reason_name (r : FraudReason) : string :=
  match r with
  | FAKE_EMAIL => "fake_email"
  | DISPOSABLE_EMAIL => "disposable_email"
  | INVALID_MX_RECORD => "invalid_mx_record"
  | FAKE_PHONE => "fake_phone"
  | VOIP_NUMBER => "voip_number"
  | VIRTUAL_SIM => "virtual_sim"
  | INVALID_CARRIER => "invalid_carrier"
  | VPN_IP => "vpn_ip"
  | PROXY_IP => "proxy_ip"
  | TOR_IP => "tor_ip"
  | BLACKLISTED_IP => "blacklisted_ip"
  | HIGH_RISK_COUNTRY => "high_risk_country"
  | BRUTEFORCE_ATTEMPT => "bruteforce_attempt"
  | MULTIPLE_ACCOUNTS_SAME_IP => "multiple_accounts_same_ip"
  end.

Definition reason_eqb (a b : FraudReason) : bool :=
  String.eqb (reason_name a) (reason_name b).

(** A value stored in a [details] object. *)
Inductive Detail := DBool (b : bool) | DNum (n : Z) | DStr (s : option string).

Record FraudCheckResult := mkResult {
  isFraud : bool;
  fraudScore : Z;
  reasons : list FraudReason;
  details : list (string * Detail)
}.

(** The object handed to [fraudLogRepository.save]. *)
Record FraudLog := mkLog {
  l_ipAddress : string;
  l_email : string;
  l_phone : string;
  l_reason : FraudReason;
  l_details : list (string * Detail);
  l_timestamp : Js.Date
}.

Definition LogRepo := list FraudLog.

Record CarrierInfo := mkCarrier { isValid : bool; isVoip : bool; isVirtual : bool }.

Record IpReputation := mkReputation {
  isVpn : bool; isProxy : bool; isTor : bool;
  country : option string; isp : option string
}.

Definition disposableEmailDomains : list string :=
  [ "tempmail.com"; "guerrillamail.com"; "10minutemail.com"; "mailinator.com";
    "throwaway.email"; "temp-mail.org"; "yopmail.com"; "maildrop.cc";
    "trashmail.com"; "fakeinbox.com"; "temp-mail.io"; "sharklasers.com";
    "spam4.me"; "mailnesia.com"; "tempmail.net" ].

Definition blacklistedIpRanges : list string :=
  [ "192.0.2.0/24"; "198.51.100.0/24"; "203.0.113.0/24" ].

Definition highRiskCountries : list string := [ "KP"; "IR"; "SY"; "CU" ].

Definition has (set : list string) (x : string) : bool :=
  List.existsb (String.eqb x) set.

(** The running [reasons], [fraudScore] and [details] of a check. *)
Record Acc := mkAcc {
  a_reasons : list FraudReason;
  a_score : Z;
  a_details : list (string * Detail)
}.

Definition start : Acc := mkAcc [] 0 [].

(** [reasons.push(r); fraudScore += pts; details[k] = v]. *)
Definition flag (r : FraudReason) (pts : Z) (k : string) (v : Detail) (a : Acc) : Acc :=
  mkAcc (a_reasons a ++ [r])%list (a_score a + pts) (a_details a ++ [(k, v)])%list.

(** [details[k] = v]. *)
Definition note (k : string) (v : Detail) (a : Acc) : Acc :=
  mkAcc (a_reasons a) (a_score a) (a_details a ++ [(k, v)])%list.

(** The object every check returns. *)
Definition finish (a : Acc) : FraudCheckResult :=
  mkResult (50 <=? a_score a) (Z.min (a_score a) 100) (a_reasons a) (a_details a).

(** [email.split('@')[1]]. *)
Definition domain_of (email : string) : option string :=
  List.nth_error (Js.split "@" email) 1.

Definition isDisposableEmail (email : string) : bool :=
  match domain_of email with
  | Some d => has disposableEmailDomains (Js.toLowerCase d)
  | None => false
  end.

(** [/^[0-9]+@/]. *)
Fixpoint digits_then_at (seen : bool) (s : string) : bool :=
  match s with
  | EmptyString => false
  | String c r =>
      if Js.is_digit c then digits_then_at true r
      else seen && Ascii.eqb c "@"
  end.

(** [/[0-9]{10,}@/], [run] counting the digits just read. *)
Fixpoint long_digit_run_at (run : nat) (s : string) : bool :=
  match s with
  | EmptyString => false
  | String c r =>
      if Js.is_digit c then long_digit_run_at (S run) r
      else (Ascii.eqb c "@" && (10 <=? run)%nat) || long_digit_run_at 0 r
  end.

Definition hasSpamPatterns (email : string) : bool :=
  let lower := Js.toLowerCase email in
  digits_then_at false email
  || Js.includes "test" lower
  || Js.includes "fake" lower
  || Js.includes "spam" lower
  || Js.includes "noreply" lower
  || Js.includes "admin@admin" lower
  || long_digit_run_at 0 email.

Definition isValidPhoneFormat (phoneNumber : string) : bool :=
  let n := Z.of_nat (String.length (Js.digitsOnly phoneNumber)) in
  (10 <=? n) && (n <=? 15).

Section Providers.
(** The lookups that leave the process.  [dnsResolveMx d] is the number
    of MX records of [d], [None] when the resolution fails;
    [fraudLogCount rows cond] is the answer of the database to a count
    of the rows satisfying [cond], [None] when the query fails.  The
    other three are placeholders in the source; their bodies there are
    in [Placeholders] below. *)
Variable dnsResolveMx : string -> option nat.
Variable fraudLogCount : LogRepo -> (FraudLog -> bool) -> option Z.
Variable checkCarrierInfo : string -> CarrierInfo.
Variable isRecycledNumber : string -> bool.
Variable ipInRange : string -> string -> bool.
Variable checkIpReputation : string -> IpReputation.

Definition validateMxRecord (email : string) : bool :=
  match domain_of email with
  | Some d =>
      match dnsResolveMx d with
      | Some n => (0 <? n)%nat
      | None => false
      end
  | None => false
  end.

Definition checkEmailFraud (email : string) : FraudCheckResult :=
  let a1 := if isDisposableEmail email
            then flag DISPOSABLE_EMAIL 40 "disposableEmail" (DBool true) start
            else start in
  let a2 := if negb (validateMxRecord email)
            then flag INVALID_MX_RECORD 50 "validMxRecord" (DBool false) a1
            else note "validMxRecord" (DBool true) a1 in
  let a3 := if hasSpamPatterns email
            then flag FAKE_EMAIL 30 "spamPatterns" (DBool true) a2
            else a2 in
  finish a3.

Definition checkPhoneFraud (phoneNumber : string) (countryCode : option string)
    : FraudCheckResult :=
  let a1 := if negb (isValidPhoneFormat phoneNumber)
            then flag FAKE_PHONE 40 "validFormat" (DBool false) start
            else note "validFormat" (DBool true) start in
  let carrierInfo := checkCarrierInfo phoneNumber in
  let a2 :=
    if negb (isValid carrierInfo)
    then flag INVALID_CARRIER 50 "carrierValid" (DBool false) a1
    else
      let b0 := note "carrierValid" (DBool true) a1 in
      let b1 := if isVoip carrierInfo
                then flag VOIP_NUMBER 60 "isVoip" (DBool true) b0 else b0 in
      if isVirtual carrierInfo
      then flag VIRTUAL_SIM 70 "isVirtual" (DBool true) b1 else b1 in
  let a3 := if isRecycledNumber phoneNumber
            then flag FAKE_PHONE 35 "recycledNumber" (DBool true) a2
            else a2 in
  finish a3.

Definition isBlacklistedIp (ip : string) : bool :=
  List.existsb (ipInRange ip) blacklistedIpRanges.

Definition checkBruteforceAttempt (logs : LogRepo) (now : Js.Date)
    (ip email : string) (timeWindowMinutes : Z) : bool :=
  let timeThreshold := now - timeWindowMinutes * 60 * 1000 in
  match fraudLogCount logs
          (fun row => String.eqb (l_ipAddress row) ip
                      && reason_eqb (l_reason row) BRUTEFORCE_ATTEMPT
                      && (timeThreshold <=? l_timestamp row)) with
  | Some attemptCount => 5 <=? attemptCount
  | None => false
  end.

Definition checkMultipleAccountsFromIp (logs : LogRepo) (ip : string) : Z :=
  match fraudLogCount logs
          (fun row => String.eqb (l_ipAddress row) ip
                      && reason_eqb (l_reason row) MULTIPLE_ACCOUNTS_SAME_IP) with
  | Some n => n
  | None => 0
  end.

Definition checkIpFraud (logs : LogRepo) (now : Js.Date) (ip : string)
    (email : option string) : FraudCheckResult :=
  let a1 := if isBlacklistedIp ip
            then flag BLACKLISTED_IP 100 "blacklisted" (DBool true) start
            else start in
  let rep := checkIpReputation ip in
  let a2 := if isVpn rep then flag VPN_IP 40 "isVpn" (DBool true) a1 else a1 in
  let a3 := if isProxy rep then flag PROXY_IP 40 "isProxy" (DBool true) a2 else a2 in
  let a4 := if isTor rep then flag TOR_IP 80 "isTor" (DBool true) a3 else a3 in
  let a5 := if Js.truthy (country rep)
               && has highRiskCountries (Js.or_else (country rep) "")
            then flag HIGH_RISK_COUNTRY 50 "highRiskCountry" (DStr (country rep)) a4
            else a4 in
  let a6 := if checkBruteforceAttempt logs now ip (Js.or_else email "") 15
            then flag BRUTEFORCE_ATTEMPT 60 "bruteforceDetected" (DBool true) a5
            else a5 in
  let a7 := if Js.truthy email
            then
              let accountCount := checkMultipleAccountsFromIp logs ip in
              if 3 <=? accountCount
              then flag MULTIPLE_ACCOUNTS_SAME_IP 50 "multipleAccounts"
                        (DNum accountCount) a6
              else a6
            else a6 in
  finish (note "ipAddress" (DStr (Some ip))
            (note "isp" (DStr (isp rep))
               (note "country" (DStr (country rep)) a7))).

(** [fraudLogRepository.save({ ..., timestamp: new Date() })]. *)
Definition logFraudAttempt (logs : LogRepo) (now : Js.Date) (ip email phone : string)
    (why : FraudReason) (det : list (string * Detail)) : LogRepo :=
  (logs ++ [mkLog ip email phone why det now])%list.

End Providers.

(** The bodies the source gives to the placeholder lookups. *)
Module Placeholders.
Definition checkCarrierInfo (_ : string) : CarrierInfo := mkCarrier true false false.
Definition isRecycledNumber (_ : string) : bool := false.
Definition ipInRange (_ _ : string) : bool := false.
Definition checkIpReputation (_ : string) : IpReputation :=
  mkReputation false false false (Some "US") (Some "Unknown").
End Placeholders.

(** A database that answers every count. *)
Definition count_rows (rows : LogRepo) (cond : FraudLog -> bool) : option Z :=
  Some (Z.of_nat (List.length (List.filter cond rows))).

End FraudDetection.

(** ** database/entities/user.entity.ts *)
Module UserEntity.

Inductive UserRole := SUPER_ADMIN | ADMIN | MODERATOR | SUPPORT | USER.

Inductive UserStatus := ACTIVE | INACTIVE | SUSPENDED | PENDING_VERIFICATION.

Definition status_eqb (a b : UserStatus) : bool :=
  match a, b with
  | ACTIVE, ACTIVE | INACTIVE, INACTIVE | SUSPENDED, SUSPENDED
  | PENDING_VERIFICATION, PENDING_VERIFICATION => true
  | _, _ => false
  end.

Record User := mkUser {
  id : string;
  firstName : string;
  lastName : string;
  email : string;
  phone : option string;
  password : string;
  role : UserRole;
  status : UserStatus;
  mfaEnabled : bool;
  mfaSecret : option string;
  refreshToken : option string;
  lastLoginAt : option Js.Date;
  lastLoginIp : option string;
  failedLoginAttempts : Z;
  lockedUntil : option Js.Date
}.

Definition isAccountLocked (u : User) (now : Js.Date) : bool :=
  match lockedUntil u with
  | None => false
  | Some t => now <? t
  end.

Definition canAttemptLogin (u : User) (now : Js.Date) : bool :=
  status_eqb (status u) ACTIVE && negb (isAccountLocked u now).

(** [usersRepository.findOne({ where: { email } })]. *)
Definition findByEmail (users : list User) (em : string) : option User :=
  List.find (fun u => String.eqb (email u) em) users.

End UserEntity.

(** ** modules/auth/services/fraud-detection.service.ts: DualVerificationService *)
Module DualVerification.
Import UserEntity.

Record VerificationStatus := mkStatus {
  emailVerified : bool;
  phoneVerified : bool;
  fraudCheckPassed : bool;
  ipClean : bool;
  sessionValid : bool;
  canLogin : bool;
  failureReasons : list string
}.

Record LoginAttemptRecord := mkAttempt {
  ipAddress : string;
  a_email : string;
  timestamp : Js.Date;
  success : bool;
  reason : option string
}.

Record DeviceInfo := mkDevice { lastSeen : Js.Date; d_attempts : Z }.

(** The repositories and services injected into the service, and its two
    private maps. *)
Record State := mkState {
  users : list User;
  otps : OtpService.Repo;
  fraudLogs : FraudDetection.LogRepo;
  blockedIps : gmap string IpBlocker.BlockedIpRecord;
  loginAttempts : gmap string (list LoginAttemptRecord);
  deviceFingerprints : gmap string DeviceInfo
}.

Definition set_blockedIps (m : gmap string IpBlocker.BlockedIpRecord) (s : State) :=
  mkState (users s) (otps s) (fraudLogs s) m (loginAttempts s) (deviceFingerprints s).

Definition set_fraudLogs (l : FraudDetection.LogRepo) (s : State) :=
  mkState (users s) (otps s) l (blockedIps s) (loginAttempts s) (deviceFingerprints s).

Definition set_loginAttempts (m : gmap string (list LoginAttemptRecord)) (s : State) :=
  mkState (users s) (otps s) (fraudLogs s) (blockedIps s) m (deviceFingerprints s).

Definition set_deviceFingerprints (m : gmap string DeviceInfo) (s : State) :=
  mkState (users s) (otps s) (fraudLogs s) (blockedIps s) (loginAttempts s) m.

(** The template literal [`${email}:${ipAddress}`]. *)
Definition key_of (em ip : string) : string := String.append em (String ":" ip).

(** [xs.join(sep)]. *)
Fixpoint join (sep : string) (xs : list string) : string :=
  match xs with
  | [] => ""
  | [x] => x
  | x :: rest => String.append x (String.append sep (join sep rest))
  end.

Definition recordLoginAttempt (s : State) (now : Js.Date) (em ip : string)
    (ok : bool) (why : option string) : State :=
  let key := key_of em ip in
  let attempts := default [] (loginAttempts s !! key) in
  let pushed := (attempts ++ [mkAttempt ip em now ok why])%list in
  let oneDayAgo := now - 24 * 60 * 60 * 1000 in
  let recentAttempts := List.filter (fun a => oneDayAgo <? timestamp a) pushed in
  set_loginAttempts (<[key := recentAttempts]> (loginAttempts s)) s.

Definition checkBruteforceAttempt (s : State) (now : Js.Date) (em ip : string) : bool :=
  let key := key_of em ip in
  let attempts := default [] (loginAttempts s !! key) in
  let fifteenMinutesAgo := now - 15 * 60 * 1000 in
  let recentFailedAttempts :=
    List.filter (fun a => negb (success a) && (fifteenMinutesAgo <? timestamp a)) attempts in
  let verdict := (5 <=? List.length recentFailedAttempts)%nat in
  if (5 <=? List.length attempts)%nat then
    let lastFiveAttempts := List.skipn (List.length attempts - 5) attempts in
    match List.nth_error lastFiveAttempts 4, List.nth_error lastFiveAttempts 0 with
    | Some last, Some first =>
        let timeDiff := timestamp last - timestamp first in
        if timeDiff <? 30 * 1000 then true else verdict
    | _, _ => false
    end
  else verdict.

Definition isDeviceTrusted (s : State) (now : Js.Date) (fp em : string) : State * bool :=
  match deviceFingerprints s !! fp with
  | None =>
      (set_deviceFingerprints (<[fp := mkDevice now 1]> (deviceFingerprints s)) s, false)
  | Some info =>
      (set_deviceFingerprints
         (<[fp := mkDevice now (d_attempts info + 1)]> (deviceFingerprints s)) s, true)
  end.

Definition clearLoginAttempts (s : State) (em : string) (ip : option string) : State :=
  if Js.truthy ip then
    set_loginAttempts (delete (key_of em (Js.or_else ip "")) (loginAttempts s)) s
  else
    set_loginAttempts
      (filter (fun kv : string * list LoginAttemptRecord =>
                 Js.startsWith (String.append em ":") kv.1 = false)
              (loginAttempts s)) s.

Section Providers.
Variable fraudLogCount :
  FraudDetection.LogRepo -> (FraudDetection.FraudLog -> bool) -> option Z.
Variable ipInRange : string -> string -> bool.
Variable checkIpReputation : string -> FraudDetection.IpReputation.

Definition checkLoginEligibility (s : State) (now : Js.Date) (em ip : string)
    (deviceFingerprint : option string) : State * VerificationStatus :=
  match findByEmail (users s) em with
  | None => (s, mkStatus false false false false false false ["User not found"])
  | Some user =>
      (* 2. blocked IP *)
      let '(blocked, isBlocked) := IpBlocker.isIpBlocked (blockedIps s) now ip in
      let s := set_blockedIps blocked s in
      let ipClean := negb isBlocked in
      let why := if isBlocked
                 then ["IP address is blocked due to suspicious activity"] else [] in
      (* 3. email verification *)
      let emailVerified := OtpService.isEmailVerified (otps s) em in
      let why := if emailVerified then why else (why ++ ["Email not verified"])%list in
      (* 4. phone verification *)
      let phoneVerified :=
        if Js.truthy (phone user)
        then OtpService.isPhoneVerified (otps s) (Js.or_else (phone user) "")
        else false in
      let why := if Js.truthy (phone user) && negb phoneVerified
                 then (why ++ ["Mobile number not verified"])%list else why in
      (* 5. IP fraud *)
      let ipFraudCheck :=
        FraudDetection.checkIpFraud fraudLogCount ipInRange checkIpReputation
          (fraudLogs s) now ip (Some em) in
      let fraud := FraudDetection.isFraud ipFraudCheck in
      let ipClean := if fraud then false else ipClean in
      let fraudCheckPassed := negb fraud in
      let why :=
        if fraud
        then (why ++ [String.append "IP fraud detected: "
                        (join ", " (List.map FraudDetection.reason_name
                                      (FraudDetection.reasons ipFraudCheck)))])%list
        else why in
      let s :=
        if fraud
        then set_fraudLogs
               (FraudDetection.logFraudAttempt (fraudLogs s) now ip em
                  (Js.or_else (phone user) "")
                  (List.hd FraudDetection.BLACKLISTED_IP
                     (FraudDetection.reasons ipFraudCheck))
                  (FraudDetection.details ipFraudCheck)) s
        else s in
      (* 6. brute force *)
      let bruteforceDetected := checkBruteforceAttempt s now em ip in
      let fraudCheckPassed := if bruteforceDetected then false else fraudCheckPassed in
      let why := if bruteforceDetected
                 then (why ++ ["Too many login attempts. Please try again later."])%list
                 else why in
      let s := if bruteforceDetected
               then set_blockedIps
                      (IpBlocker.blockIp (blockedIps s) now ip
                         "Bruteforce attack detected" 24).1 s
               else s in
      let ipClean := if bruteforceDetected then false else ipClean in
      (* 7. device fingerprint *)
      let '(s, deviceTrusted) :=
        if Js.truthy deviceFingerprint
        then isDeviceTrusted s now (Js.or_else deviceFingerprint "") em
        else (s, true) in
      let sessionValid := deviceTrusted in
      let why := if deviceTrusted then why
                 else (why ++ ["Unrecognized device. Additional verification required."])%list in
      (* 8. account status *)
      let suspended := UserEntity.status_eqb (status user) SUSPENDED in
      let sessionValid := if suspended then false else sessionValid in
      let why := if suspended
                 then (why ++ ["Account is temporarily locked. Please contact support."])%list
                 else why in
      (* 9. temporary freeze *)
      let frozen := match lockedUntil user with
                    | Some t => now <? t
                    | None => false
                    end in
      let sessionValid := if frozen then false else sessionValid in
      let why := if frozen
                 then (why ++ ["Account is temporarily frozen due to security concerns."])%list
                 else why in
      let canLogin :=
        emailVerified && phoneVerified && fraudCheckPassed && ipClean && sessionValid in
      (s, mkStatus emailVerified phoneVerified fraudCheckPassed ipClean sessionValid
            canLogin why)
  end.

End Providers.

End DualVerification.

(** ** modules/auth/auth.service.ts: AuthService.signin *)
Module Auth.
Import UserEntity.

Record LoginDto := mkLogin {
  dto_email : string;
  dto_password : string;
  mfaCode : option string
}.

Inductive AuthError :=
| UnauthorizedException (msg : string)
| BadRequestException (msg : string).

Record Payload := mkPayload { sub : string; p_email : string; p_role : UserRole }.

Record UserView := mkView {
  v_id : string; v_email : string; v_firstName : string; v_lastName : string;
  v_role : UserRole
}.

Record Tokens := mkTokens {
  accessToken : string;
  t_refreshToken : string;
  t_user : UserView
}.

(** What the service does to its collaborators, in order. *)
Inductive Event :=
| Saved (u : User)
| Signed (p : Payload) (expiresIn : string).

Definition with_failure (n : Z) (locked : option Js.Date) (st : UserStatus) (u : User) : User :=
  mkUser (id u) (firstName u) (lastName u) (email u) (phone u) (password u) (role u)
         st (mfaEnabled u) (mfaSecret u) (refreshToken u) (lastLoginAt u)
         (lastLoginIp u) n locked.

Definition with_login (now : Js.Date) (ip : string) (u : User) : User :=
  mkUser (id u) (firstName u) (lastName u) (email u) (phone u) (password u) (role u)
         ACTIVE (mfaEnabled u) (mfaSecret u) (refreshToken u) (Some now)
         (Some ip) 0 None.

Definition with_password (pw : string) (u : User) : User :=
  mkUser (id u) (firstName u) (lastName u) (email u) (phone u) pw (role u)
         (status u) (mfaEnabled u) (mfaSecret u) (refreshToken u) (lastLoginAt u)
         (lastLoginIp u) (failedLoginAttempts u) (lockedUntil u).

Definition with_refreshToken (t : string) (u : User) : User :=
  mkUser (id u) (firstName u) (lastName u) (email u) (phone u) (password u) (role u)
         (status u) (mfaEnabled u) (mfaSecret u) (Some t) (lastLoginAt u)
         (lastLoginIp u) (failedLoginAttempts u) (lockedUntil u).

Section Collaborators.
(** bcrypt, speakeasy and the JWT signer are libraries outside the
    repository; [totp_verify secret token window now] stands for
    [speakeasy.totp.verify({ secret, encoding: 'base32', token, window })]
    evaluated at the time [now]. *)
Variable bcrypt_hash : string -> Z -> string.
Variable bcrypt_compare : string -> string -> bool.
Variable totp_verify : option string -> string -> Z -> Js.Date -> bool.
Variable jwt_sign : Payload -> string -> Js.Date -> string.

(** The [@BeforeUpdate] hook of the entity. *)
Definition hashPassword (u : User) : User :=
  if negb (String.eqb (password u) "") && negb (Js.startsWith "$2" (password u))
  then with_password (bcrypt_hash (password u) 10) u
  else u.

Definition validatePassword (u : User) (pw : string) : bool :=
  bcrypt_compare pw (password u).

(** [usersRepository.save(user)] of a loaded user. *)
Definition save (users : list User) (u : User) : list User * User :=
  let stored := hashPassword u in
  (List.map (fun x => if String.eqb (id x) (id u) then stored else x) users, stored).

Definition generateTokens (users : list User) (now : Js.Date) (u : User)
    : list User * list Event * Tokens :=
  let payload := mkPayload (id u) (email u) (role u) in
  let access := jwt_sign payload "15m" now in
  let refresh := jwt_sign payload "7d" now in
  let u1 := with_refreshToken refresh u in
  let '(users1, stored) := save users u1 in
  (users1,
   [Signed payload "15m"; Signed payload "7d"; Saved stored],
   mkTokens access refresh
     (mkView (id stored) (email stored) (firstName stored) (lastName stored)
             (role stored))).

Definition signin (users : list User) (now : Js.Date) (dto : LoginDto) (ip : string)
    : list User * list Event * (AuthError + Tokens) :=
  match findByEmail users (dto_email dto) with
  | None => (users, [], inl (UnauthorizedException "Invalid credentials"))
  | Some user =>
      if negb (canAttemptLogin user now) then
        (users, [],
         inl (UnauthorizedException
                "Account is locked or inactive. Please contact support."))
      else if negb (validatePassword user (dto_password dto)) then
        let n := failedLoginAttempts user + 1 in
        let user1 :=
          if 5 <=? n
          then with_failure n (Some (now + 15 * 60 * 1000)) SUSPENDED user
          else with_failure n (lockedUntil user) (status user) user in
        let '(users1, stored) := save users user1 in
        (users1, [Saved stored], inl (UnauthorizedException "Invalid credentials"))
      else if mfaEnabled user && negb (Js.truthy (mfaCode dto)) then
        (users, [], inl (BadRequestException "MFA code required"))
      else if mfaEnabled user
              && negb (totp_verify (mfaSecret user) (Js.or_else (mfaCode dto) "") 2 now)
      then
        (users, [], inl (UnauthorizedException "Invalid MFA code"))
      else
        let user1 := with_login now ip user in
        let '(users1, stored) := save users user1 in
        let '(users2, events, tokens) := generateTokens users1 now stored in
        (users2, Saved stored :: events, inr tokens)
  end.

End Collaborators.

End Auth.

(** ** Drivers and predicates used to state the properties *)
Module Scenario.
Import OtpEntity OtpService.

(** A sequence of [verifyOtp] calls against one identifier, each with the
    clock reading and the code it supplies; the answers come back in
    call order. *)
Fixpoint verifyMany (r : Repo) (otpId : string) (p : OtpPurpose)
    (calls : list (Js.Date * string)) : Repo * list (OtpError + Verified) :=
  match calls with
  | [] => (r, [])
  | (now, c) :: rest =>
      let '(r1, answer) := verifyOtp r now otpId c p in
      let '(r2, answers) := verifyMany r1 otpId p rest in
      (r2, answer :: answers)
  end.

Definition status_of (r : Repo) (otpId : string) : option OtpStatus :=
  status <$> findById r otpId.

Definition attempts_of (r : Repo) (otpId : string) : option Z :=
  attempts <$> findById r otpId.

(** A rejection for expiry or for exhausted attempts, as opposed to a
    plain wrong code. *)
Definition expired_or_exhausted (a : OtpError + Verified) : Prop :=
  a = inl OtpHasExpired \/ a = inl MaxAttemptsExceeded.

(** The reading "Failed right after the third wrong code" of the
    attempt limit, at one record and four calls. *)
Definition failed_after_third (r : Repo) (otpId : string) (p : OtpPurpose)
    (c1 c2 c3 c4 : Js.Date * string) : Prop :=
  status_of (verifyMany r otpId p [c1; c2; c3]).1 otpId = Some FAILED
  /\ attempts_of (verifyMany r otpId p [c1; c2; c3; c4]).1 otpId = Some 3.

(** The reading "a block is over at the instant [unblockAt]" of the
    one-hour block, at one registry and one blocking call. *)
Definition block_expired_at_boundary (m : gmap string IpBlocker.BlockedIpRecord)
    (now : Js.Date) (ip why : string) : Prop :=
  let '(m1, record) := IpBlocker.blockIp m now ip why 1 in
  (IpBlocker.isIpBlocked m1 (IpBlocker.unblockAt record - 1000) ip).2 = true
  /\ (IpBlocker.isIpBlocked m1 (IpBlocker.unblockAt record + 1000) ip).2 = false
  /\ (IpBlocker.isIpBlocked m1 (IpBlocker.unblockAt record) ip).2 = false.

(** One record an issuance has just produced and nothing has touched. *)
Definition fresh_otp (otpId c : string) (expires : Js.Date) : Otp :=
  mkOtp otpId None (Some "a@b.com") None c EMAIL_VERIFICATION PENDING 0 3 expires
        None (expires - 60000) None.

(** [Math.random()] returning 0.5 and 0.25. *)
Definition half : Js.number := S754_finite false 4503599627370496 (-53).
Definition quarter : Js.number := S754_finite false 4503599627370496 (-54).

(** A failed attempt that falls inside the window ending at [now]. *)
Definition failed_within (now window : Z) (a : DualVerification.LoginAttemptRecord) : Prop :=
  DualVerification.success a = false /\ now - window < DualVerification.timestamp a.

#[global] Instance failed_within_dec now window a : Decision (failed_within now window a).
Proof. unfold failed_within. apply _. Defined.

(** The last five attempts of a history, first to last, span less than
    [span] milliseconds. *)
Definition last_five_within (span : Z) (attempts : list DualVerification.LoginAttemptRecord) : Prop :=
  exists older a1 a2 a3 a4 a5,
    attempts = (older ++ [a1; a2; a3; a4; a5])%list
    /\ DualVerification.timestamp a5 - DualVerification.timestamp a1 < span.

(** Two codes for two subjects: the one for [c@d.com] is issued at time 0,
    the one for [a@b.com] at 100 s. *)
Definition two_subjects : OtpService.Repo :=
  (OtpService.generateOtp
     (OtpService.generateOtp [] 0 "otp-0" half OtpEntity.EMAIL_VERIFICATION
        (Some "c@d.com") None None None).1
     100000 "otp-1" half OtpEntity.EMAIL_VERIFICATION (Some "a@b.com") None None None).1.

(** An active account that gave no phone number at registration. *)
Definition alice : UserEntity.User :=
  UserEntity.mkUser "u-1" "Alice" "Doe" "alice@example.com" None "$2b$10$hash" UserEntity.USER UserEntity.ACTIVE
         false None None None None 0 None.

(** Her address has been verified by a code. *)
Definition alice_otp : OtpEntity.Otp :=
  OtpEntity.mkOtp "otp-1" None (Some "alice@example.com") None "550000"
    OtpEntity.EMAIL_VERIFICATION OtpEntity.VERIFIED 0 3 60000 None 0 (Some 1000).

Definition alice_state : DualVerification.State := DualVerification.mkState [alice] [alice_otp] [] ∅ ∅ ∅.

(** An active account with multi-factor authentication and four failed
    attempts behind it, and stand-ins for the three libraries: a hash is
    the password behind a marker, the only valid TOTP code is 492039, a
    token is its lifetime. *)
Definition bob : UserEntity.User :=
  UserEntity.mkUser "u-2" "Bob" "Roe" "bob@example.com" None "$2:hunter2hunter2"
    UserEntity.USER UserEntity.ACTIVE true (Some "JBSWY3DPEHPK3PXP") None None None 4 None.

Definition toy_hash (pw : string) (_ : Z) : string := String.append "$2:" pw.
Definition toy_compare (pw hash : string) : bool := String.eqb (String.append "$2:" pw) hash.
Definition toy_totp (_ : option string) (token : string) (_ : Z) (_ : Js.Date) : bool :=
  String.eqb token "492039".
Definition toy_sign (_ : Auth.Payload) (expiresIn : string) (_ : Js.Date) : string :=
  expiresIn.

(** A value [Math.random()] can return: a binary64 number [r] with
    [0 <= r < 1]. *)
Definition in_unit_interval (r : Js.number) : Prop :=
  valid_binary Js.prec Js.emax r = true
  /\ SFleb (S754_zero false) r = true
  /\ SFltb r (Js.of_int 1) = true.

(** Binary64 values at work here are multiples of [2 ^ -1200]; [scaled m e]
    is the integer [m * 2 ^ e * 2 ^ 1200], and [dyadic f v] says that the
    number [f] is non-negative with [f * 2 ^ 1200 = v]. *)
Definition scaled (m e : Z) : Z := m * 2 ^ (e + 1200).

Definition dyadic (f : Js.number) (v : Z) : Prop :=
  match f with
  | S754_zero _ => v = 0
  | S754_finite false m e => -1200 <= e /\ scaled (Z.pos m) e = v
  | _ => False
  end.

End Scenario.

(** ** DualVerificationService: account freeze and verification summary *)
Module DualAccounts.
Import UserEntity DualVerification.

Record VerificationSummary := mkSummary {
  s_emailVerified : bool;
  s_phoneVerified : bool;
  accountStatus : UserStatus;
  s_lastLoginAt : option Js.Date;
  s_lastLoginIp : option string
}.

Definition set_users (l : list User) (s : State) : State :=
  mkState l (otps s) (fraudLogs s) (blockedIps s) (loginAttempts s) (deviceFingerprints s).

(** The error is the message of the [BadRequestException] rethrown. *)
Definition getVerificationSummary (s : State) (em : string)
    : string + VerificationSummary :=
  match findByEmail (users s) em with
  | None => inl "User not found"
  | Some user =>
      let emailVerified := OtpService.isEmailVerified (otps s) em in
      let phoneVerified :=
        if Js.truthy (phone user)
        then OtpService.isPhoneVerified (otps s) (Js.or_else (phone user) "")
        else false in
      inr (mkSummary emailVerified phoneVerified (status user) (lastLoginAt user)
             (if Js.truthy (lastLoginIp user) then lastLoginIp user else None))
  end.

Section Collaborators.
Variable bcrypt_hash : string -> Z -> string.

(** An unknown account throws inside the [try]; the [catch] only logs. *)
Definition freezeUserAccount (s : State) (now : Js.Date) (em : string)
    (durationMinutes : Z) : State :=
  match findByEmail (users s) em with
  | None => s
  | Some user =>
      let lockedUntil := now + durationMinutes * 60 * 1000 in
      let user1 := Auth.with_failure (failedLoginAttempts user) (Some lockedUntil)
                     SUSPENDED user in
      set_users (Auth.save bcrypt_hash (users s) user1).1 s
  end.

Definition unfreezeUserAccount (s : State) (em : string) : State :=
  match findByEmail (users s) em with
  | None => s
  | Some user =>
      let user1 := Auth.with_failure (failedLoginAttempts user) None ACTIVE user in
      set_users (Auth.save bcrypt_hash (users s) user1).1 s
  end.

End Collaborators.

End DualAccounts.

(** ** modules/auth/auth.service.ts: register, refreshToken, logout *)
Module AuthFlows.
Import UserEntity Auth.

Inductive HttpError :=
| BadRequest (msg : string)
| Unauthorized (msg : string)
| Forbidden (msg : string)
| Conflict (msg : string)
| ServerError (msg : string).

Record RegisterDto := mkRegister {
  r_email : string;
  r_password : string;
  confirmPassword : string;
  r_firstName : string;
  r_lastName : string;
  r_phone : option string
}.

Record Registered := mkRegistered {
  reg_id : string;
  reg_email : string;
  reg_message : string
}.

(** The user repository, the fraud log and the block registry the
    service works on. *)
Record AuthState := mkAuthState {
  a_users : list User;
  a_fraudLogs : FraudDetection.LogRepo;
  a_blockedIps : gmap string IpBlocker.BlockedIpRecord
}.

(** [usersRepository.findOne({ where: { id } })]. *)
Definition findById (users : list User) (userId : string) : option User :=
  List.find (fun u => String.eqb (id u) userId) users.

Definition without_refreshToken (u : User) : User :=
  mkUser (id u) (firstName u) (lastName u) (email u) (phone u) (password u) (role u)
         (status u) (mfaEnabled u) (mfaSecret u) None (lastLoginAt u)
         (lastLoginIp u) (failedLoginAttempts u) (lockedUntil u).

(** [reasons.includes(r)]. *)
Definition includes_reason (r : FraudDetection.FraudReason)
    (l : list FraudDetection.FraudReason) : bool :=
  List.existsb (FraudDetection.reason_eqb r) l.

Section Collaborators.
(** [jwt_verify token now] is the payload of a token the JWT library
    accepts at the time [now], [None] when [jwtService.verify] throws;
    [uuid] arguments are the keys the database generates. *)
Variable bcrypt_hash : string -> Z -> string.
Variable jwt_sign : Payload -> string -> Js.Date -> string.
Variable jwt_verify : string -> Js.Date -> option Payload.
Variable fraudLogCount :
  FraudDetection.LogRepo -> (FraudDetection.FraudLog -> bool) -> option Z.
Variable ipInRange : string -> string -> bool.
Variable checkIpReputation : string -> FraudDetection.IpReputation.

(** The IP screening of [register]: the state it leaves and the
    exception it throws, if any. *)
Definition screenIp (st : AuthState) (now : Js.Date) (dto : RegisterDto) (ip : string)
    : AuthState * option HttpError :=
  let '(m1, blocked) := IpBlocker.isIpBlocked (a_blockedIps st) now ip in
  if blocked then
    let '(m2, blockRecord) := IpBlocker.getBlockRecord m1 now ip in
    let logs := FraudDetection.logFraudAttempt (a_fraudLogs st) now ip (r_email dto)
                  (Js.or_else (r_phone dto) "") FraudDetection.BLACKLISTED_IP
                  [("reason", FraudDetection.DStr (Some "IP is blocked"))] in
    (mkAuthState (a_users st) logs m2,
     Some (Forbidden "Your IP has been temporarily blocked. Please try again later."))
  else
    let ipFraudCheck :=
      FraudDetection.checkIpFraud fraudLogCount ipInRange checkIpReputation
        (a_fraudLogs st) now ip (Some (r_email dto)) in
    if FraudDetection.isFraud ipFraudCheck then
      let logs := FraudDetection.logFraudAttempt (a_fraudLogs st) now ip (r_email dto)
                    (Js.or_else (r_phone dto) "")
                    (List.hd FraudDetection.BLACKLISTED_IP
                       (FraudDetection.reasons ipFraudCheck))
                    (FraudDetection.details ipFraudCheck) in
      if includes_reason FraudDetection.TOR_IP (FraudDetection.reasons ipFraudCheck)
         || includes_reason FraudDetection.BLACKLISTED_IP
              (FraudDetection.reasons ipFraudCheck)
      then
        let why := String.append "High-risk IP: "
                     (DualVerification.join ", "
                        (List.map FraudDetection.reason_name
                           (FraudDetection.reasons ipFraudCheck))) in
        (mkAuthState (a_users st) logs (IpBlocker.blockIp m1 now ip why 24).1,
         Some (Forbidden
                 "Registration from your location is not allowed. Please contact support."))
      else if 50 <=? FraudDetection.fraudScore ipFraudCheck then
        (mkAuthState (a_users st) logs m1,
         Some (Forbidden
                 "Your registration request could not be processed. Please try again or contact support."))
      else (mkAuthState (a_users st) logs m1, None)
    else (mkAuthState (a_users st) (a_fraudLogs st) m1, None).

Definition register (st : AuthState) (now : Js.Date) (uuid : string)
    (dto : RegisterDto) (ip : option string) : AuthState * (HttpError + Registered) :=
  if negb (String.eqb (r_password dto) (confirmPassword dto)) then
    (st, inl (BadRequest "Passwords do not match"))
  else
    let '(st1, refused) :=
      if Js.truthy ip then screenIp st now dto (Js.or_else ip "") else (st, None) in
    match refused with
    | Some e => (st1, inl e)
    | None =>
        match findByEmail (a_users st1) (r_email dto) with
        | Some _ => (st1, inl (Conflict "Email already registered"))
        | None =>
            let user :=
              hashPassword bcrypt_hash
                (mkUser uuid (r_firstName dto) (r_lastName dto) (r_email dto)
                   (r_phone dto) (r_password dto) USER PENDING_VERIFICATION false
                   None None None None 0 None) in
            (mkAuthState (a_users st1 ++ [user])%list (a_fraudLogs st1) (a_blockedIps st1),
             inr (mkRegistered (id user) (email user)
                    "Registration successful. Please verify your email."))
        end
    end.

Definition refreshToken (users : list User) (now : Js.Date) (token : string)
    : list User * list Event * (HttpError + Tokens) :=
  let refused := (users, [], inl (Unauthorized "Invalid refresh token")) in
  match jwt_verify token now with
  | None => refused
  | Some payload =>
      match findById users (sub payload) with
      | None => refused
      | Some user =>
          if negb (Js.opt_eqb (UserEntity.refreshToken user) (Some token)) then refused
          else
            let '(users1, events, tokens) :=
              generateTokens bcrypt_hash jwt_sign users now user in
            (users1, events, inr tokens)
      end
  end.

(** For an unknown [userId] the assignment to [user.refreshToken] throws a
    [TypeError] that nothing catches. *)
Definition logout (users : list User) (userId : string)
    : list User * (HttpError + string) :=
  match findById users userId with
  | None => (users, inl (ServerError "TypeError"))
  | Some user =>
      ((save bcrypt_hash users (without_refreshToken user)).1,
       inr "Logged out successfully")
  end.

End Collaborators.

End AuthFlows.

(** ** modules/auth/controllers/security.controller.ts *)
Module SecurityApi.

Record OtpSent := mkSent { s_message : string; otpId : string; s_expiresIn : Z }.

Section Providers.
Variable dnsResolveMx : string -> option nat.

(** [POST security/otp/email]. *)
Definition generateEmailOtp (otps : OtpService.Repo) (now : Js.Date) (uuid : string)
    (rnd : Js.number) (email : string) : OtpService.Repo * (AuthFlows.HttpError + OtpSent) :=
  if String.eqb email "" then (otps, inl (AuthFlows.BadRequest "Email is required"))
  else if FraudDetection.isFraud (FraudDetection.checkEmailFraud dnsResolveMx email) then
    (otps, inl (AuthFlows.BadRequest
                  "Email validation failed. Please use a different email."))
  else
    let '(otps1, result) :=
      OtpService.generateOtp otps now uuid rnd OtpEntity.EMAIL_VERIFICATION
        (Some email) None None None in
    (otps1, inr (mkSent "OTP sent to email" (OtpService.g_id result)
                   (OtpService.expiresIn result))).

End Providers.


End SecurityApi.

(** ** Invariants stated about the services *)
Module Invariants.

(** The running totals of a fraud check: the score is never negative,
    and no reason is listed exactly when the score is zero. *)
Definition consistent (a : FraudDetection.Acc) : Prop :=
  0 <= FraudDetection.a_score a
  /\ (FraudDetection.a_reasons a = [] <-> FraudDetection.a_score a = 0).

(** A run of [recordLoginAttempt] calls for one key, each with its clock
    reading and its outcome. *)
Fixpoint recordAll (s : DualVerification.State) (em ip : string)
    (calls : list (Js.Date * bool)) : DualVerification.State :=
  match calls with
  | [] => s
  | (t, ok) :: rest =>
      recordAll (DualVerification.recordLoginAttempt s t em ip ok None) em ip rest
  end.

(** Every record of the registry carries a valid date. *)
Definition dates_valid (m : gmap string IpBlocker.BlockedIpRecord) : Prop :=
  map_Forall (fun _ record => Js.valid_time (IpBlocker.unblockAt record) = true) m.

End Invariants.

(** ** Concrete data for the examples that follow *)
Module Fixtures.

Definition no_verify (_ : string) (_ : Js.Date) : option Auth.Payload := None.

(** The token is accepted and names the user [u-2]. *)
Definition toy_verify (_ : string) (_ : Js.Date) : option Auth.Payload :=
  Some (Auth.mkPayload "u-2" "bob@example.com" UserEntity.USER).

Definition carol_dto : AuthFlows.RegisterDto :=
  AuthFlows.mkRegister "carol@example.com" "Secret123!" "Secret123!" "Carol" "Poe" None.

Definition empty_auth : AuthFlows.AuthState := AuthFlows.mkAuthState [] [] ∅.

(** No accounts yet, and one address blocked for an hour at time 0. *)
Definition blocked_auth : AuthFlows.AuthState :=
  AuthFlows.mkAuthState [] [] (IpBlocker.blockIp ∅ 0 "6.6.6.6" "abuse" 1).1.

Definition attempt (t : Js.Date) (ok : bool) : DualVerification.LoginAttemptRecord :=
  DualVerification.mkAttempt "10.0.0.1" "a@b.com" t ok None.

Definition empty_state : DualVerification.State :=
  DualVerification.mkState [] [] [] ∅ ∅ ∅.

(** An active account with a phone number, both its address and its
    number verified by a code. *)
Definition dave : UserEntity.User :=
  UserEntity.mkUser "u-3" "Dave" "Low" "dave@example.com" (Some "+923001234567")
    "$2b$10$hash" UserEntity.USER UserEntity.ACTIVE false None None None None 0 None.

Definition dave_state : DualVerification.State :=
  DualVerification.mkState [dave]
    [OtpEntity.mkOtp "otp-7" None (Some "dave@example.com") None "550000"
       OtpEntity.EMAIL_VERIFICATION OtpEntity.VERIFIED 0 3 60000 None 0 (Some 1000);
     OtpEntity.mkOtp "otp-8" None None (Some "+923001234567") "325000"
       OtpEntity.PHONE_VERIFICATION OtpEntity.VERIFIED 0 3 70000 None 10000 (Some 11000)]
    [] ∅ ∅ ∅.

(** The same account after five wrong passwords from one address, one
    second apart. *)
Definition dave_attacked : DualVerification.State :=
  Invariants.recordAll dave_state "dave@example.com" "8.8.8.8"
    [(1000, false); (2000, false); (3000, false); (4000, false); (5000, false)].

(** Two addresses blocked at time 0, one for an hour and one for a day. *)
Definition two_blocks : gmap string IpBlocker.BlockedIpRecord :=
  (IpBlocker.blockIp (IpBlocker.blockIp ∅ 0 "10.0.0.1" "test" 1).1
     0 "10.0.0.2" "test" 24).1.

(** An address blocked at time 0 for so many hours that [unblockAt] is an
    Invalid Date. *)
Definition endless_block : gmap string IpBlocker.BlockedIpRecord :=
  (IpBlocker.blockIp ∅ 0 "10.0.0.9" "test" 2400000001).1.

End Fixtures.

(** * Properties of the one-time-code ledger *)
Module OtpFacts.
Import OtpEntity OtpService Scenario.

Lemma findById_id r i o : findById r i = Some o -> id o = i.
Proof.
  unfold findById. intros H. apply List.find_some in H as [_ H].
  now apply String.eqb_eq.
Qed.

Lemma findById_In r i o : findById r i = Some o -> In o r.
Proof. unfold findById. intros H. now apply List.find_some in H as [H _]. Qed.

(** Rewriting the row of a key leaves that key pointing at the new row. *)
Lemma findById_save_same r o o' :
  findById r (id o') = Some o -> findById (save r o') (id o') = Some o'.
Proof.
  unfold findById, save. induction r as [|x r IH]; simpl; [discriminate|].
  destruct (String.eqb (id x) (id o')) eqn:E; simpl.
  - intros _. now rewrite String.eqb_refl.
  - rewrite E. exact IH.
Qed.

Lemma findById_save_at r i o o' :
  findById r i = Some o -> id o' = id o -> findById (save r o') i = Some o'.
Proof.
  intros Hf Hid. pose proof (findById_id _ _ _ Hf) as Hi.
  rewrite <- Hi, <- Hid. apply (findById_save_same r o). now rewrite Hid, Hi.
Qed.

(** ... and every other key pointing where it did. *)
Lemma findById_save_other r o' i :
  i <> id o' -> findById (save r o') i = findById r i.
Proof.
  intros Hne. unfold findById, save. induction r as [|x r IH]; simpl; [reflexivity|].
  destruct (String.eqb (id x) (id o')) eqn:E; simpl.
  - apply String.eqb_eq in E.
    destruct (String.eqb (id o') i) eqn:E1.
    + apply String.eqb_eq in E1. congruence.
    + destruct (String.eqb (id x) i) eqn:E2.
      * apply String.eqb_eq in E2. congruence.
      * exact IH.
  - destruct (String.eqb (id x) i); [reflexivity | exact IH].
Qed.

Lemma status_eqb_eq a b : status_eqb a b = true <-> a = b.
Proof. destruct a, b; simpl; split; congruence. Qed.

Lemma purpose_eqb_eq a b : purpose_eqb a b = true <-> a = b.
Proof. destruct a, b; simpl; split; congruence. Qed.

(** One wrong code against a live record: the counter moves by one, the
    status stays, the answer is the wrong-code rejection. *)
Lemma verifyOtp_wrong_code r now i c p o :
  findById r i = Some o ->
  now <= expiresAt o ->
  status o <> VERIFIED ->
  attempts o < maxAttempts o ->
  c <> code o ->
  verifyOtp r now i c p
  = (save r (set_attempts (attempts o + 1) o), inl InvalidOtpCode).
Proof.
  intros Hf Ht Hs Ha Hc. unfold verifyOtp. rewrite Hf.
  destruct (expiresAt o <? now) eqn:E1; [apply Z.ltb_lt in E1; lia|].
  destruct (status_eqb (status o) VERIFIED) eqn:E2;
    [apply status_eqb_eq in E2; contradiction|].
  destruct (maxAttempts o <=? attempts o) eqn:E3; [apply Z.leb_le in E3; lia|].
  destruct (String.eqb (code o) c) eqn:E4; [apply String.eqb_eq in E4; congruence|].
  reflexivity.
Qed.

(** A call against a live record whose attempts are used up. *)
Lemma verifyOtp_exhausted r now i c p o :
  findById r i = Some o ->
  now <= expiresAt o ->
  status o <> VERIFIED ->
  maxAttempts o <= attempts o ->
  verifyOtp r now i c p = (save r (set_status FAILED o), inl MaxAttemptsExceeded).
Proof.
  intros Hf Ht Hs Ha. unfold verifyOtp. rewrite Hf.
  destruct (expiresAt o <? now) eqn:E1; [apply Z.ltb_lt in E1; lia|].
  destruct (status_eqb (status o) VERIFIED) eqn:E2;
    [apply status_eqb_eq in E2; contradiction|].
  destruct (maxAttempts o <=? attempts o) eqn:E3; [reflexivity|].
  apply Z.leb_gt in E3. lia.
Qed.

(** Inside its lifetime a verified record answers "already used" and
    nothing is written. *)
Lemma verifyOtp_verified_live r now i c p o :
  findById r i = Some o ->
  now <= expiresAt o ->
  status o = VERIFIED ->
  verifyOtp r now i c p = (r, inl OtpAlreadyUsed).
Proof.
  intros Hf Ht Hs. unfold verifyOtp. rewrite Hf.
  destruct (expiresAt o <? now) eqn:E1; [apply Z.ltb_lt in E1; lia|].
  now rewrite Hs.
Qed.

(** Past its lifetime every record, whatever its status, is rewritten
    as expired. *)
Lemma verifyOtp_late r now i c p o :
  findById r i = Some o ->
  expiresAt o < now ->
  verifyOtp r now i c p = (save r (set_status EXPIRED o), inl OtpHasExpired).
Proof.
  intros Hf Ht. unfold verifyOtp. rewrite Hf.
  apply Z.ltb_lt in Ht. now rewrite Ht.
Qed.

End OtpFacts.

Module OtpAttempts.
Import OtpEntity OtpService Scenario OtpFacts.

Lemma verifyMany_cons r i p now c rest :
  verifyMany r i p ((now, c) :: rest)
  = ((verifyMany (verifyOtp r now i c p).1 i p rest).1,
     (verifyOtp r now i c p).2 :: (verifyMany (verifyOtp r now i c p).1 i p rest).2).
Proof.
  simpl. destruct (verifyOtp r now i c p) as [r1 a]. simpl.
  now destruct (verifyMany r1 i p rest).
Qed.

(** The record a wrong code leaves behind is found again under the same
    identifier. *)
Lemma wrong_code_step r now i c p o :
  findById r i = Some o ->
  now <= expiresAt o ->
  status o <> VERIFIED ->
  attempts o < maxAttempts o ->
  c <> code o ->
  (verifyOtp r now i c p).2 = inl InvalidOtpCode
  /\ findById (verifyOtp r now i c p).1 i = Some (set_attempts (attempts o + 1) o).
Proof.
  intros Hf Ht Hs Ha Hc.
  rewrite (verifyOtp_wrong_code r now i c p o Hf Ht Hs Ha Hc). simpl. split; [reflexivity|].
  pose proof (findById_id _ _ _ Hf) as Hid. subst i.
  exact (findById_save_same r o (set_attempts (attempts o + 1) o) Hf).
Qed.

Lemma exhausted_step r now i c p o :
  findById r i = Some o ->
  now <= expiresAt o ->
  status o <> VERIFIED ->
  maxAttempts o <= attempts o ->
  (verifyOtp r now i c p).2 = inl MaxAttemptsExceeded
  /\ findById (verifyOtp r now i c p).1 i = Some (set_status FAILED o).
Proof.
  intros Hf Ht Hs Ha.
  rewrite (verifyOtp_exhausted r now i c p o Hf Ht Hs Ha). simpl. split; [reflexivity|].
  pose proof (findById_id _ _ _ Hf) as Hid. subst i.
  exact (findById_save_same r o (set_status FAILED o) Hf).
Qed.

(** C3, as the code has it: on a live record with [maxAttempts = 3] and
    no attempt made, three wrong codes are each answered "invalid code"
    and leave the counter at 3 with the status untouched (still
    [PENDING] for a pending record); it is the fourth call that is
    answered "maximum attempts exceeded", writes [FAILED], and leaves the
    counter at 3. *)
Theorem three_wrong_codes_then_failed_on_fourth r i p o t1 t2 t3 t4 c1 c2 c3 c4 :
  findById r i = Some o ->
  status o <> VERIFIED ->
  attempts o = 0 ->
  maxAttempts o = 3 ->
  t1 <= expiresAt o -> t2 <= expiresAt o -> t3 <= expiresAt o -> t4 <= expiresAt o ->
  c1 <> code o -> c2 <> code o -> c3 <> code o -> c4 <> code o ->
  let after3 := verifyMany r i p [(t1, c1); (t2, c2); (t3, c3)] in
  let after4 := verifyMany r i p [(t1, c1); (t2, c2); (t3, c3); (t4, c4)] in
  after3.2 = [inl InvalidOtpCode; inl InvalidOtpCode; inl InvalidOtpCode]
  /\ status_of after3.1 i = Some (status o)
  /\ attempts_of after3.1 i = Some 3
  /\ after4.2 = [inl InvalidOtpCode; inl InvalidOtpCode; inl InvalidOtpCode;
                 inl MaxAttemptsExceeded]
  /\ status_of after4.1 i = Some FAILED
  /\ attempts_of after4.1 i = Some 3.
Proof.
  intros Hf Hs Ha Hm H1 H2 H3 H4 N1 N2 N3 N4 after3 after4.
  destruct (wrong_code_step r t1 i c1 p o Hf H1 Hs ltac:(lia) N1) as [A1 F1].
  set (o1 := set_attempts (attempts o + 1) o) in *.
  set (r1 := (verifyOtp r t1 i c1 p).1) in *.
  destruct (wrong_code_step r1 t2 i c2 p o1 F1 H2 Hs ltac:(simpl; lia) N2) as [A2 F2].
  set (o2 := set_attempts (attempts o1 + 1) o1) in *.
  set (r2 := (verifyOtp r1 t2 i c2 p).1) in *.
  destruct (wrong_code_step r2 t3 i c3 p o2 F2 H3 Hs ltac:(simpl; lia) N3) as [A3 F3].
  set (o3 := set_attempts (attempts o2 + 1) o2) in *.
  set (r3 := (verifyOtp r2 t3 i c3 p).1) in *.
  destruct (exhausted_step r3 t4 i c4 p o3 F3 H4 Hs ltac:(simpl; lia)) as [A4 F4].
  subst after3 after4. rewrite !verifyMany_cons. simpl.
  fold r1. rewrite A1. fold r2. rewrite A2. fold r3. rewrite A3, A4.
  unfold status_of, attempts_of. rewrite F3, F4. simpl.
  repeat split; try reflexivity; f_equal; lia.
Qed.

Lemma three_wrong_codes_witness :
  let r := [fresh_otp "otp-1" "654321" 60000] in
  status_of (verifyMany r "otp-1" EMAIL_VERIFICATION
               [(1000, "000000"); (2000, "111111"); (3000, "222222")]).1 "otp-1"
  = Some PENDING
  /\ status_of (verifyMany r "otp-1" EMAIL_VERIFICATION
                  [(1000, "000000"); (2000, "111111"); (3000, "222222");
                   (4000, "333333")]).1 "otp-1"
     = Some FAILED.
Proof.
  intros r.
  pose proof (three_wrong_codes_then_failed_on_fourth r "otp-1" EMAIL_VERIFICATION
                (fresh_otp "otp-1" "654321" 60000)
                1000 2000 3000 4000 "000000" "111111" "222222" "333333"
                eq_refl ltac:(discriminate) eq_refl eq_refl
                ltac:(simpl; lia) ltac:(simpl; lia) ltac:(simpl; lia) ltac:(simpl; lia)
                ltac:(discriminate) ltac:(discriminate) ltac:(discriminate)
                ltac:(discriminate)) as H.
  simpl in H. destruct H as (_ & H3 & _ & _ & H4 & _).
  split; [exact H3 | exact H4].
Defined.

(** C3 as worded fails: after the third wrong code the record is still
    [PENDING], not [FAILED]. *)
Lemma not_failed_after_third :
  ~ failed_after_third [fresh_otp "otp-1" "654321" 60000] "otp-1" EMAIL_VERIFICATION
      (1000, "000000") (2000, "111111") (3000, "222222") (4000, "333333").
Proof. unfold failed_after_third. vm_compute. intros [H _]. discriminate H. Qed.

End OtpAttempts.

Module OtpSupersede.
Import OtpEntity OtpService Scenario OtpFacts.

Lemma findById_app r r' i :
  findById (r ++ r')%list i
  = match findById r i with Some o => Some o | None => findById r' i end.
Proof.
  unfold findById. induction r as [|x r IH]; simpl; [reflexivity|].
  now destruct (String.eqb (id x) i).
Qed.

Lemma findById_map (f : Otp -> Otp) r i :
  (forall o, id (f o) = id o) ->
  findById (List.map f r) i = f <$> findById r i.
Proof.
  intros Hid. unfold findById. induction r as [|x r IH]; simpl; [reflexivity|].
  rewrite Hid. now destruct (String.eqb (id x) i).
Qed.

Lemma invalidate_keeps_id p em ph uid o :
  id (if invalidated p em ph uid o then set_status EXPIRED o else o) = id o.
Proof. now destruct (invalidated p em ph uid o). Qed.

(** Under the identifier of the first issuance, the table after a second
    issuance holds the first record with at most its status changed. *)
Lemma first_record_after_reissue r now1 now2 id1 id2 rnd1 rnd2 p em ph uid ip1 ip2 :
  findById r id1 = None ->
  id1 <> id2 ->
  let r1 := (generateOtp r now1 id1 rnd1 p em ph uid ip1).1 in
  let r2 := (generateOtp r1 now2 id2 rnd2 p em ph uid ip2).1 in
  exists o, findById r2 id1 = Some o
    /\ code o = generateRandomCode rnd1
    /\ expiresAt o = now1 + 60 * 1000
    /\ attempts o = 0 /\ maxAttempts o = 3
    /\ (status o = PENDING \/ status o = EXPIRED)
    /\ userId o = uid /\ email o = em /\ phone o = ph.
Proof.
  intros Hfresh Hne r1 r2. subst r1 r2. unfold generateOtp. simpl.
  unfold insert, invalidatePreviousOtps.
  rewrite findById_app, (findById_map _ _ _ (invalidate_keeps_id p em ph uid)).
  rewrite findById_app, (findById_map _ _ _ (invalidate_keeps_id p em ph uid)).
  rewrite Hfresh. unfold findById. simpl. rewrite String.eqb_refl. simpl.
  match goal with |- context [invalidated ?a ?b ?c ?d ?e] =>
    destruct (invalidated a b c d e) end;
    eexists; (split; [reflexivity|]); simpl; repeat split; auto.
Qed.

(** Whatever was in the table, the code of a superseded issuance is
    accepted while its own sixty seconds last. *)
Lemma superseded_code_accepted r now1 now2 now3 id1 id2 rnd1 rnd2 p em ph uid ip1 ip2 :
  findById r id1 = None ->
  id1 <> id2 ->
  now3 <= now1 + 60 * 1000 ->
  let r1 := (generateOtp r now1 id1 rnd1 p em ph uid ip1).1 in
  let r2 := (generateOtp r1 now2 id2 rnd2 p em ph uid ip2).1 in
  (verifyOtp r2 now3 id1 (generateRandomCode rnd1) p).2
  = inr (mkVerified true uid em ph).
Proof.
  intros Hfresh Hne Hlive r1 r2.
  destruct (first_record_after_reissue r now1 now2 id1 id2 rnd1 rnd2 p em ph uid
              ip1 ip2 Hfresh Hne)
    as (o & Hf & Hc & He & Ha & Hm & Hs & Hu & Hem & Hph).
  fold r1 r2 in Hf. unfold verifyOtp. rewrite Hf.
  destruct (expiresAt o <? now3) eqn:E1; [apply Z.ltb_lt in E1; lia|].
  destruct (status_eqb (status o) VERIFIED) eqn:E2;
    [apply status_eqb_eq in E2; destruct Hs; congruence|].
  destruct (maxAttempts o <=? attempts o) eqn:E3; [apply Z.leb_le in E3; lia|].
  rewrite Hc, String.eqb_refl. simpl. now rewrite Hu, Hem, Hph.
Qed.

(** C2 on the code: a first code is issued for [a@b.com] at time 0, a
    second one ten seconds later, which marks the first record
    [EXPIRED]; twenty seconds in, the first identifier with the first
    code is nevertheless accepted, and the record becomes [VERIFIED]. *)
Theorem superseded_code_still_verifies :
  let r1 := (generateOtp [] 0 "otp-1" half EMAIL_VERIFICATION
               (Some "a@b.com") None None None).1 in
  let r2 := (generateOtp r1 10000 "otp-2" quarter EMAIL_VERIFICATION
               (Some "a@b.com") None None None).1 in
  let answer := verifyOtp r2 20000 "otp-1" (generateRandomCode half) EMAIL_VERIFICATION in
  status_of r2 "otp-1" = Some EXPIRED
  /\ status_of r2 "otp-2" = Some PENDING
  /\ answer.2 = inr (mkVerified true None (Some "a@b.com") None)
  /\ ~ expired_or_exhausted answer.2
  /\ status_of answer.1 "otp-1" = Some VERIFIED.
Proof.
  vm_compute. repeat split; try reflexivity.
  intros [H | H]; discriminate H.
Qed.

End OtpSupersede.

Module OtpTerminal.
Import OtpEntity OtpService Scenario OtpFacts.

(** Inside its lifetime a failed record whose attempts are used up stays
    failed, and no code is compared. *)
Lemma failed_live_stays_failed r now i c p o :
  findById r i = Some o ->
  now <= expiresAt o ->
  status o = FAILED ->
  maxAttempts o <= attempts o ->
  (verifyOtp r now i c p).2 = inl MaxAttemptsExceeded
  /\ status_of (verifyOtp r now i c p).1 i = Some FAILED.
Proof.
  intros Hf Ht Hs Ha.
  assert (Hv : status o <> VERIFIED) by (rewrite Hs; discriminate).
  rewrite (verifyOtp_exhausted r now i c p o Hf Ht Hv Ha). simpl. split; [reflexivity|].
  unfold status_of.
  now rewrite (findById_save_at r i o (set_status FAILED o) Hf eq_refl).
Qed.

(** Past its lifetime a verified record is rewritten as expired, and
    the answer is "expired", for every table and every supplied code. *)
Lemma verified_late_becomes_expired r now i c p o :
  findById r i = Some o ->
  status o = VERIFIED ->
  expiresAt o < now ->
  (verifyOtp r now i c p).2 = inl OtpHasExpired
  /\ status_of (verifyOtp r now i c p).1 i = Some EXPIRED.
Proof.
  intros Hf Hs Ht. rewrite (verifyOtp_late r now i c p o Hf Ht). simpl.
  split; [reflexivity|].
  unfold status_of.
  now rewrite (findById_save_at r i o (set_status EXPIRED o) Hf eq_refl).
Qed.

(** The scenario of the specification: the right code, supplied 61
    seconds after issuance, is rejected as expired. *)
Example correct_code_after_61_seconds :
  let r1 := (generateOtp [] 0 "otp-1" half EMAIL_VERIFICATION
               (Some "a@b.com") None None None).1 in
  (verifyOtp r1 61000 "otp-1" "550000" EMAIL_VERIFICATION).2 = inl OtpHasExpired.
Proof. vm_compute. reflexivity. Qed.

(** C5 on the code: a code issued at time 0 is verified one second
    later, so the address counts as verified; a further call on the same
    identifier at 61 s is answered "expired", not "already used", and
    rewrites the [VERIFIED] record as [EXPIRED], after which the address
    no longer counts as verified. *)
Theorem verified_record_rewritten_after_expiry :
  let r1 := (generateOtp [] 0 "otp-1" half EMAIL_VERIFICATION
               (Some "a@b.com") None None None).1 in
  let first := verifyOtp r1 1000 "otp-1" "550000" EMAIL_VERIFICATION in
  let late := verifyOtp first.1 61000 "otp-1" "550000" EMAIL_VERIFICATION in
  first.2 = inr (mkVerified true None (Some "a@b.com") None)
  /\ status_of first.1 "otp-1" = Some VERIFIED
  /\ isEmailVerified first.1 "a@b.com" = true
  /\ late.2 = inl OtpHasExpired
  /\ status_of late.1 "otp-1" = Some EXPIRED
  /\ isEmailVerified late.1 "a@b.com" = false.
Proof. vm_compute. repeat split; reflexivity. Qed.

End OtpTerminal.

Module OtpPending.
Import OtpEntity OtpService Scenario OtpFacts.

(** C9: whatever [getPendingOtp] returns is a row of the table that
    matches the query (its purpose, and the address and the number where
    they are given), is pending, and has its [expiresAt] strictly before
    the clock reading; and the answer is null exactly when every pending
    row that matches the query is still unexpired, whatever other rows
    the table holds.  So a pending code that has not expired is never
    returned, and when the codes of the queried subject are all live the
    answer is null. *)
Theorem getPendingOtp_only_expired r now p em ph :
  (forall o, getPendingOtp r now p em ph = Some o ->
             In o r /\ purpose o = p
             /\ where_opt em (email o) = true /\ where_opt ph (phone o) = true
             /\ status o = PENDING /\ expiresAt o < now)
  /\ (getPendingOtp r now p em ph = None
      <-> forall o, In o r -> purpose o = p ->
                    where_opt em (email o) = true -> where_opt ph (phone o) = true ->
                    status o = PENDING -> now <= expiresAt o).
Proof.
  assert (Hsel : forall o, pending_filter now p em ph o = true
                           <-> purpose o = p
                               /\ where_opt em (email o) = true
                               /\ where_opt ph (phone o) = true
                               /\ status o = PENDING /\ expiresAt o < now).
  { intros o. unfold pending_filter.
    rewrite !andb_true_iff, purpose_eqb_eq, status_eqb_eq, Z.ltb_lt. tauto. }
  unfold getPendingOtp. split.
  - intros o H. apply List.find_some in H as [Hin Hf]. apply Hsel in Hf. tauto.
  - split.
    + intros Hnone o Hin Hp He Hph Hst.
      pose proof (List.find_none _ _ Hnone o Hin) as Hf.
      destruct (Z.le_gt_cases now (expiresAt o)) as [|Hlt]; [assumption|].
      assert (pending_filter now p em ph o = true) by (apply Hsel; auto).
      congruence.
    + intros Hall.
      destruct (List.find (pending_filter now p em ph) r) as [o|] eqn:E; [|reflexivity].
      apply List.find_some in E as [Hin Hf].
      apply Hsel in Hf as (Hp & He & Hph & Hst & Hexp).
      specialize (Hall o Hin Hp He Hph Hst). lia.
Qed.

(** A table with two pending codes: one for [c@d.com], issued at time 0
    and never used, and one for [a@b.com], issued at 100 s and good until
    160 s.  Asked at 130 s for the code of [a@b.com], [getPendingOtp]
    answers null, the stale row of the other subject notwithstanding. *)
Lemma getPendingOtp_misses_live_code :
  status_of two_subjects "otp-1" = Some PENDING
  /\ (forall o, In o two_subjects -> purpose o = EMAIL_VERIFICATION ->
                where_opt (Some "a@b.com") (email o) = true ->
                where_opt None (phone o) = true ->
                status o = PENDING -> 130000 <= expiresAt o)
  /\ getPendingOtp two_subjects 130000 EMAIL_VERIFICATION (Some "a@b.com") None = None.
Proof.
  assert (Hlive : forall o, In o two_subjects -> purpose o = EMAIL_VERIFICATION ->
                            where_opt (Some "a@b.com") (email o) = true ->
                            where_opt None (phone o) = true ->
                            status o = PENDING -> 130000 <= expiresAt o).
  { intros o [<- | [<- | []]] _ He _ _; [discriminate He | cbn; lia]. }
  split; [reflexivity|]. split; [exact Hlive|].
  apply (proj2 (proj2 (getPendingOtp_only_expired two_subjects 130000 EMAIL_VERIFICATION
                         (Some "a@b.com") None))).
  exact Hlive.
Defined.

End OtpPending.

(** * Properties of the IP block registry *)
Module IpBlockFacts.
Import IpBlocker Scenario.

(** After [blockIp], the address is reported blocked exactly up to and
    including the instant [unblockAt]. *)
Lemma isIpBlocked_after_block (m : gmap string BlockedIpRecord) now ip why d t :
  (isIpBlocked (blockIp m now ip why d).1 t ip).2
  = negb (now + d * 60 * 60 * 1000 <? t).
Proof.
  unfold blockIp, isIpBlocked. simpl. rewrite lookup_insert_eq. simpl.
  now destruct (now + d * 60 * 60 * 1000 <? t).
Qed.

(** C4, as the code has it: a block of one hour ends at
    [unblockAt = now + 3 600 000 ms]; the address is reported blocked at
    every instant up to and including [unblockAt] (so one second before
    it, and at [unblockAt] itself) and not blocked at any later instant
    (so one second after it). *)
Theorem one_hour_block_boundary (m : gmap string BlockedIpRecord) now ip why :
  let b := blockIp m now ip why 1 in
  unblockAt b.2 = now + 3600000
  /\ (forall t, (isIpBlocked b.1 t ip).2 = true <-> t <= unblockAt b.2)
  /\ (isIpBlocked b.1 (unblockAt b.2 - 1000) ip).2 = true
  /\ (isIpBlocked b.1 (unblockAt b.2 + 1000) ip).2 = false
  /\ (isIpBlocked b.1 (unblockAt b.2) ip).2 = true.
Proof.
  intros b. subst b.
  assert (Hu : unblockAt (blockIp m now ip why 1).2 = now + 3600000)
    by (simpl; lia).
  rewrite Hu. split; [reflexivity|].
  assert (Hall : forall t, (isIpBlocked (blockIp m now ip why 1).1 t ip).2 = true
                           <-> t <= now + 3600000).
  { intros t. rewrite isIpBlocked_after_block.
    destruct (now + 1 * 60 * 60 * 1000 <? t) eqn:E; simpl.
    - apply Z.ltb_lt in E. split; [discriminate | lia].
    - apply Z.ltb_ge in E. split; [lia | reflexivity]. }
  split; [exact Hall|]. split; [apply Hall; lia|]. split; [|apply Hall; lia].
  destruct (isIpBlocked (blockIp m now ip why 1).1 (now + 3600000 + 1000) ip).2 eqn:E;
    [|reflexivity].
  apply Hall in E. lia.
Qed.

(** C4 as worded fails: at the instant [unblockAt] of a one-hour block
    the address is still reported blocked. *)
Lemma block_still_active_at_boundary :
  ~ block_expired_at_boundary ∅ 0 "203.0.113.7" "test".
Proof.
  unfold block_expired_at_boundary.
  destruct (blockIp ∅ 0 "203.0.113.7" "test" 1) as [m1 record] eqn:E.
  intros (_ & _ & H).
  assert (Hm : m1 = (blockIp ∅ 0 "203.0.113.7" "test" 1).1) by now rewrite E.
  assert (Hr : record = (blockIp ∅ 0 "203.0.113.7" "test" 1).2) by now rewrite E.
  rewrite Hm, isIpBlocked_after_block, Hr in H. simpl in H. discriminate H.
Qed.

End IpBlockFacts.

(** * Properties of the fraud scorer *)
Module FraudFacts.
Import FraudDetection.

Lemma flag_score r pts k v a : a_score (flag r pts k v a) = a_score a + pts.
Proof. reflexivity. Qed.

Lemma note_score k v a : a_score (note k v a) = a_score a.
Proof. reflexivity. Qed.

(** What [finish] makes of a non-negative running score. *)
Lemma finish_bounded a :
  0 <= a_score a ->
  0 <= fraudScore (finish a) <= 100
  /\ (isFraud (finish a) = true <-> 50 <= fraudScore (finish a)).
Proof.
  intros H. unfold finish. simpl. split; [lia|].
  rewrite Z.leb_le. lia.
Qed.

#[local] Ltac score_nonneg :=
  repeat match goal with
         | |- context [if ?b then _ else _] => destruct b
         end;
  repeat (rewrite ?flag_score, ?note_score); simpl; lia.

Lemma email_score_nonneg dns email :
  exists a, checkEmailFraud dns email = finish a /\ 0 <= a_score a.
Proof. unfold checkEmailFraud. eexists. split; [reflexivity|]. score_nonneg. Qed.

Lemma phone_score_nonneg carrier recycled phone cc :
  exists a, checkPhoneFraud carrier recycled phone cc = finish a /\ 0 <= a_score a.
Proof. unfold checkPhoneFraud. eexists. split; [reflexivity|]. score_nonneg. Qed.

Lemma ip_score_nonneg cnt inRange rep logs now ip email :
  exists a, checkIpFraud cnt inRange rep logs now ip email = finish a /\ 0 <= a_score a.
Proof. unfold checkIpFraud. eexists. split; [reflexivity|]. score_nonneg. Qed.

(** C6: whatever the address, number or IP, whatever the providers and
    the fraud log answer, each of the three checks returns a score
    between 0 and 100 and flags fraud exactly when that score is at
    least 50. *)
Theorem fraud_score_bounded_and_thresholded dns cnt carrier recycled inRange rep :
  (forall email,
      let res := checkEmailFraud dns email in
      0 <= fraudScore res <= 100 /\ (isFraud res = true <-> 50 <= fraudScore res))
  /\ (forall phone cc,
      let res := checkPhoneFraud carrier recycled phone cc in
      0 <= fraudScore res <= 100 /\ (isFraud res = true <-> 50 <= fraudScore res))
  /\ (forall logs now ip email,
      let res := checkIpFraud cnt inRange rep logs now ip email in
      0 <= fraudScore res <= 100 /\ (isFraud res = true <-> 50 <= fraudScore res)).
Proof.
  split; [|split].
  - intros email res. subst res.
    destruct (email_score_nonneg dns email) as (a & -> & Ha). now apply finish_bounded.
  - intros phone cc res. subst res.
    destruct (phone_score_nonneg carrier recycled phone cc) as (a & -> & Ha).
    now apply finish_bounded.
  - intros logs now ip email res. subst res.
    destruct (ip_score_nonneg cnt inRange rep logs now ip email) as (a & -> & Ha).
    now apply finish_bounded.
Qed.

(** The scenario of the specification: a disposable domain and a
    spam-like local part, on a domain that resolves, score 40 + 30. *)
Example mailinator_scores_70 :
  let res := checkEmailFraud (fun _ => Some 1%nat) "test123456789@mailinator.com" in
  fraudScore res = 70 /\ isFraud res = true
  /\ reasons res = [DISPOSABLE_EMAIL; FAKE_EMAIL].
Proof. vm_compute. repeat split; reflexivity. Qed.

(** With the placeholder lookups of the source and an empty fraud log an
    IP scores 0. *)
Example clean_ip_scores_0 :
  let res := checkIpFraud count_rows Placeholders.ipInRange
               Placeholders.checkIpReputation [] 0 "8.8.8.8" None in
  fraudScore res = 0 /\ isFraud res = false.
Proof. vm_compute. split; reflexivity. Qed.

End FraudFacts.

(** * Properties of the login-attempt tracker and of the eligibility verdict *)
Module DualFacts.
Import UserEntity DualVerification Scenario.

Lemma count_failed_within now (l : list LoginAttemptRecord) :
  List.length
    (List.filter (fun a => negb (success a) && (now - 15 * 60 * 1000 <? timestamp a)) l)
  = List.length (filter (failed_within now 900000) l).
Proof.
  induction l as [|a l IH]; [reflexivity|].
  simpl. rewrite filter_cons.
  destruct (decide (failed_within now 900000 a)) as [[Hs Ht] | Hn].
  - rewrite Hs. simpl.
    destruct (now - 15 * 60 * 1000 <? timestamp a) eqn:E;
      [simpl; now rewrite IH | apply Z.ltb_ge in E; lia].
  - destruct (success a) eqn:Hs; simpl; [exact IH|].
    destruct (now - 15 * 60 * 1000 <? timestamp a) eqn:E; [|exact IH].
    apply Z.ltb_lt in E. exfalso. apply Hn. split; [exact Hs | lia].
Qed.

(** A history of five or more attempts ends in five attempts. *)
Lemma last_five_exist (l : list LoginAttemptRecord) :
  (5 <= List.length l)%nat ->
  exists a1 a2 a3 a4 a5,
    List.skipn (List.length l - 5) l = [a1; a2; a3; a4; a5].
Proof.
  intros H.
  assert (Hlen : List.length (List.skipn (List.length l - 5) l) = 5%nat)
    by (rewrite List.length_skipn; lia).
  destruct (List.skipn (List.length l - 5) l) as [|a1 [|a2 [|a3 [|a4 [|a5 [|a6 t]]]]]];
    simpl in Hlen; try lia.
  now exists a1, a2, a3, a4, a5.
Qed.

(** C7: for the key of an identity and an address, the brute-force
    check answers true exactly when at least five failed attempts of the
    key are younger than fifteen minutes, or the key has at least five
    attempts and its last five, whatever their outcome, span less than
    thirty seconds from first to last. *)
Theorem checkBruteforceAttempt_iff s now em ip :
  let attempts := default [] (loginAttempts s !! key_of em ip) in
  checkBruteforceAttempt s now em ip = true
  <-> (5 <= List.length (filter (failed_within now 900000) attempts))%nat
      \/ ((5 <= List.length attempts)%nat /\ last_five_within 30000 attempts).
Proof.
  intros attempts. unfold checkBruteforceAttempt. fold attempts.
  rewrite count_failed_within.
  destruct (5 <=? List.length attempts)%nat eqn:E5.
  - apply Nat.leb_le in E5.
    destruct (last_five_exist attempts E5) as (a1 & a2 & a3 & a4 & a5 & Hlast).
    rewrite Hlast. cbn [List.nth_error].
    assert (Hsplit : attempts
                     = (List.firstn (List.length attempts - 5) attempts
                        ++ [a1; a2; a3; a4; a5])%list)
      by (rewrite <- Hlast; symmetry; apply List.firstn_skipn).
    destruct (timestamp a5 - timestamp a1 <? 30 * 1000) eqn:Et.
    + apply Z.ltb_lt in Et. split; [|reflexivity]. intros _. right. split; [exact E5|].
      exists (List.firstn (List.length attempts - 5) attempts), a1, a2, a3, a4, a5.
      split; [exact Hsplit | lia].
    + apply Z.ltb_ge in Et. rewrite Nat.leb_le. split; [now left|].
      intros [H | [_ (older & b1 & b2 & b3 & b4 & b5 & Hb & Hspan)]]; [exact H|].
      exfalso. rewrite Hsplit in Hb.
      apply app_inj_2 in Hb as [_ Hb]; [|reflexivity].
      injection Hb as -> _ _ _ ->. lia.
  - apply Nat.leb_gt in E5. rewrite Nat.leb_le. split; [now left|].
    intros [H | [H _]]; [exact H | lia].
Qed.

(** Five attempts of mixed outcome inside ten seconds trip the check. *)
Example burst_of_mixed_outcomes :
  let at_ t ok := mkAttempt "10.0.0.1" "a@b.com" t ok None in
  let history := [at_ 1000 true; at_ 3000 false; at_ 5000 true; at_ 7000 true;
                  at_ 9000 false] in
  let s := mkState [] [] [] ∅ {[ key_of "a@b.com" "10.0.0.1" := history ]} ∅ in
  checkBruteforceAttempt s 10000 "a@b.com" "10.0.0.1" = true.
Proof. reflexivity. Qed.

Section Verdict.
Variable fraudLogCount :
  FraudDetection.LogRepo -> (FraudDetection.FraudLog -> bool) -> option Z.
Variable ipInRange : string -> string -> bool.
Variable checkIpReputation : string -> FraudDetection.IpReputation.

(** The verdict is the conjunction of the five flags it is returned
    with, the phone flag included, for every account and request. *)
Lemma canLogin_is_conjunction_of_flags s now em ip fp :
  let v := (checkLoginEligibility fraudLogCount ipInRange checkIpReputation
              s now em ip fp).2 in
  canLogin v
  = emailVerified v && phoneVerified v && fraudCheckPassed v && ipClean v
    && sessionValid v.
Proof.
  unfold checkLoginEligibility.
  destruct (findByEmail (users s) em) as [user|]; [|reflexivity].
  destruct (IpBlocker.isIpBlocked (blockedIps s) now ip) as [blocked isBlocked].
  match goal with
  | |- context [let '(_, _) := ?c in _] => destruct c as [s' trusted]
  end.
  reflexivity.
Qed.

(** An account without a phone number is returned with
    [phoneVerified = false] and therefore [canLogin = false], whatever
    the other checks say. *)
Lemma phoneless_account_never_eligible s now em ip fp user :
  findByEmail (users s) em = Some user ->
  Js.truthy (phone user) = false ->
  let v := (checkLoginEligibility fraudLogCount ipInRange checkIpReputation
              s now em ip fp).2 in
  phoneVerified v = false /\ canLogin v = false.
Proof.
  intros Hu Hp. unfold checkLoginEligibility. rewrite Hu.
  destruct (IpBlocker.isIpBlocked (blockedIps s) now ip) as [blocked isBlocked].
  match goal with
  | |- context [let '(_, _) := ?c in _] => destruct c as [s' trusted]
  end.
  simpl. rewrite Hp. split; [reflexivity|]. now rewrite andb_false_r.
Qed.

End Verdict.

(** C1 on the code: for an active account with no phone number, a
    verified address, an address that is not blocked, no fraud signal,
    no recorded attempts and no lock, every conjunct other than the
    phone one holds and no failure reason is given, yet [canLogin] is
    false. *)
Theorem phoneless_account_cannot_login :
  let v := (checkLoginEligibility FraudDetection.count_rows
              FraudDetection.Placeholders.ipInRange
              FraudDetection.Placeholders.checkIpReputation
              alice_state 100000 "alice@example.com" "8.8.8.8" None).2 in
  emailVerified v = true
  /\ fraudCheckPassed v = true
  /\ ipClean v = true
  /\ sessionValid v = true
  /\ phoneVerified v = false
  /\ failureReasons v = []
  /\ canLogin v = false.
Proof. vm_compute. repeat split; reflexivity. Qed.

End DualFacts.

(** * Properties of the sign-in flow *)
Module AuthFacts.
Import UserEntity Auth Scenario.

Section Collaborators.
Variable bcrypt_hash : string -> Z -> string.
Variable bcrypt_compare : string -> string -> bool.
Variable totp_verify : option string -> string -> Z -> Js.Date -> bool.
Variable jwt_sign : Payload -> string -> Js.Date -> string.

(** The entity hook touches the password and nothing else. *)
Lemma hashPassword_keeps u :
  failedLoginAttempts (hashPassword bcrypt_hash u) = failedLoginAttempts u
  /\ lockedUntil (hashPassword bcrypt_hash u) = lockedUntil u
  /\ status (hashPassword bcrypt_hash u) = status u
  /\ id (hashPassword bcrypt_hash u) = id u
  /\ email (hashPassword bcrypt_hash u) = email u
  /\ role (hashPassword bcrypt_hash u) = role u.
Proof.
  unfold hashPassword.
  destruct (negb (String.eqb (password u) "") && negb (Js.startsWith "$2" (password u)));
    repeat split; reflexivity.
Qed.

Lemma truthy_Some (o : option string) :
  Js.truthy o = true <-> exists c, o = Some c /\ c <> "".
Proof.
  unfold Js.truthy. destruct o as [c|].
  - destruct (String.eqb c "") eqn:E; simpl.
    + apply String.eqb_eq in E. split; [discriminate|]. intros (c' & [= <-] & H). contradiction.
    + apply String.eqb_neq in E. split; [|reflexivity]. intros _. now exists c.
  - split; [discriminate|]. intros (c & H & _). discriminate H.
Qed.

Lemma or_else_Some c d : c <> "" -> Js.or_else (Some c) d = c.
Proof. intros H. unfold Js.or_else. apply String.eqb_neq in H. now rewrite H. Qed.

(** What [signin] answers and what it saves, in order: for an account
    that is found and may attempt to log in,
    - a wrong password is answered "Invalid credentials" after one save
      of the account with [failedLoginAttempts] one higher; if the new
      count is 5 or more the saved account has
      [lockedUntil = now + 15 min], so that it counts as locked exactly
      until then, and otherwise its lock is as it was;
    - with the right password and MFA enabled, tokens are returned
      exactly when a non-empty code is supplied that the TOTP verifier
      accepts with window 2;
    - whenever tokens are returned, the first thing done is a save of the
      account with [failedLoginAttempts = 0] and no lock, and only then
      are the two tokens signed and the refresh token saved. *)
Lemma signin_answers_and_saves users now dto ip user :
  findByEmail users (dto_email dto) = Some user ->
  canAttemptLogin user now = true ->
  let out := signin bcrypt_hash bcrypt_compare totp_verify jwt_sign users now dto ip in
  (bcrypt_compare (dto_password dto) (password user) = false ->
     exists stored,
       out.1.2 = [Saved stored]
       /\ out.2 = inl (UnauthorizedException "Invalid credentials")
       /\ failedLoginAttempts stored = failedLoginAttempts user + 1
       /\ (5 <= failedLoginAttempts user + 1 ->
           lockedUntil stored = Some (now + 15 * 60 * 1000)
           /\ forall t, isAccountLocked stored t = true <-> t < now + 15 * 60 * 1000)
       /\ (failedLoginAttempts user + 1 < 5 -> lockedUntil stored = lockedUntil user))
  /\ (bcrypt_compare (dto_password dto) (password user) = true ->
      mfaEnabled user = true ->
      ((exists tokens, out.2 = inr tokens)
       <-> exists c, mfaCode dto = Some c /\ c <> ""
                     /\ totp_verify (mfaSecret user) c 2 now = true))
  /\ (forall tokens, out.2 = inr tokens ->
      exists stored refreshed payload,
        out.1.2 = [Saved stored; Signed payload "15m"; Signed payload "7d"; Saved refreshed]
        /\ failedLoginAttempts stored = 0 /\ lockedUntil stored = None
        /\ failedLoginAttempts refreshed = 0 /\ lockedUntil refreshed = None).
Proof.
  intros Hu Hcan out. subst out. unfold signin. rewrite Hu, Hcan. simpl.
  unfold validatePassword.
  destruct (bcrypt_compare (dto_password dto) (password user)) eqn:Hpw; simpl.
  - split; [discriminate|].
    destruct (mfaEnabled user) eqn:Hmfa; simpl.
    + destruct (Js.truthy (mfaCode dto)) eqn:Hcode; simpl.
      * apply truthy_Some in Hcode as (c & Hc & Hne). rewrite Hc, (or_else_Some c "" Hne).
        destruct (totp_verify (mfaSecret user) c 2 now) eqn:Htotp; simpl.
        -- split.
           ++ intros _ _. split; [|now eexists]. intros _. exists c. auto.
           ++ intros tokens _. do 3 eexists. split; [reflexivity|].
              destruct (hashPassword_keeps (with_login now ip user)) as (H1 & H2 & _).
              destruct (hashPassword_keeps
                          (with_refreshToken
                             (jwt_sign
                                (mkPayload (id (hashPassword bcrypt_hash (with_login now ip user)))
                                   (email (hashPassword bcrypt_hash (with_login now ip user)))
                                   (role (hashPassword bcrypt_hash (with_login now ip user))))
                                "7d" now)
                             (hashPassword bcrypt_hash (with_login now ip user))))
                as (H3 & H4 & _).
              rewrite H1, H2, H3, H4. simpl. rewrite H1, H2. auto.
        -- split.
           ++ intros _ _. split; [intros [t Ht]; discriminate Ht|].
              intros (c' & [= <-] & _ & Hok). congruence.
           ++ intros tokens Ht. discriminate Ht.
      * split.
        -- intros _ _. split; [intros [t Ht]; discriminate Ht|].
           intros (c & Hc & Hne & _).
           assert (Js.truthy (mfaCode dto) = true) by (apply truthy_Some; eauto).
           congruence.
        -- intros tokens Ht. discriminate Ht.
    + split; [discriminate|].
      intros tokens _. do 3 eexists. split; [reflexivity|].
      destruct (hashPassword_keeps (with_login now ip user)) as (H1 & H2 & _).
      destruct (hashPassword_keeps
                  (with_refreshToken
                     (jwt_sign
                        (mkPayload (id (hashPassword bcrypt_hash (with_login now ip user)))
                           (email (hashPassword bcrypt_hash (with_login now ip user)))
                           (role (hashPassword bcrypt_hash (with_login now ip user))))
                        "7d" now)
                     (hashPassword bcrypt_hash (with_login now ip user))))
        as (H3 & H4 & _).
      rewrite H1, H2, H3, H4. simpl. rewrite H1, H2. auto.
  - split; [|split; [discriminate | intros tokens Ht; discriminate Ht]].
    intros _. eexists. split; [reflexivity|]. split; [reflexivity|].
    destruct (5 <=? failedLoginAttempts user + 1) eqn:E5.
    + apply Z.leb_le in E5.
      destruct (hashPassword_keeps
                  (with_failure (failedLoginAttempts user + 1)
                     (Some (now + 15 * 60 * 1000)) SUSPENDED user)) as (H1 & H2 & _).
      rewrite H1. split; [reflexivity|]. split; [|intros; lia].
      intros _. split; [exact H2|]. intros t. unfold isAccountLocked. rewrite H2.
      simpl. apply Z.ltb_lt.
    + apply Z.leb_gt in E5.
      destruct (hashPassword_keeps
                  (with_failure (failedLoginAttempts user + 1)
                     (lockedUntil user) (status user) user)) as (H1 & H2 & _).
      rewrite H1. split; [reflexivity|]. split; [intros; lia|]. intros _. exact H2.
Qed.

End Collaborators.

(** Bob, four failures behind him, mistypes his password at time 0: the
    fifth failure is saved and locks the account until 900 000 ms. *)
Lemma signin_fifth_failure_locks :
  exists stored,
    (signin toy_hash toy_compare toy_totp toy_sign [bob] 0
       (mkLogin "bob@example.com" "wrong-password" None) "10.0.0.1").1.2 = [Saved stored]
    /\ failedLoginAttempts stored = 5
    /\ lockedUntil stored = Some 900000.
Proof.
  destruct (signin_answers_and_saves toy_hash toy_compare toy_totp toy_sign
              [bob] 0 (mkLogin "bob@example.com" "wrong-password" None) "10.0.0.1" bob
              eq_refl eq_refl) as (Hbad & _ & _).
  destruct (Hbad eq_refl) as (stored & Hev & _ & Hn & Hlock & _).
  exists stored. split; [exact Hev|]. split; [exact Hn|].
  apply Hlock. simpl. lia.
Defined.

End AuthFacts.

(** * Properties of code generation: binary64 arithmetic and decimal form *)
Module FloatFacts.
Import Scenario.

Lemma iter_comm {A} (f : A -> A) n x : Nat.iter n f (f x) = f (Nat.iter n f x).
Proof. induction n as [|n IH]; simpl; [reflexivity | now rewrite IH]. Qed.

Lemma iter_plus {A} (f : A -> A) n k x :
  Nat.iter (n + k) f x = Nat.iter n f (Nat.iter k f x).
Proof. induction n as [|n IH]; simpl; [reflexivity | now rewrite IH]. Qed.

(** The binary iteration of the library is plain iteration. *)
Lemma iter_pos_nat {A} (f : A -> A) p x :
  iter_pos f p x = Nat.iter (Pos.to_nat p) f x.
Proof.
  revert x. induction p as [p IH | p IH |]; intros x; cbn [iter_pos].
  - rewrite !IH, Pos2Nat.inj_xI.
    replace (S (2 * Pos.to_nat p)) with (Pos.to_nat p + Pos.to_nat p + 1)%nat by lia.
    now rewrite !iter_plus.
  - rewrite !IH, Pos2Nat.inj_xO.
    replace (2 * Pos.to_nat p)%nat with (Pos.to_nat p + Pos.to_nat p)%nat by lia.
    now rewrite iter_plus.
  - reflexivity.
Qed.

(** One step of the right shift halves the mantissa and remembers the bit
    it drops. *)
Lemma shr_1_spec mrs :
  0 <= shr_m mrs ->
  shr_m (shr_1 mrs) = shr_m mrs / 2 /\ shr_r (shr_1 mrs) = Z.odd (shr_m mrs).
Proof.
  destruct mrs as [m r s]. simpl. intros Hm. rewrite <- Z.div2_div.
  destruct m as [|[p|p|]|p]; try lia; simpl; split; reflexivity.
Qed.

Lemma shr_nat_spec m n :
  0 <= m ->
  let mrs := Nat.iter n shr_1 (Build_shr_record m false false) in
  shr_m mrs = m / 2 ^ Z.of_nat n
  /\ match n with
     | O => shr_r mrs = false
     | S k => shr_r mrs = Z.odd (m / 2 ^ Z.of_nat k)
     end.
Proof.
  intros Hm. induction n as [|n IH].
  - simpl. split; [now rewrite Z.div_1_r | reflexivity].
  - cbn zeta in IH. destruct IH as [IHm _]. cbn zeta.
    change (Nat.iter (S n) shr_1 (Build_shr_record m false false))
      with (shr_1 (Nat.iter n shr_1 (Build_shr_record m false false))).
    set (prev := Nat.iter n shr_1 (Build_shr_record m false false)) in *.
    assert (Hp : 0 <= shr_m prev) by (rewrite IHm; apply Z.div_pos; lia).
    destruct (shr_1_spec prev Hp) as [H1 H2]. rewrite H1, H2, IHm. split; [|reflexivity].
    rewrite Nat2Z.inj_succ, Z.pow_succ_r by lia.
    rewrite Z.div_div by lia. f_equal. lia.
Qed.

(** A dropped bit that is zero means the remainder is below the midpoint. *)
Lemma below_half_bit m k :
  0 <= m -> 0 <= k ->
  2 * (m mod 2 ^ (k + 1)) < 2 ^ (k + 1) ->
  Z.odd (m / 2 ^ k) = false.
Proof.
  intros Hm Hk H. rewrite Z.pow_add_r in * by lia. change (2 ^ 1) with 2 in *.
  set (h := 2 ^ k) in *. assert (Hh : 0 < h) by (apply Z.pow_pos_nonneg; lia).
  pose proof (Z.div_mod m (h * 2) ltac:(lia)) as Hdm.
  pose proof (Z.mod_pos_bound m (h * 2) ltac:(lia)) as Hb.
  set (q := m / (h * 2)) in *. set (r := m mod (h * 2)) in *.
  assert (Hq : m / h = 2 * q).
  { symmetry. apply (Z.div_unique_pos m h (2 * q) r); lia. }
  rewrite Hq, Z.odd_mul. reflexivity.
Qed.

Lemma round_nearest_even_spec mrs :
  let m := shr_m mrs in
  let m' := round_nearest_even m (loc_of_shr_record mrs) in
  (m' = m \/ m' = m + 1) /\ (shr_r mrs = false -> m' = m).
Proof.
  destruct mrs as [m [] []]; simpl.
  - split; [now right | discriminate].
  - destruct (Z.even m); split; auto; discriminate.
  - split; [now left | reflexivity].
  - split; [now left | reflexivity].
Qed.

Lemma digits2_bounds p :
  2 ^ (Z.pos (digits2_pos p) - 1) <= Z.pos p < 2 ^ Z.pos (digits2_pos p).
Proof.
  induction p as [p IH | p IH |]; simpl digits2_pos.
  - rewrite Pos2Z.inj_succ, Z.pow_succ_r by lia.
    replace (Z.succ (Z.pos (digits2_pos p)) - 1) with (Z.succ (Z.pos (digits2_pos p) - 1)) by lia.
    rewrite Z.pow_succ_r by lia. lia.
  - rewrite Pos2Z.inj_succ, Z.pow_succ_r by lia.
    replace (Z.succ (Z.pos (digits2_pos p)) - 1) with (Z.succ (Z.pos (digits2_pos p) - 1)) by lia.
    rewrite Z.pow_succ_r by lia. lia.
  - simpl. lia.
Qed.


Lemma fexp_unfold e : fexp 53 1024 e = Z.max (e - 53) (-1074).
Proof. reflexivity. Qed.

(** The first half of a rounding: the mantissa is shifted right until it
    fits, and the round bit is clear when the remainder is below the
    midpoint. *)
Lemma shr_fexp_exact_spec (mx : positive) ex :
  let e1 := Z.max ex (fexp 53 1024 (Z.pos (digits2_pos mx) + ex)) in
  let k := e1 - ex in
  let res := shr_fexp 53 1024 (Z.pos mx) ex loc_Exact in
  res.2 = e1
  /\ shr_m res.1 = Z.pos mx / 2 ^ k
  /\ (2 * (Z.pos mx mod 2 ^ k) < 2 ^ k -> shr_r res.1 = false).
Proof.
  intros e1 k res. subst res. unfold shr_fexp, shr. cbn [Zdigits2 shr_record_of_loc].
  fold e1.
  destruct (fexp 53 1024 (Z.pos (digits2_pos mx) + ex) - ex) as [|p|p] eqn:E; cbn [fst snd].
  - assert (k = 0) by lia. replace (2 ^ k) with 1 by (subst k; rewrite H; reflexivity).
    rewrite Z.div_1_r. split; [lia|]. split; [reflexivity|]. intros _. reflexivity.
  - assert (Hk : k = Z.pos p) by lia. rewrite iter_pos_nat.
    destruct (shr_nat_spec (Z.pos mx) (Pos.to_nat p) ltac:(lia)) as [Hm Hr].
    rewrite positive_nat_Z in Hm. split; [lia|]. split; [now rewrite Hk|].
    destruct (Pos.to_nat p) as [|n] eqn:En; [lia|].
    intros Hlt. rewrite Hr. apply below_half_bit; [lia | lia |].
    replace (Z.of_nat n + 1) with k by lia. exact Hlt.
  - assert (k = 0) by lia. replace (2 ^ k) with 1 by (subst k; rewrite H; reflexivity).
    rewrite Z.div_1_r. split; [lia|]. split; [reflexivity|]. intros _. reflexivity.
Qed.

(** Rounding an exact positive value [mx * 2 ^ ex]: the result is the
    multiple [m1 * 2 ^ e1] of the grid step, [m1] being the quotient of
    the value by the step or its successor, and the quotient itself when
    the remainder is below half a step. *)
Lemma binary_round_aux_exact_spec (mx : positive) ex :
  let e1 := Z.max ex (fexp 53 1024 (Z.pos (digits2_pos mx) + ex)) in
  let k := e1 - ex in
  -1200 <= ex -> e1 <= 970 ->
  exists m1,
    (m1 = Z.pos mx / 2 ^ k \/ m1 = Z.pos mx / 2 ^ k + 1)
    /\ (2 * (Z.pos mx mod 2 ^ k) < 2 ^ k -> m1 = Z.pos mx / 2 ^ k)
    /\ m1 <= 2 ^ 53
    /\ dyadic (binary_round_aux 53 1024 false (Z.pos mx) ex loc_Exact) (scaled m1 e1).
Proof.
  intros e1 k Hex He1.
  destruct (shr_fexp_exact_spec mx ex) as (H2 & Hm & Hr). fold e1 k in H2, Hm, Hr.
  unfold binary_round_aux.
  destruct (shr_fexp 53 1024 (Z.pos mx) ex loc_Exact) as [mrs e'] eqn:E1.
  cbn [fst snd] in H2, Hm, Hr. subst e'.
  destruct (round_nearest_even_spec mrs) as [Hcases Hdown]. cbn zeta in Hcases, Hdown.
  set (m1 := round_nearest_even (shr_m mrs) (loc_of_shr_record mrs)) in *.
  rewrite Hm in Hcases, Hdown.
  assert (Hk : 0 <= k) by lia.
  assert (Hq : 0 <= Z.pos mx / 2 ^ k < 2 ^ 53).
  { pose proof (digits2_bounds mx) as [_ Hd].
    assert (Hpk : 0 < 2 ^ k) by (apply Z.pow_pos_nonneg; lia).
    split; [apply Z.div_pos; lia|]. apply Z.div_lt_upper_bound; [lia|].
    rewrite <- Z.pow_add_r by lia.
    eapply Z.lt_le_trans; [exact Hd|]. apply Z.pow_le_mono_r; [lia|].
    subst k e1. rewrite fexp_unfold. lia. }
  exists m1. split; [exact Hcases|]. split; [intros H; apply Hdown, Hr, H|].
  split; [lia|].
  assert (Hm1 : 0 <= m1 <= 2 ^ 53) by lia.
  destruct m1 as [|q1|q1] eqn:Em1; [| |lia].
  - (* everything was shifted out *)
    unfold shr_fexp, shr. cbn [Zdigits2 shr_record_of_loc].
    destruct (fexp 53 1024 (0 + e1) - e1) as [|p|p] eqn:E2;
      [|rewrite fexp_unfold in E2; subst e1; rewrite fexp_unfold in *; lia|];
      cbn [shr_m]; unfold scaled; simpl; lia.
  - destruct (shr_fexp_exact_spec q1 e1) as (G2 & Gm & _).
    destruct (shr_fexp 53 1024 (Z.pos q1) e1 loc_Exact) as [mrs2 e2] eqn:E2.
    cbn [fst snd] in G2, Gm. rewrite Gm.
    pose proof (digits2_bounds q1) as [Hlo Hhi].
    assert (Hd1 : Z.pos (digits2_pos q1) <= 54).
    { destruct (Z_le_gt_dec (Z.pos (digits2_pos q1)) 54) as [|Hgt]; [assumption|].
      exfalso. assert (2 ^ 54 <= 2 ^ (Z.pos (digits2_pos q1) - 1))
        by (apply Z.pow_le_mono_r; lia).
      assert (2 ^ 53 < 2 ^ 54) by (apply Z.pow_lt_mono_r; lia). lia. }
    assert (He1lo : -1074 <= e1) by (subst e1; rewrite fexp_unfold; lia).
    destruct (Z_le_gt_dec (Z.pos (digits2_pos q1)) 53) as [Hle | Hgt].
    + assert (He2 : e2 = e1) by (rewrite G2, fexp_unfold; lia).
      replace (Z.max e1 (fexp 53 1024 (Z.pos (digits2_pos q1) + e1)) - e1)
        with 0 by (rewrite fexp_unfold; lia).
      rewrite Z.pow_0_r, Z.div_1_r, He2.
      replace (e1 <=? 1024 - 53) with true by (symmetry; apply Z.leb_le; lia).
      cbn [dyadic]. split; [lia | reflexivity].
    + assert (Hd54 : Z.pos (digits2_pos q1) = 54) by lia.
      rewrite Hd54 in Hlo. change (54 - 1) with 53 in Hlo.
      assert (Hq1 : Z.pos q1 = 2 ^ 53) by lia.
      assert (He2 : e2 = e1 + 1) by (rewrite G2, Hd54, fexp_unfold; lia).
      rewrite Hd54.
      replace (Z.max e1 (fexp 53 1024 (54 + e1)) - e1) with 1 by (rewrite fexp_unfold; lia).
      rewrite Hq1, He2. change (2 ^ 53 / 2 ^ 1) with (Z.pos 4503599627370496).
      replace (e1 + 1 <=? 1024 - 53) with true by (symmetry; apply Z.leb_le; lia).
      cbn [dyadic]. split; [lia|].
      unfold scaled. replace (e1 + 1 + 1200) with (Z.succ (e1 + 1200)) by lia.
      rewrite Z.pow_succ_r by lia. change (2 ^ 53) with (2 * 4503599627370496). lia.
Qed.


(** The same, read on the scaled integers: [x] is rounded to a multiple
    of the step [G], downwards or upwards, and downwards when it lies
    below the midpoint. *)
Lemma round_on_grid (mx : positive) ex :
  let e1 := Z.max ex (fexp 53 1024 (Z.pos (digits2_pos mx) + ex)) in
  let x := scaled (Z.pos mx) ex in
  let G := 2 ^ (e1 + 1200) in
  -1200 <= ex -> e1 <= 970 ->
  exists m1,
    (m1 = x / G \/ m1 = x / G + 1)
    /\ (2 * (x mod G) < G -> m1 = x / G)
    /\ m1 <= 2 ^ 53
    /\ dyadic (binary_round_aux 53 1024 false (Z.pos mx) ex loc_Exact) (m1 * G).
Proof.
  intros e1 x G Hex He1.
  destruct (binary_round_aux_exact_spec mx ex Hex He1) as (m1 & Hc & Hd & Hb & Hdy).
  fold e1 in Hc, Hd, Hdy.
  assert (Hp : 0 < 2 ^ (ex + 1200)) by (apply Z.pow_pos_nonneg; lia).
  assert (HG : G = 2 ^ (e1 - ex) * 2 ^ (ex + 1200)).
  { subst G. rewrite <- Z.pow_add_r by lia. f_equal. lia. }
  assert (Hk : 0 < 2 ^ (e1 - ex)) by (apply Z.pow_pos_nonneg; lia).
  assert (Hdiv : x / G = Z.pos mx / 2 ^ (e1 - ex)).
  { subst x. unfold scaled. rewrite HG. apply Z.div_mul_cancel_r; lia. }
  assert (Hmod : x mod G = (Z.pos mx mod 2 ^ (e1 - ex)) * 2 ^ (ex + 1200)).
  { subst x. unfold scaled. rewrite HG. apply Z.mul_mod_distr_r; lia. }
  exists m1. rewrite Hdiv, Hmod. split; [exact Hc|]. split; [|split; [exact Hb | exact Hdy]].
  intros H. apply Hd. rewrite HG in H. nia.
Qed.

(** Rounding cannot leave an interval whose ends are on the grid. *)
Lemma round_between x G m1 a b :
  0 < G ->
  (m1 = x / G \/ m1 = x / G + 1) ->
  (2 * (x mod G) < G -> m1 = x / G) ->
  a * G <= x <= b * G ->
  a * G <= m1 * G <= b * G.
Proof.
  intros HG Hc Hd [Ha Hb].
  pose proof (Z.div_mod x G ltac:(lia)) as Hdm.
  pose proof (Z.mod_pos_bound x G HG) as Hr.
  set (q := x / G) in *. set (r := x mod G) in *.
  assert (Haq : a <= q) by nia.
  destruct (Z.eq_dec r 0) as [Hr0 | Hr0].
  - rewrite (Hd ltac:(lia)). nia.
  - assert (q < b) by nia. destruct Hc as [-> | ->]; nia.
Qed.

(** The size of a mantissa, from a bound on the value. *)
Lemma digits_of_scaled (m : positive) e c :
  -1200 <= e -> -1200 <= c ->
  scaled (Z.pos m) e < 2 ^ (c + 1200) ->
  Z.pos (digits2_pos m) + e <= c.
Proof.
  intros He Hc H. unfold scaled in H.
  pose proof (digits2_bounds m) as [Hlo _].
  assert (Hp : 0 < 2 ^ (e + 1200)) by (apply Z.pow_pos_nonneg; lia).
  assert (H1 : 2 ^ (Z.pos (digits2_pos m) - 1 + (e + 1200)) < 2 ^ (c + 1200)).
  { rewrite Z.pow_add_r by lia. nia. }
  apply Z.pow_lt_mono_r_iff in H1; lia.
Qed.

Lemma floor_dyadic f v : dyadic f v -> Js.Math_floor f = Js.FInt (v / 2 ^ 1200).
Proof.
  destruct f as [s | s | | [] m e]; simpl; try contradiction.
  - intros ->. reflexivity.
  - intros [He <-]. unfold scaled. f_equal.
    destruct (0 <=? e) eqn:E.
    + apply Z.leb_le in E. rewrite Z.pow_add_r by lia. rewrite Z.mul_assoc.
      symmetry. apply Z.div_mul. apply Z.pow_nonzero; lia.
    + apply Z.leb_gt in E.
      replace (2 ^ 1200) with (2 ^ (- e) * 2 ^ (e + 1200))
        by (rewrite <- Z.pow_add_r by lia; f_equal; lia).
      symmetry. apply Z.div_mul_cancel_r; apply Z.pow_nonzero; lia.
Qed.

Lemma shl_align_scaled (mx : positive) ex ez :
  -1200 <= ez ->
  let r := shl_align mx ex ez in
  scaled (Z.pos r.1) r.2 = scaled (Z.pos mx) ex
  /\ r.2 = Z.min ex ez.
Proof.
  intros Hez r. subst r. unfold shl_align.
  destruct (ez - ex) as [|d|d] eqn:E; cbn [fst snd]; [split; [reflexivity | lia] ..|].
  split; [|lia]. unfold scaled.
  rewrite Pos.iter_swap_gen with (f := Z.pos) (h := fun z => 2 * z) by reflexivity.
  assert (Hit : forall n z, Pos.iter (fun z => 2 * z) z n = z * 2 ^ Z.pos n).
  { intros n. induction n using Pos.peano_ind; intros z.
    - simpl. lia.
    - rewrite Pos.iter_succ, IHn, Pos2Z.inj_succ, Z.pow_succ_r by lia. lia. }
  rewrite Hit, <- Z.mul_assoc, <- Z.pow_add_r by lia. do 2 f_equal. lia.
Qed.


Lemma of_int_1 : Js.of_int 1 = S754_finite false 4503599627370496 (-52).
Proof. reflexivity. Qed.

Lemma of_int_100000 : Js.of_int 100000 = S754_finite false 6871947673600000 (-36).
Proof. reflexivity. Qed.

Lemma of_int_900000 : Js.of_int 900000 = S754_finite false 7730941132800000 (-33).
Proof. reflexivity. Qed.

Lemma SFltb_finite m e m' e' :
  SFltb (S754_finite false m e) (S754_finite false m' e') = true ->
  e < e' \/ (e = e' /\ Z.pos m < Z.pos m').
Proof.
  unfold SFltb, SFcompare. destruct (e ?= e') eqn:Ec; try discriminate.
  - apply Z.compare_eq in Ec. intros H. right. split; [exact Ec|].
    apply Pos2Z.pos_lt_pos. unfold Pos.lt, Pos.compare.
    now destruct (Pos.compare_cont Eq m m').
  - rewrite Z.compare_lt_iff in Ec. now left.
Qed.

(** A number of the unit interval is a zero, or has an exponent of at most
    -53 under a mantissa of at most 53 bits. *)
Lemma unit_interval_shape r :
  in_unit_interval r ->
  (exists s, r = S754_zero s)
  \/ (exists m e, r = S754_finite false m e /\ -1074 <= e <= -53 /\ Z.pos m < 2 ^ 53).
Proof.
  intros (Hv & Hle & Hlt). rewrite of_int_1 in Hlt.
  destruct r as [s | s | | s m e].
  - left. now exists s.
  - destruct s; discriminate.
  - discriminate.
  - right. destruct s; [discriminate|]. exists m, e. split; [reflexivity|].
    unfold valid_binary, bounded, canonical_mantissa in Hv.
    apply andb_prop in Hv as [Hc _]. apply Z.eqb_eq in Hc.
    change (fexp Js.prec Js.emax) with (fexp 53 1024) in Hc. rewrite fexp_unfold in Hc.
    pose proof (digits2_bounds m) as [Hlo Hhi].
    apply SFltb_finite in Hlt. clear Hle.
    destruct Hlt as [He | [He Hm]].
    + split; [lia|].
      eapply Z.lt_le_trans; [exact Hhi|]. apply Z.pow_le_mono_r; lia.
    + exfalso. subst e.
      assert (Hd : Z.pos (digits2_pos m) = 53) by lia.
      rewrite Hd in Hlo. change (2 ^ (53 - 1)) with 4503599627370496 in Hlo. lia.
Qed.


(** Powers of two around the scale, as multiples of [2 ^ 1114]. *)
Lemma pow2_split n : 0 <= n -> 2 ^ (n + 1114) = 2 ^ n * 2 ^ 1114.
Proof. intros H. apply Z.pow_add_r; lia. Qed.

(** The product [Math.random() * 900000] is at most the binary64 number
    just below 900000. *)
Lemma mul_900000_bound r :
  in_unit_interval r ->
  exists v, dyadic (Js.mul r (Js.of_int 900000)) v
            /\ 0 <= v <= scaled 7730941132799999 (-33).
Proof.
  intros Hr. unfold scaled at 1. replace (-33 + 1200) with (53 + 1114) by reflexivity.
  rewrite pow2_split by lia. change (2 ^ 53) with 9007199254740992.
  assert (HP : 0 < 2 ^ 1114) by (apply Z.pow_pos_nonneg; lia).
  destruct (unit_interval_shape r Hr) as [[s ->] | (m & e & -> & He & Hm)].
  - exists 0. split; [reflexivity | lia].
  - unfold Js.mul. rewrite of_int_900000. cbn [SFmul xorb].
    change Js.prec with 53. change Js.emax with 1024.
    rewrite Pos2Z.inj_mul.
    set (mx := (m * 7730941132800000)%positive).
    assert (Hmx : Z.pos mx = Z.pos m * 7730941132800000) by (subst mx; apply Pos2Z.inj_mul).
    set (ex := e + -33).
    (* the exact product on the scale *)
    set (u := 2 ^ (ex + 1200)).
    set (w := 2 ^ (-53 - e)).
    assert (Hu : 0 < u) by (apply Z.pow_pos_nonneg; lia).
    assert (Hw : 1 <= w).
    { subst w. change 1 with (2 ^ 0). apply Z.pow_le_mono_r; lia. }
    assert (Huw : u * w = 2 ^ 1114).
    { subst u w ex. rewrite <- Z.pow_add_r by lia. f_equal. lia. }
    assert (Hx : scaled (Z.pos mx) ex = Z.pos m * 7730941132800000 * u)
      by (unfold scaled; now rewrite Hmx).
    assert (Hxlt : scaled (Z.pos mx) ex < 2 ^ (20 + 1200)).
    { rewrite Hx. replace (20 + 1200) with (106 + 1114) by reflexivity.
      rewrite pow2_split by lia. rewrite <- Huw.
      change (2 ^ 53) with 9007199254740992 in Hm.
      change (2 ^ 106) with (9007199254740992 * 9007199254740992).
      assert (Z.pos m * 7730941132800000 < 9007199254740992 * 9007199254740992) by nia.
      nia. }
    pose proof (digits_of_scaled mx ex 20 ltac:(subst ex; lia) ltac:(lia) Hxlt) as Hd.
    set (e1 := Z.max ex (fexp 53 1024 (Z.pos (digits2_pos mx) + ex))).
    assert (He1 : e1 <= -33) by (subst e1 ex; rewrite fexp_unfold; lia).
    assert (He1lo : -1200 <= e1) by (subst e1 ex; lia).
    destruct (round_on_grid mx ex ltac:(subst ex; lia) ltac:(fold e1; lia))
      as (m1 & Hc & Hdown & Hb & Hdy).
    fold e1 in Hc, Hdown, Hdy. rewrite Hx in Hc, Hdown.
    set (G := 2 ^ (e1 + 1200)) in *.
    assert (HG : 0 < G) by (apply Z.pow_pos_nonneg; lia).
    exists (m1 * G). split; [exact Hdy|].
    set (N := Z.pos m * 7730941132800000) in *.
    assert (HN : 0 < N <= 9007199254740991 * 7730941132800000).
    { subst N. change (2 ^ 53) with 9007199254740992 in Hm. lia. }
    pose proof (Z.div_mod (N * u) G ltac:(lia)) as Hdm.
    pose proof (Z.mod_pos_bound (N * u) G HG) as Hrem.
    set (q := N * u / G) in *. set (rem := (N * u) mod G) in *.
    assert (Hq0 : 0 <= q) by (apply Z.div_pos; nia).
    change (2 ^ 53) with 9007199254740992 in Hb.
    split; [destruct Hc; nia|].
    destruct (Z.eq_dec e1 (-33)) as [E | E].
    + (* the binade of 900000 *)
      assert (HGv : G = 9007199254740992 * (u * w)).
      { subst G. rewrite E, Huw. replace (-33 + 1200) with (53 + 1114) by reflexivity.
        now rewrite pow2_split by lia. }
      rewrite <- Huw. rewrite <- HGv.
      assert (Hle : u <= u * w) by nia.
      set (g := u * w) in *.
      assert (HNu : N * u <= 9007199254740991 * 7730941132800000 * g) by nia.
      assert (Hq : q <= 7730941132799999).
      { destruct (Z_le_gt_dec q 7730941132799999) as [|Hgt]; [assumption|].
        exfalso. assert (G * 7730941132800000 <= G * q) by (apply Z.mul_le_mono_nonneg_l; lia).
        lia. }
      assert (Hm1 : m1 <= 7730941132799999).
      { destruct (Z.eq_dec q 7730941132799999) as [Eq | Eq].
        - rewrite Hdown; [lia|]. rewrite Eq in Hdm. lia.
        - destruct Hc; lia. }
      apply Z.mul_le_mono_nonneg_r; lia.
    + (* a lower binade *)
      assert (HGle : 2 * G <= 9007199254740992 * 2 ^ 1114).
      { subst G. replace (9007199254740992 * 2 ^ 1114) with (2 ^ (53 + 1114))
          by (rewrite pow2_split by lia; reflexivity).
        rewrite <- (Z.pow_succ_r 2) by lia. apply Z.pow_le_mono_r; lia. }
      assert (m1 * G <= 9007199254740992 * G) by (apply Z.mul_le_mono_nonneg_r; lia).
      lia.
Qed.


Lemma scaled_add a b e : scaled (a + b) e = scaled a e + scaled b e.
Proof. unfold scaled. lia. Qed.

Lemma scaled_100000 : scaled 6871947673600000 (-36) = scaled 100000 0.
Proof.
  unfold scaled. replace (-36 + 1200) with (50 + 1114) by reflexivity.
  replace (0 + 1200) with (86 + 1114) by reflexivity.
  rewrite !pow2_split by lia.
  change (2 ^ 50) with 1125899906842624. change (2 ^ 86) with (68719476736 * 1125899906842624).
  lia.
Qed.

(** Adding 100000 to a value between 0 and the number just below 900000
    gives a value between 100000 and the number just below 1000000. *)
Lemma add_100000_bound f v :
  dyadic f v ->
  0 <= v <= scaled 7730941132799999 (-33) ->
  exists v', dyadic (Js.add (Js.of_int 100000) f) v'
             /\ scaled 100000 0 <= v' <= scaled 8589934591999999 (-33).
Proof.
  intros Hf Hv. unfold Js.add. rewrite of_int_100000.
  assert (HP : 0 < 2 ^ 1114) by (apply Z.pow_pos_nonneg; lia).
  assert (Htop : scaled 100000 0 + scaled 7730941132799999 (-33)
                 = scaled 8589934591999999 (-33)).
  { unfold scaled. replace (-33 + 1200) with (53 + 1114) by reflexivity.
    replace (0 + 1200) with (86 + 1114) by reflexivity.
    rewrite !pow2_split by lia.
    change (2 ^ 53) with 9007199254740992.
    change (2 ^ 86) with (8589934592 * 9007199254740992). lia. }
  destruct f as [s | s | | [] m2 e2]; cbn [dyadic] in Hf; try contradiction.
  - subst v. exists (scaled 6871947673600000 (-36)). cbn [SFadd dyadic].
    split; [split; [lia | reflexivity]|]. rewrite scaled_100000. lia.
  - destruct Hf as [He2 Hm2]. cbn [SFadd cond_Zopp].
    change Js.prec with 53. change Js.emax with 1024.
    set (ez := Z.min (-36) e2).
    destruct (shl_align_scaled 6871947673600000 (-36) ez ltac:(subst ez; lia)) as [Ha Ha2].
    destruct (shl_align_scaled m2 e2 ez ltac:(subst ez; lia)) as [Hb Hb2].
    cbn zeta in Ha, Ha2, Hb, Hb2.
    replace (shl_align 6871947673600000 (-36) ez).2 with ez in Ha by (subst ez; lia).
    replace (shl_align m2 e2 ez).2 with ez in Hb by (subst ez; lia).
    set (a := (shl_align 6871947673600000 (-36) ez).1) in *.
    set (b := (shl_align m2 e2 ez).1) in *.
    change (Z.pos a + Z.pos b) with (Z.pos (a + b)).
    cbn [binary_normalize]. unfold binary_round.
    set (s := (a + b)%positive).
    assert (Hs : scaled (Z.pos s) ez = scaled 100000 0 + v).
    { subst s. rewrite Pos2Z.inj_add, scaled_add, Ha, Hb, Hm2, scaled_100000. reflexivity. }
    set (f := fexp 53 1024 (Z.pos (digits2_pos s) + ez)).
    assert (Hflo : -1074 <= f) by (subst f; rewrite fexp_unfold; lia).
    destruct (shl_align_scaled s ez f ltac:(lia)) as [Hz Hz2]. cbn zeta in Hz, Hz2.
    destruct (shl_align s ez f) as [mz ez'] eqn:Esh. cbn [fst snd] in Hz, Hz2.
    assert (Hxlt : scaled (Z.pos mz) ez' < 2 ^ (20 + 1200)).
    { rewrite Hz, Hs. replace (20 + 1200) with (106 + 1114) by reflexivity.
      rewrite pow2_split by lia.
      assert (scaled 8589934591999999 (-33) < 2 ^ 106 * 2 ^ 1114); [|lia].
      unfold scaled. replace (-33 + 1200) with (53 + 1114) by reflexivity.
      rewrite pow2_split by lia. change (2 ^ 53) with 9007199254740992.
      change (2 ^ 106) with (9007199254740992 * 9007199254740992). nia. }
    assert (Hez' : -1200 <= ez' <= -36) by (subst ez; lia).
    pose proof (digits_of_scaled mz ez' 20 ltac:(lia) ltac:(lia) Hxlt) as Hd.
    set (e1 := Z.max ez' (fexp 53 1024 (Z.pos (digits2_pos mz) + ez'))).
    assert (He1 : -1200 <= e1 <= -33) by (subst e1; rewrite fexp_unfold; lia).
    destruct (round_on_grid mz ez' ltac:(lia) ltac:(fold e1; lia))
      as (m1 & Hc & Hdown & _ & Hdy).
    fold e1 in Hc, Hdown, Hdy. rewrite Hz, Hs in Hc, Hdown.
    set (G := 2 ^ (e1 + 1200)) in *.
    assert (HG : 0 < G) by (apply Z.pow_pos_nonneg; lia).
    exists (m1 * G). split; [exact Hdy|].
    assert (HA : scaled 100000 0 = 100000 * 2 ^ (- e1) * G).
    { unfold scaled. subst G. rewrite <- Z.mul_assoc, <- Z.pow_add_r by lia.
      do 2 f_equal. lia. }
    assert (HB : scaled 8589934591999999 (-33) = 8589934591999999 * 2 ^ (-33 - e1) * G).
    { unfold scaled. subst G. rewrite <- Z.mul_assoc, <- Z.pow_add_r by lia.
      do 2 f_equal. lia. }
    rewrite HA, HB. apply (round_between (scaled 100000 0 + v) G m1); try assumption.
    rewrite <- HA, <- HB. lia.
Qed.


(** The floor of the sum is an integer of six decimal digits. *)
Lemma floor_in_range r :
  in_unit_interval r ->
  exists n, 100000 <= n <= 999999
            /\ Js.Math_floor (Js.add (Js.of_int 100000) (Js.mul r (Js.of_int 900000)))
               = Js.FInt n.
Proof.
  intros Hr.
  destruct (mul_900000_bound r Hr) as (v & Hdy & Hv).
  destruct (add_100000_bound _ v Hdy Hv) as (v' & Hdy' & Hv').
  exists (v' / 2 ^ 1200). split; [|now apply floor_dyadic].
  assert (HP : 0 < 2 ^ 1114) by (apply Z.pow_pos_nonneg; lia).
  unfold scaled in Hv'. replace (-33 + 1200) with (53 + 1114) in Hv' by reflexivity.
  replace (0 + 1200) with (86 + 1114) in Hv' by reflexivity.
  replace 1200 with (86 + 1114) by reflexivity.
  rewrite !pow2_split in * by lia.
  change (2 ^ 53) with 9007199254740992 in Hv'.
  change (2 ^ 86) with (8589934592 * 9007199254740992) in *.
  set (P := 2 ^ 1114) in *.
  split.
  - apply Z.div_le_lower_bound; lia.
  - assert (v' / (8589934592 * 9007199254740992 * P) < 1000000); [|lia].
    apply Z.div_lt_upper_bound; lia.
Qed.

Lemma digit_char_code d :
  0 <= d <= 9 -> nat_of_ascii (Js.digit_char d) = Z.to_nat (48 + d).
Proof. intros H. unfold Js.digit_char. apply nat_ascii_embedding. lia. Qed.

Lemma digit_char_is_digit d : 0 <= d <= 9 -> Js.is_digit (Js.digit_char d) = true.
Proof.
  intros H. unfold Js.is_digit. rewrite digit_char_code by exact H.
  apply andb_true_intro. split; apply Z.leb_le; lia.
Qed.

Lemma digit_char_nonzero d : 1 <= d <= 9 -> Ascii.eqb "0" (Js.digit_char d) = false.
Proof.
  intros H. apply Ascii.eqb_neq. intros E.
  apply (f_equal nat_of_ascii) in E. rewrite digit_char_code in E by lia.
  change (nat_of_ascii "0") with 48%nat in E. lia.
Qed.

(** The decimal form of an integer between 100000 and 999999, digit by
    digit. *)
Lemma int_toString_six n :
  100000 <= n <= 999999 ->
  Js.int_toString n
  = String (Js.digit_char (n / 100000 mod 10))
      (String (Js.digit_char (n / 10000 mod 10))
         (String (Js.digit_char (n / 1000 mod 10))
            (String (Js.digit_char (n / 100 mod 10))
               (String (Js.digit_char (n / 10 mod 10))
                  (String (Js.digit_char (n mod 10)) EmptyString))))).
Proof.
  intros H. unfold Js.int_toString.
  destruct (n <? 0) eqn:E; [apply Z.ltb_lt in E; lia|].
  assert (Hlog : 16 <= Z.log2 n).
  { change 16 with (Z.log2 100000). apply Z.log2_le_mono. lia. }
  destruct (Z.to_nat (Z.log2 n)) as [|[|[|[|[|fuel]]]]] eqn:Ef; try lia.
  assert (D1 : n / 10 / 10 = n / 100) by (rewrite Z.div_div by lia; reflexivity).
  assert (D2 : n / 100 / 10 = n / 1000) by (rewrite Z.div_div by lia; reflexivity).
  assert (D3 : n / 1000 / 10 = n / 10000) by (rewrite Z.div_div by lia; reflexivity).
  assert (D4 : n / 10000 / 10 = n / 100000) by (rewrite Z.div_div by lia; reflexivity).
  assert (D5 : n / 100000 / 10 = 0) by (rewrite Z.div_div by lia; apply Z.div_small; lia).
  cbn [Js.dec_digits].
  replace (n / 10 =? 0) with false by (symmetry; apply Z.eqb_neq; Z.div_mod_to_equations; lia).
  rewrite D1. replace (n / 100 =? 0) with false by (symmetry; apply Z.eqb_neq; Z.div_mod_to_equations; lia).
  rewrite D2. replace (n / 1000 =? 0) with false by (symmetry; apply Z.eqb_neq; Z.div_mod_to_equations; lia).
  rewrite D3. replace (n / 10000 =? 0) with false by (symmetry; apply Z.eqb_neq; Z.div_mod_to_equations; lia).
  rewrite D4. replace (n / 100000 =? 0) with false by (symmetry; apply Z.eqb_neq; Z.div_mod_to_equations; lia).
  rewrite D5. reflexivity.
Qed.

Lemma six_digit_string n :
  100000 <= n <= 999999 ->
  String.length (Js.int_toString n) = 6%nat
  /\ Js.digitsOnly (Js.int_toString n) = Js.int_toString n
  /\ Js.startsWith "0" (Js.int_toString n) = false.
Proof.
  intros H. rewrite (int_toString_six n H). split; [reflexivity|]. split.
  - cbn [Js.digitsOnly].
    rewrite !digit_char_is_digit; [reflexivity | Z.div_mod_to_equations; lia ..].
  - cbn [Js.startsWith].
    rewrite digit_char_nonzero; [reflexivity | Z.div_mod_to_equations; lia].
Qed.

(** C10: for every value [Math.random()] can return, the code of the
    record that [generateOtp] inserts is the decimal form of an integer
    between 100000 and 999999: six characters, all of them digits, the
    first of them not a zero. *)
Theorem issued_code_is_six_digits r now uuid rnd p em ph uid ip :
  in_unit_interval rnd ->
  exists o n,
    (OtpService.generateOtp r now uuid rnd p em ph uid ip).1
    = (OtpService.invalidatePreviousOtps r p em ph uid ++ [o])%list
    /\ OtpEntity.code o = OtpService.generateRandomCode rnd
    /\ 100000 <= n <= 999999
    /\ OtpEntity.code o = Js.int_toString n
    /\ String.length (OtpEntity.code o) = 6%nat
    /\ Js.digitsOnly (OtpEntity.code o) = OtpEntity.code o
    /\ Js.startsWith "0" (OtpEntity.code o) = false.
Proof.
  intros Hr. destruct (floor_in_range rnd Hr) as (n & Hn & Hfloor).
  assert (Hcode : OtpService.generateRandomCode rnd = Js.int_toString n).
  { unfold OtpService.generateRandomCode. now rewrite Hfloor. }
  destruct (six_digit_string n Hn) as (H6 & Hd & H0).
  eexists. exists n. split; [reflexivity|]. cbn [OtpEntity.code].
  rewrite Hcode. repeat split; try assumption; try reflexivity; lia.
Qed.

Lemma issued_code_witness :
  exists o, (OtpService.generateOtp [] 0 "otp-1" half OtpEntity.EMAIL_VERIFICATION
               (Some "a@b.com") None None None).1 = [o]
            /\ OtpEntity.code o = "550000"
            /\ String.length (OtpEntity.code o) = 6%nat.
Proof.
  destruct (issued_code_is_six_digits [] 0 "otp-1" half OtpEntity.EMAIL_VERIFICATION
              (Some "a@b.com") None None None
              (conj eq_refl (conj eq_refl eq_refl)))
    as (o & n & Hrepo & Hc & _ & _ & Hlen & _).
  exists o. split; [exact Hrepo|]. split; [|exact Hlen].
  rewrite Hc. reflexivity.
Defined.

End FloatFacts.

(** * Further properties of the one-time-code ledger *)
Module OtpLedger.
Import OtpEntity OtpService Scenario OtpFacts.

Lemma In_save r i o o' :
  findById r i = Some o -> id o' = id o -> In o' (save r o').
Proof.
  intros Hf Hid. apply findById_In in Hf. unfold save. apply List.in_map_iff.
  exists o. split; [|exact Hf]. now rewrite Hid, String.eqb_refl.
Qed.

Lemma Forall_save (P : Otp -> Prop) r o' :
  List.Forall P r -> P o' -> List.Forall P (save r o').
Proof.
  intros Hr Ho. unfold save. apply List.Forall_forall. intros x Hx.
  apply List.in_map_iff in Hx as (y & <- & Hy).
  destruct (String.eqb (id y) (id o')); [exact Ho|].
  now apply (proj1 (List.Forall_forall P r) Hr).
Qed.

Lemma length_save r o' : List.length (save r o') = List.length r.
Proof. unfold save. apply List.length_map. Qed.

(** The row an issuance appends. *)
Lemma findById_issued r now uuid rnd p em ph uid ip :
  findById r uuid = None ->
  findById (generateOtp r now uuid rnd p em ph uid ip).1 uuid
  = Some (mkOtp uuid uid em ph (generateRandomCode rnd) p PENDING 0 3
            (now + 60 * 1000) ip now None).
Proof.
  intros Hfresh. unfold generateOtp, insert, invalidatePreviousOtps. cbn [fst].
  rewrite OtpSupersede.findById_app,
    (OtpSupersede.findById_map _ _ _ (OtpSupersede.invalidate_keeps_id p em ph uid)).
  rewrite Hfresh. cbn. now rewrite String.eqb_refl.
Qed.

(** X1. [verifyOtp] accepts exactly when the identifier names a record
    that is not past its expiry, is not verified, has an attempt left and
    carries the supplied code; what it returns is the subject of that
    record, and the record is then found as [VERIFIED] with
    [verifiedAt] the time of the call. *)
Theorem verifyOtp_accepts_iff r now i c p v :
  (verifyOtp r now i c p).2 = inr v
  <-> exists o, findById r i = Some o
                /\ now <= expiresAt o
                /\ status o <> VERIFIED
                /\ attempts o < maxAttempts o
                /\ code o = c
                /\ v = mkVerified true (userId o) (email o) (phone o)
                /\ findById (verifyOtp r now i c p).1 i
                   = Some (set_verifiedAt now (set_status VERIFIED o)).
Proof.
  unfold verifyOtp. destruct (findById r i) as [o|] eqn:Hf.
  - destruct (expiresAt o <? now) eqn:E1.
    { apply Z.ltb_lt in E1. split; [discriminate|].
      intros (o' & [= <-] & H & _). lia. }
    apply Z.ltb_ge in E1.
    destruct (status_eqb (status o) VERIFIED) eqn:E2.
    { apply status_eqb_eq in E2. split; [discriminate|].
      intros (o' & [= <-] & _ & H & _). contradiction. }
    assert (Hs : status o <> VERIFIED).
    { intros H. apply status_eqb_eq in H. congruence. }
    destruct (maxAttempts o <=? attempts o) eqn:E3.
    { apply Z.leb_le in E3. split; [discriminate|].
      intros (o' & [= <-] & _ & _ & H & _). lia. }
    apply Z.leb_gt in E3.
    destruct (String.eqb (code o) c) eqn:E4; cbn [negb snd fst].
    + apply String.eqb_eq in E4. split.
      * intros [= <-]. exists o. repeat split; try assumption.
        apply (findById_save_at r i o); [exact Hf | reflexivity].
      * intros (o' & [= <-] & _ & _ & _ & _ & -> & _). reflexivity.
    + apply String.eqb_neq in E4. split; [discriminate|].
      intros (o' & [= <-] & _ & _ & _ & H & _). contradiction.
  - split; [discriminate|]. intros (o & H & _). discriminate H.
Qed.

(** X2. A call to [verifyOtp] touches no record but the one it names, and
    neither adds nor removes a row. *)
Theorem verifyOtp_leaves_other_records r now i c p j :
  j <> i ->
  findById (verifyOtp r now i c p).1 j = findById r j
  /\ List.length (verifyOtp r now i c p).1 = List.length r.
Proof.
  intros Hne. unfold verifyOtp. destruct (findById r i) as [o|] eqn:Hf; [|now split].
  pose proof (findById_id _ _ _ Hf) as Hid.
  repeat match goal with
         | |- context [if ?b then _ else _] => destruct b
         end; cbn [fst]; rewrite ?length_save;
    (split; [|reflexivity]); try reflexivity;
    apply findById_save_other; cbn; congruence.
Qed.

Lemma verifyOtp_leaves_other_records_witness :
  let r := [fresh_otp "otp-1" "654321" 60000; fresh_otp "otp-2" "123123" 60000] in
  findById (verifyOtp r 1000 "otp-1" "000000" EMAIL_VERIFICATION).1 "otp-2"
  = Some (fresh_otp "otp-2" "123123" 60000).
Proof.
  intros r.
  destruct (verifyOtp_leaves_other_records r 1000 "otp-1" "000000" EMAIL_VERIFICATION
              "otp-2" ltac:(discriminate)) as [H _].
  rewrite H. reflexivity.
Defined.

(** X3. Neither verification nor issuance lets a counter pass its limit:
    if every record has [attempts <= maxAttempts], so has every record
    afterwards. *)
Theorem attempts_never_exceed_limit r now i c p uuid rnd em ph uid ip :
  List.Forall (fun o => attempts o <= maxAttempts o) r ->
  List.Forall (fun o => attempts o <= maxAttempts o) (verifyOtp r now i c p).1
  /\ List.Forall (fun o => attempts o <= maxAttempts o)
       (generateOtp r now uuid rnd p em ph uid ip).1.
Proof.
  intros Hr. split.
  - unfold verifyOtp. destruct (findById r i) as [o|] eqn:Hf; [|exact Hr].
    pose proof (proj1 (List.Forall_forall _ r) Hr o (findById_In _ _ _ Hf)) as Ho.
    destruct (expiresAt o <? now); [apply Forall_save; [exact Hr | exact Ho]|].
    destruct (status_eqb (status o) VERIFIED); [exact Hr|].
    destruct (maxAttempts o <=? attempts o) eqn:E3;
      [apply Forall_save; [exact Hr | exact Ho]|].
    apply Z.leb_gt in E3.
    destruct (negb (String.eqb (code o) c)); apply Forall_save; try exact Hr; cbn; lia.
  - unfold generateOtp, insert, invalidatePreviousOtps. cbn [fst].
    apply List.Forall_app. split.
    + apply List.Forall_forall. intros x Hx.
      apply List.in_map_iff in Hx as (y & <- & Hy).
      pose proof (proj1 (List.Forall_forall _ r) Hr y Hy) as H.
      now destruct (invalidated p em ph uid y).
    + constructor; [cbn; lia | constructor].
Qed.

Lemma attempts_never_exceed_limit_witness :
  List.Forall (fun o => attempts o <= maxAttempts o)
    (verifyOtp [fresh_otp "otp-1" "654321" 60000] 1000 "otp-1" "000000"
       EMAIL_VERIFICATION).1.
Proof.
  apply (attempts_never_exceed_limit [fresh_otp "otp-1" "654321" 60000] 1000 "otp-1"
           "000000" EMAIL_VERIFICATION "otp-2" half None None None None).
  constructor; [cbn; lia | constructor].
Defined.

(** X4. After an issuance, the only record the issuance's own selection
    (purpose, pending status, and each subject field that was given)
    still matches is the record just issued. *)
Theorem generateOtp_single_pending r now uuid rnd p em ph uid ip o :
  In o (generateOtp r now uuid rnd p em ph uid ip).1 ->
  invalidated p em ph uid o = true ->
  o = mkOtp uuid uid em ph (generateRandomCode rnd) p PENDING 0 3 (now + 60 * 1000)
        ip now None.
Proof.
  unfold generateOtp, insert, invalidatePreviousOtps. cbn [fst]. intros Hin Hsel.
  apply List.in_app_iff in Hin as [Hin | [<- | []]]; [|reflexivity].
  exfalso. apply List.in_map_iff in Hin as (y & <- & Hy).
  destruct (invalidated p em ph uid y) eqn:E; [|congruence].
  unfold invalidated in Hsel. cbn in Hsel.
  rewrite andb_false_r in Hsel. cbn in Hsel. discriminate Hsel.
Qed.

Lemma generateOtp_single_pending_witness :
  let r := [fresh_otp "otp-1" "654321" 60000] in
  let o := mkOtp "otp-2" None (Some "a@b.com") None (generateRandomCode half)
             EMAIL_VERIFICATION PENDING 0 3 (5000 + 60 * 1000) None 5000 None in
  In o (generateOtp r 5000 "otp-2" half EMAIL_VERIFICATION
          (Some "a@b.com") None None None).1
  /\ invalidated EMAIL_VERIFICATION (Some "a@b.com") None None o = true
  /\ id o = "otp-2".
Proof.
  intros r o.
  assert (Hin : In o (generateOtp r 5000 "otp-2" half EMAIL_VERIFICATION
                        (Some "a@b.com") None None None).1)
    by (cbn; right; left; reflexivity).
  split; [exact Hin|]. split; [reflexivity|].
  rewrite (generateOtp_single_pending r 5000 "otp-2" half EMAIL_VERIFICATION
             (Some "a@b.com") None None None o Hin eq_refl).
  reflexivity.
Defined.

(** X5. A code is good for sixty seconds: under a fresh key, the code
    just issued is accepted at any time up to [now + 60 s] and returns the
    subject it was issued for; for an e-mail verification the address
    counts as verified from then on. *)
Theorem issued_code_verifies_within_60s r now uuid rnd p em ph uid ip t :
  findById r uuid = None ->
  t <= now + 60 * 1000 ->
  let r1 := (generateOtp r now uuid rnd p em ph uid ip).1 in
  let answer := verifyOtp r1 t uuid (generateRandomCode rnd) p in
  answer.2 = inr (mkVerified true uid em ph)
  /\ status_of answer.1 uuid = Some VERIFIED
  /\ (forall e, p = EMAIL_VERIFICATION -> em = Some e ->
                isEmailVerified answer.1 e = true).
Proof.
  intros Hfresh Ht r1 answer.
  pose proof (findById_issued r now uuid rnd p em ph uid ip Hfresh) as Hf. fold r1 in Hf.
  set (o := mkOtp uuid uid em ph (generateRandomCode rnd) p PENDING 0 3
              (now + 60 * 1000) ip now None) in *.
  assert (Hans : answer = (save r1 (set_verifiedAt t (set_status VERIFIED o)),
                           inr (mkVerified true uid em ph))).
  { subst answer. unfold verifyOtp. rewrite Hf. cbn [expiresAt status attempts maxAttempts code o].
    replace (now + 60 * 1000 <? t) with false by (symmetry; apply Z.ltb_ge; lia).
    cbn. now rewrite String.eqb_refl. }
  rewrite Hans. cbn [fst snd]. split; [reflexivity|]. split.
  - unfold status_of. now rewrite (findById_save_at r1 uuid o (set_verifiedAt t (set_status VERIFIED o))
                   Hf eq_refl).
  - intros e -> ->. unfold isEmailVerified. apply List.existsb_exists.
    exists (set_verifiedAt t (set_status VERIFIED o)). split.
    + apply (In_save r1 uuid o); [exact Hf | reflexivity].
    + cbn. now rewrite String.eqb_refl.
Qed.

Lemma issued_code_verifies_witness :
  let r1 := (generateOtp [] 0 "otp-1" half EMAIL_VERIFICATION
               (Some "a@b.com") None None None).1 in
  findById [] "otp-1" = None
  /\ 59000 <= 0 + 60 * 1000
  /\ (verifyOtp r1 59000 "otp-1" (generateRandomCode half) EMAIL_VERIFICATION).2
     = inr (mkVerified true None (Some "a@b.com") None).
Proof.
  intros r1. split; [reflexivity|]. split; [lia|].
  apply (issued_code_verifies_within_60s [] 0 "otp-1" half EMAIL_VERIFICATION
           (Some "a@b.com") None None None 59000 eq_refl ltac:(lia)).
Defined.

(** X6. Past its sixty seconds a code is refused as expired whatever is
    supplied, the right code included, and the record is left [EXPIRED]. *)
Theorem issued_code_expires_after_60s r now uuid rnd p em ph uid ip t c :
  findById r uuid = None ->
  now + 60 * 1000 < t ->
  let r1 := (generateOtp r now uuid rnd p em ph uid ip).1 in
  (verifyOtp r1 t uuid c p).2 = inl OtpHasExpired
  /\ status_of (verifyOtp r1 t uuid c p).1 uuid = Some EXPIRED.
Proof.
  intros Hfresh Ht r1.
  pose proof (findById_issued r now uuid rnd p em ph uid ip Hfresh) as Hf. fold r1 in Hf.
  set (o := mkOtp uuid uid em ph (generateRandomCode rnd) p PENDING 0 3
              (now + 60 * 1000) ip now None) in *.
  rewrite (verifyOtp_late r1 t uuid c p o Hf) by (cbn; lia). cbn [fst snd].
  split; [reflexivity|]. unfold status_of.
  now rewrite (findById_save_at r1 uuid o (set_status EXPIRED o) Hf eq_refl).
Qed.

Lemma issued_code_expires_witness :
  let r1 := (generateOtp [] 0 "otp-1" half EMAIL_VERIFICATION
               (Some "a@b.com") None None None).1 in
  findById [] "otp-1" = None
  /\ 0 + 60 * 1000 < 60001
  /\ (verifyOtp r1 60001 "otp-1" (generateRandomCode half) EMAIL_VERIFICATION).2
     = inl OtpHasExpired.
Proof.
  intros r1. split; [reflexivity|]. split; [lia|].
  apply (issued_code_expires_after_60s [] 0 "otp-1" half EMAIL_VERIFICATION
           (Some "a@b.com") None None None 60001 (generateRandomCode half)
           eq_refl ltac:(lia)).
Defined.

(** X7. Issuing a code never takes a verification away: an address or a
    number that counts as verified still does after any [generateOtp]. *)
Theorem generateOtp_keeps_verified r now uuid rnd p em ph uid ip :
  (forall e, isEmailVerified r e = true ->
             isEmailVerified (generateOtp r now uuid rnd p em ph uid ip).1 e = true)
  /\ (forall n, isPhoneVerified r n = true ->
                isPhoneVerified (generateOtp r now uuid rnd p em ph uid ip).1 n = true).
Proof.
  assert (Hkeep : forall x, In x r -> status x = VERIFIED ->
                            In x (generateOtp r now uuid rnd p em ph uid ip).1).
  { intros x Hx Hs. unfold generateOtp, insert, invalidatePreviousOtps. cbn [fst].
    apply List.in_app_iff. left. apply List.in_map_iff. exists x. split; [|exact Hx].
    unfold invalidated. rewrite Hs. cbn. now rewrite andb_false_r. }
  split; intros k H; unfold isEmailVerified, isPhoneVerified in *;
    apply List.existsb_exists in H as (x & Hx & Hc); apply List.existsb_exists;
    exists x; (split; [|exact Hc]); apply Hkeep; [exact Hx | | exact Hx |];
    apply andb_prop in Hc as [_ Hs]; now apply status_eqb_eq.
Qed.

Lemma filter_split_length {A} (f : A -> bool) (l : list A) :
  (List.length (List.filter f l) + List.length (List.filter (fun x => negb (f x)) l)
   = List.length l)%nat.
Proof.
  induction l as [|a l IH]; [reflexivity|]. cbn. destruct (f a); cbn; lia.
Qed.

(** X8. The clean-up keeps exactly the records whose expiry is no older
    than twenty-four hours, whatever their status, and returns how many
    rows it deleted. *)
Theorem cleanupExpiredOtps_keeps_recent r now :
  let out := cleanupExpiredOtps r now in
  (forall o, In o out.1 <-> In o r /\ now - 24 * 60 * 60 * 1000 <= expiresAt o)
  /\ out.2 = Z.of_nat (List.length r) - Z.of_nat (List.length out.1).
Proof.
  unfold cleanupExpiredOtps. cbn [fst snd]. split.
  - intros o. rewrite List.filter_In, negb_true_iff, Z.ltb_ge. reflexivity.
  - pose proof (filter_split_length
                  (fun o => expiresAt o <? now - 24 * 60 * 60 * 1000) r). lia.
Qed.

(** A verified record is deleted with the rest once its expiry is a day
    old, and the address stops counting as verified. *)
Example cleanup_forgets_verification :
  isEmailVerified [alice_otp] "alice@example.com" = true
  /\ isEmailVerified (cleanupExpiredOtps [alice_otp] (60000 + 86400001)).1
       "alice@example.com" = false.
Proof. split; reflexivity. Qed.

End OtpLedger.

(** * Loops over the entries of the block registry *)
Module IpSweeps.
Import IpBlocker.

(** A loop over the entries that deletes those a test selects leaves, for
    every key, the record it had unless an entry of that key was
    selected. *)
Lemma sweep_lookup {B} (drop : BlockedIpRecord -> bool)
    (step : Blocked * B -> string * BlockedIpRecord -> Blocked * B) :
  (forall acc entry,
      (step acc entry).1 = if drop entry.2 then delete entry.1 acc.1 else acc.1) ->
  forall l acc k,
    (foldl step acc l).1 !! k
    = if List.existsb (fun entry => bool_decide (entry.1 = k) && drop entry.2) l
      then None else acc.1 !! k.
Proof.
  intros Hstep l. induction l as [|entry l IH]; intros acc k; [reflexivity|].
  cbn [foldl List.existsb]. rewrite IH, Hstep.
  destruct (drop entry.2); cbn [andb].
  - destruct (decide (entry.1 = k)) as [->|Hne].
    + rewrite bool_decide_eq_true_2 by reflexivity. cbn.
      rewrite lookup_delete_eq. now destruct (List.existsb _ l).
    + rewrite bool_decide_eq_false_2 by exact Hne. cbn.
      now rewrite lookup_delete_ne by exact Hne.
  - now rewrite andb_false_r.
Qed.

(** Run over the entries of the registry itself, such a loop keeps
    exactly the records the test does not select. *)
Lemma sweep_registry {B} (drop : BlockedIpRecord -> bool)
    (step : Blocked * B -> string * BlockedIpRecord -> Blocked * B) (m : Blocked) b k :
  (forall acc entry,
      (step acc entry).1 = if drop entry.2 then delete entry.1 acc.1 else acc.1) ->
  (foldl step (m, b) (map_to_list m)).1 !! k
  = match m !! k with
    | Some record => if drop record then None else Some record
    | None => None
    end.
Proof.
  intros Hstep. rewrite (sweep_lookup drop step Hstep). cbn [fst].
  destruct (m !! k) as [record|] eqn:Hm; [|now destruct (List.existsb _ _)].
  destruct (drop record) eqn:Hd.
  - replace (List.existsb _ _) with true; [reflexivity|].
    symmetry. apply List.existsb_exists. exists (k, record). split.
    + apply list_elem_of_In, elem_of_map_to_list, Hm.
    + cbn. rewrite bool_decide_eq_true_2 by reflexivity. exact Hd.
  - replace (List.existsb _ _) with false; [reflexivity|].
    symmetry. apply not_true_is_false. intros H.
    apply List.existsb_exists in H as ([k' r'] & Hin & Hsel).
    apply list_elem_of_In, elem_of_map_to_list in Hin.
    apply andb_prop in Hsel as [Hk Hr]. apply bool_decide_eq_true in Hk.
    cbn in Hk, Hr. subst k'. congruence.
Qed.

(** Each deletion of a record that is there takes one off the size, so
    the count of deletions and the size of what is left add up. *)
Lemma sweep_count (drop : BlockedIpRecord -> bool) l :
  NoDup l.*1 ->
  forall acc : Blocked * Z,
    (forall entry, entry ∈ l -> acc.1 !! entry.1 = Some entry.2) ->
    let out := foldl (fun (acc : Blocked * Z) (entry : string * BlockedIpRecord) =>
                        if drop entry.2 then (delete entry.1 acc.1, acc.2 + 1) else acc)
                     acc l in
    out.2 + Z.of_nat (size out.1) = acc.2 + Z.of_nat (size acc.1)
    /\ acc.2 <= out.2.
Proof.
  induction l as [|entry l IH]; intros Hnd acc Hall; [cbn; lia|].
  cbn [foldl]. cbn [fmap list_fmap] in Hnd. apply NoDup_cons in Hnd as [Hfresh Hnd].
  pose proof (Hall entry ltac:(left)) as Hentry.
  destruct (drop entry.2).
  - destruct (IH Hnd (delete entry.1 acc.1, acc.2 + 1)) as [Hsum Hle].
    + intros e He. cbn [fst]. rewrite lookup_delete_ne.
      * apply Hall. now right.
      * intros Heq. apply Hfresh. rewrite Heq. apply list_elem_of_fmap. now exists e.
    + cbn [fst snd] in *. split; [|lia]. rewrite Hsum.
      pose proof (map_size_delete_Some entry.1 acc.1 (ex_intro _ _ Hentry)) as Hs.
      assert (size acc.1 <> 0%nat).
      { apply map_size_non_empty_iff. intros Hempty. rewrite Hempty in Hentry.
        now rewrite lookup_empty in Hentry. }
      lia.
  - apply IH; [exact Hnd|]. intros e He. apply Hall. now right.
Qed.

(** A loop that finds nothing to delete changes nothing. *)
Lemma sweep_nothing {B} (drop : BlockedIpRecord -> bool)
    (step : Blocked * B -> string * BlockedIpRecord -> Blocked * B) l :
  (forall acc entry, drop entry.2 = false -> step acc entry = acc) ->
  (forall entry, entry ∈ l -> drop entry.2 = false) ->
  forall acc, foldl step acc l = acc.
Proof.
  intros Hstep. induction l as [|entry l IH]; intros Hall acc; [reflexivity|].
  cbn [foldl]. rewrite Hstep by (apply Hall; now left).
  apply IH. intros e He. apply Hall. now right.
Qed.

(** The records pushed are those that pass the test, in order. *)
Lemma sweep_pushed (keep : BlockedIpRecord -> bool) l :
  forall acc : Blocked * list BlockedIpRecord,
    (foldl (fun (acc : Blocked * list BlockedIpRecord) (entry : string * BlockedIpRecord) =>
              if keep entry.2 then (acc.1, (acc.2 ++ [entry.2])%list)
              else (delete entry.1 acc.1, acc.2)) acc l).2
    = (acc.2 ++ List.filter keep l.*2)%list.
Proof.
  induction l as [|entry l IH]; intros acc; cbn [foldl fmap list_fmap List.filter].
  - now rewrite List.app_nil_r.
  - rewrite IH. destruct (keep entry.2); cbn [fst snd]; [|reflexivity].
    now rewrite <- List.app_assoc.
Qed.

(** On valid dates the two tests of the source are each other's
    complement, and are the comparison of the time values. *)
Lemma date_le_valid a b :
  Js.valid_time a = true -> Js.valid_time b = true ->
  Js.date_le a b = (a <=? b) /\ Js.date_gt a b = negb (a <=? b).
Proof.
  intros Ha Hb. unfold Js.date_le, Js.date_gt. rewrite Ha, Hb. cbn [andb].
  split; [reflexivity|]. apply Z.ltb_antisym.
Qed.

End IpSweeps.

(** * Further properties of the IP block registry *)
Module IpRegistry.
Import IpBlocker IpSweeps Invariants.

(** X9. Unblocking lifts a block at once, whatever its duration: after
    [blockIp] then [unblockIp] the call reports a deletion and the address
    is not blocked at any time; unblocking an address that has no record
    reports [false] and changes nothing. *)
Theorem unblockIp_lifts_block (m : gmap string BlockedIpRecord) now ip why d :
  (let blocked := (blockIp m now ip why d).1 in
   (unblockIp blocked ip).2 = true
   /\ forall t, (isIpBlocked (unblockIp blocked ip).1 t ip).2 = false)
  /\ (m !! ip = None -> unblockIp m ip = (m, false)).
Proof.
  split.
  - cbn zeta. unfold unblockIp, blockIp. cbn [fst snd]. split.
    + rewrite lookup_insert_eq. apply bool_decide_eq_true. eauto.
    + intros t. unfold isIpBlocked. now rewrite lookup_delete_eq.
  - intros Hnone. unfold unblockIp. rewrite Hnone, delete_id by exact Hnone.
    reflexivity.
Qed.

Lemma unblockIp_lifts_block_witness :
  (∅ : gmap string BlockedIpRecord) !! "10.0.0.1" = None
  /\ unblockIp (∅ : gmap string BlockedIpRecord) "10.0.0.1" = (∅, false).
Proof.
  split; [reflexivity|].
  apply (proj2 (unblockIp_lifts_block ∅ 0 "10.0.0.1" "test" 1)). reflexivity.
Defined.

(** X10. An expiry is final: once [isIpBlocked] has answered [false] for
    an address, it answers [false] for that address on the registry it
    left, at every clock reading, until [blockIp] is called again. *)
Theorem isIpBlocked_false_is_final (m : gmap string BlockedIpRecord) now ip :
  (isIpBlocked m now ip).2 = false ->
  forall t, (isIpBlocked (isIpBlocked m now ip).1 t ip).2 = false.
Proof.
  unfold isIpBlocked. destruct (m !! ip) as [record|] eqn:Hm.
  - destruct (unblockAt record <? now) eqn:E; cbn [fst snd].
    + intros _ t. now rewrite lookup_delete_eq.
    + intros Hact t. rewrite Hm. now destruct (unblockAt record <? t).
  - cbn [fst snd]. intros _ t. now rewrite Hm.
Qed.

Lemma isIpBlocked_false_is_final_witness :
  let m := (blockIp ∅ 0 "10.0.0.1" "test" 1).1 in
  (isIpBlocked m 3600001 "10.0.0.1").2 = false
  /\ (isIpBlocked (isIpBlocked m 3600001 "10.0.0.1").1 1000 "10.0.0.1").2 = false.
Proof.
  intros m. split; [reflexivity|].
  apply (isIpBlocked_false_is_final m 3600001 "10.0.0.1"). reflexivity.
Defined.

(** The enumeration agrees with the point query: the record of a block
    is listed as long as the clock has not passed [unblockAt], both
    dates being valid. *)
Lemma getAllBlockedIps_after_block (m : gmap string BlockedIpRecord) now ip why d t :
  Js.valid_time t = true ->
  Js.valid_time (now + d * 60 * 60 * 1000) = true ->
  t <= now + d * 60 * 60 * 1000 ->
  (blockIp m now ip why d).2 ∈ (getAllBlockedIps (blockIp m now ip why d).1 t).2.
Proof.
  intros Ht Hu Hle. unfold getAllBlockedIps.
  rewrite (sweep_pushed (fun record => Js.date_le t (unblockAt record))).
  cbn [snd List.app]. apply list_elem_of_In, List.filter_In. split.
  - apply list_elem_of_In, list_elem_of_fmap. exists (ip, (blockIp m now ip why d).2).
    split; [reflexivity|]. apply elem_of_map_to_list. apply lookup_insert_eq.
  - cbn [blockIp snd unblockAt]. rewrite (proj1 (date_le_valid _ _ Ht Hu)).
    now apply Z.leb_le.
Qed.

(** X11. On a registry whose dates are all valid, [getAllBlockedIps]
    lists exactly the records whose [unblockAt] the clock has not
    passed, and the sweep it performs cannot be observed: at no later
    clock reading does it change the answer of [isIpBlocked] for any
    address. *)
Theorem getAllBlockedIps_lists_active (m : gmap string BlockedIpRecord) now :
  Js.valid_time now = true ->
  dates_valid m ->
  (forall record, record ∈ (getAllBlockedIps m now).2
                  <-> exists ip, m !! ip = Some record /\ now <= unblockAt record)
  /\ (forall t ip, now <= t ->
        (isIpBlocked (getAllBlockedIps m now).1 t ip).2 = (isIpBlocked m t ip).2).
Proof.
  intros Hnow Hvalid.
  assert (Hle : forall ip record, m !! ip = Some record ->
                  Js.date_le now (unblockAt record) = (now <=? unblockAt record)).
  { intros ip record Hm. apply date_le_valid; [exact Hnow|]. exact (Hvalid ip record Hm). }
  unfold getAllBlockedIps. split.
  - intros record.
    rewrite (sweep_pushed (fun record => Js.date_le now (unblockAt record))).
    cbn [snd List.app]. rewrite list_elem_of_In, List.filter_In, <- list_elem_of_In,
      list_elem_of_fmap.
    split.
    + intros (([ip record'] & -> & Hin) & Hkeep). apply elem_of_map_to_list in Hin.
      cbn [snd] in *. exists ip. split; [exact Hin|].
      rewrite (Hle ip record' Hin) in Hkeep. now apply Z.leb_le.
    + intros (ip & Hm & Hkeep). split.
      * exists (ip, record). split; [reflexivity|]. now apply elem_of_map_to_list.
      * rewrite (Hle ip record Hm). now apply Z.leb_le.
  - intros t ip Ht. unfold isIpBlocked.
    rewrite (sweep_registry (fun record => negb (Js.date_le now (unblockAt record))))
      by (intros acc entry; now destruct (Js.date_le now (unblockAt entry.2))).
    destruct (m !! ip) as [record|] eqn:Hm; [|reflexivity].
    rewrite (Hle ip record Hm).
    destruct (now <=? unblockAt record) eqn:E; cbn [negb];
      [now destruct (unblockAt record <? t)|].
    apply Z.leb_gt in E.
    replace (unblockAt record <? t) with true by (symmetry; apply Z.ltb_lt; lia).
    reflexivity.
Qed.

Lemma two_blocks_valid : dates_valid Fixtures.two_blocks.
Proof.
  unfold dates_valid, Fixtures.two_blocks, blockIp. cbn [fst].
  apply map_Forall_insert_2; [reflexivity|].
  apply map_Forall_insert_2; [reflexivity|]. apply map_Forall_empty.
Qed.

Lemma getAllBlockedIps_lists_active_witness :
  Js.valid_time 3600001 = true
  /\ dates_valid Fixtures.two_blocks
  /\ forall t ip, 3600001 <= t ->
       (isIpBlocked (getAllBlockedIps Fixtures.two_blocks 3600001).1 t ip).2
       = (isIpBlocked Fixtures.two_blocks t ip).2.
Proof.
  split; [reflexivity|]. split; [exact two_blocks_valid|].
  exact (proj2 (getAllBlockedIps_lists_active Fixtures.two_blocks 3600001
                  eq_refl two_blocks_valid)).
Defined.

(** X12. [clearExpiredBlocks] returns the number of records it removed:
    that number and the size of what is left add up to the size of the
    registry; a second sweep at the same clock reading removes nothing;
    and on a registry whose dates are all valid it leaves what
    [getAllBlockedIps] leaves. *)
Theorem clearExpiredBlocks_counts_removed (m : gmap string BlockedIpRecord) now :
  let out := clearExpiredBlocks m now in
  out.2 + Z.of_nat (size out.1) = Z.of_nat (size m)
  /\ 0 <= out.2
  /\ clearExpiredBlocks out.1 now = (out.1, 0)
  /\ (Js.valid_time now = true -> dates_valid m ->
      out.1 = (getAllBlockedIps m now).1).
Proof.
  cbv zeta.
  assert (Hkept : forall k,
             (clearExpiredBlocks m now).1 !! k
             = match m !! k with
               | Some record =>
                   if Js.date_gt now (unblockAt record) then None else Some record
               | None => None
               end).
  { intros k. unfold clearExpiredBlocks.
    apply (sweep_registry (fun record => Js.date_gt now (unblockAt record))).
    intros acc entry. now destruct (Js.date_gt now (unblockAt entry.2)). }
  destruct (sweep_count (fun record => Js.date_gt now (unblockAt record))
              (map_to_list m) (NoDup_fst_map_to_list m) (m, 0)) as [Hsum Hle].
  { intros [k record] Hin. now apply elem_of_map_to_list in Hin. }
  cbn [fst snd] in Hsum, Hle.
  split; [exact Hsum|]. split; [exact Hle|]. split.
  - unfold clearExpiredBlocks at 1.
    apply (sweep_nothing (fun record => Js.date_gt now (unblockAt record))).
    + intros acc entry Hd. now rewrite Hd.
    + intros [k record] Hin. apply elem_of_map_to_list in Hin. rewrite Hkept in Hin.
      cbn [snd]. destruct (m !! k) as [record'|]; [|discriminate].
      destruct (Js.date_gt now (unblockAt record')) eqn:Hd; [discriminate|].
      now injection Hin as <-.
  - intros Hnow Hvalid. apply map_eq. intros k. rewrite Hkept.
    unfold getAllBlockedIps.
    rewrite (sweep_registry (fun record => negb (Js.date_le now (unblockAt record))))
      by (intros acc entry; now destruct (Js.date_le now (unblockAt entry.2))).
    destruct (m !! k) as [record|] eqn:Hm; [|reflexivity].
    destruct (date_le_valid now (unblockAt record) Hnow (Hvalid k record Hm)) as [-> ->].
    reflexivity.
Qed.

Lemma clearExpiredBlocks_counts_removed_witness :
  Js.valid_time 3600001 = true
  /\ dates_valid Fixtures.two_blocks
  /\ (clearExpiredBlocks Fixtures.two_blocks 3600001).2 = 1
  /\ (clearExpiredBlocks Fixtures.two_blocks 3600001).1
     = (getAllBlockedIps Fixtures.two_blocks 3600001).1.
Proof.
  split; [reflexivity|]. split; [exact two_blocks_valid|]. split; [reflexivity|].
  exact (proj2 (proj2 (proj2 (clearExpiredBlocks_counts_removed
                                Fixtures.two_blocks 3600001)))
           eq_refl two_blocks_valid).
Defined.

(** The hypothesis on the dates is needed.  With an Invalid Date both
    tests of the source fail: the listing deletes the record, the sweep
    keeps it, and the point query goes on reporting the address
    blocked. *)
Example endless_block_is_invalid : ~ dates_valid Fixtures.endless_block.
Proof.
  intros H. specialize (H "10.0.0.9" _ (lookup_insert_eq _ _ _)). discriminate H.
Qed.

Example invalid_date_listing :
  (isIpBlocked Fixtures.endless_block 1000 "10.0.0.9").2 = true
  /\ (getAllBlockedIps Fixtures.endless_block 1000).2 = []
  /\ (getAllBlockedIps Fixtures.endless_block 1000).1 !! "10.0.0.9" = None
  /\ (clearExpiredBlocks Fixtures.endless_block 1000).2 = 0
  /\ (clearExpiredBlocks Fixtures.endless_block 1000).1 !! "10.0.0.9"
     = Fixtures.endless_block !! "10.0.0.9".
Proof. repeat split; reflexivity. Qed.



End IpRegistry.

(** * Further properties of the fraud scorer *)
Module FraudVerdicts.
Import FraudDetection Invariants.

Lemma unresolvable_is_flagged dns email :
  validateMxRecord dns email = false -> isFraud (checkEmailFraud dns email) = true.
Proof.
  intros H. unfold checkEmailFraud. rewrite H.
  destruct (isDisposableEmail email), (hasSpamPatterns email); reflexivity.
Qed.

(** X14. An address is flagged exactly when its domain has no MX record,
    or it is both on the disposable list and spam-patterned: neither of
    the two weaker signals reaches the threshold alone. *)
Theorem checkEmailFraud_verdict dns email :
  isFraud (checkEmailFraud dns email)
  = negb (validateMxRecord dns email)
    || (isDisposableEmail email && hasSpamPatterns email).
Proof.
  unfold checkEmailFraud.
  destruct (isDisposableEmail email), (validateMxRecord dns email),
    (hasSpamPatterns email); reflexivity.
Qed.

(** X15. With the carrier and recycled-number lookups as the source has
    them, no phone number is ever flagged: the only signal left is the
    digit count, which scores 40. *)
Theorem checkPhoneFraud_never_flags phone cc :
  let res := checkPhoneFraud Placeholders.checkCarrierInfo Placeholders.isRecycledNumber
               phone cc in
  isFraud res = false
  /\ fraudScore res = (if isValidPhoneFormat phone then 0 else 40)
  /\ reasons res = (if isValidPhoneFormat phone then [] else [FAKE_PHONE]).
Proof.
  unfold checkPhoneFraud, Placeholders.checkCarrierInfo, Placeholders.isRecycledNumber.
  cbn. destruct (isValidPhoneFormat phone); repeat split; reflexivity.
Qed.

(** X16. With the range test and the reputation lookup as the source has
    them, an IP is flagged exactly when the fraud log holds five
    brute-force entries for it in the last fifteen minutes, or an e-mail
    is given and the log holds three multiple-account entries for it; the
    blacklist, VPN, proxy, Tor and country signals never fire. *)
Theorem checkIpFraud_placeholder_verdict cnt logs now ip email :
  let res := checkIpFraud cnt Placeholders.ipInRange Placeholders.checkIpReputation
               logs now ip email in
  isFraud res
  = checkBruteforceAttempt cnt logs now ip (Js.or_else email "") 15
    || (Js.truthy email && (3 <=? checkMultipleAccountsFromIp cnt logs ip))
  /\ (forall r, In r (reasons res) ->
                r = BRUTEFORCE_ATTEMPT \/ r = MULTIPLE_ACCOUNTS_SAME_IP).
Proof.
  unfold checkIpFraud, isBlacklistedIp, Placeholders.ipInRange,
    Placeholders.checkIpReputation.
  cbn -[checkBruteforceAttempt checkMultipleAccountsFromIp Z.leb].
  destruct (checkBruteforceAttempt cnt logs now ip (Js.or_else email "") 15),
    (Js.truthy email), (3 <=? checkMultipleAccountsFromIp cnt logs ip);
    cbn; (split; [reflexivity|]); intros r Hr; cbn in Hr; intuition.
Qed.

Lemma consistent_start : consistent start.
Proof. split; [cbn; lia|]. split; reflexivity. Qed.

Lemma consistent_flag r pts k v a :
  0 < pts -> consistent a -> consistent (flag r pts k v a).
Proof.
  intros Hp [H0 _]. split; [cbn; lia|]. cbn. split.
  - intros H. destruct (a_reasons a); discriminate H.
  - lia.
Qed.

Lemma consistent_note k v a : consistent a -> consistent (note k v a).
Proof. intros H. exact H. Qed.

Lemma consistent_finish a :
  consistent a -> (reasons (finish a) = [] <-> fraudScore (finish a) = 0).
Proof. intros [H0 H]. cbn. rewrite H. lia. Qed.

#[local] Ltac consistency :=
  repeat first
    [ assumption
    | apply consistent_start
    | apply consistent_note
    | apply consistent_flag; [lia|]
    | match goal with
      | |- consistent (if ?b then _ else _) => destruct b
      | |- consistent (let _ := _ in _) => cbn zeta
      end ].

(** X17. A check names a reason exactly when its score is not zero: for
    each of the three checks, whatever the lookups answer, the list of
    reasons is empty if and only if the score is 0. *)
Theorem no_reason_iff_zero_score dns cnt carrier recycled inRange rep :
  (forall email,
      let res := checkEmailFraud dns email in reasons res = [] <-> fraudScore res = 0)
  /\ (forall phone cc,
      let res := checkPhoneFraud carrier recycled phone cc in
      reasons res = [] <-> fraudScore res = 0)
  /\ (forall logs now ip email,
      let res := checkIpFraud cnt inRange rep logs now ip email in
      reasons res = [] <-> fraudScore res = 0).
Proof.
  split; [|split].
  - intros email. cbn zeta. unfold checkEmailFraud. apply consistent_finish. consistency.
  - intros phone cc. cbn zeta. unfold checkPhoneFraud. apply consistent_finish.
    consistency.
  - intros logs now ip email. cbn zeta. unfold checkIpFraud. apply consistent_finish.
    consistency.
Qed.

(** X18. The e-mail endpoint issues no code to an address whose domain
    does not resolve: the request is refused and the table of codes is
    left as it was. *)
Theorem generateEmailOtp_refuses_unresolvable dns otps now uuid rnd email :
  validateMxRecord dns email = false ->
  (SecurityApi.generateEmailOtp dns otps now uuid rnd email).1 = otps
  /\ exists msg, (SecurityApi.generateEmailOtp dns otps now uuid rnd email).2
                 = inl (AuthFlows.BadRequest msg).
Proof.
  intros Hmx. unfold SecurityApi.generateEmailOtp.
  destruct (String.eqb email ""); [split; [reflexivity | eauto]|].
  rewrite (unresolvable_is_flagged dns email Hmx). split; [reflexivity | eauto].
Qed.

Lemma generateEmailOtp_refuses_witness :
  let dns := fun _ : string => @None nat in
  validateMxRecord dns "carol@nowhere.invalid" = false
  /\ (SecurityApi.generateEmailOtp dns [] 0 "otp-1" Scenario.half
        "carol@nowhere.invalid").1 = [].
Proof.
  intros dns. split; [reflexivity|].
  apply (generateEmailOtp_refuses_unresolvable dns [] 0 "otp-1" Scenario.half
           "carol@nowhere.invalid"). reflexivity.
Defined.

End FraudVerdicts.

(** * Further properties of the attempt tracker and the eligibility verdict *)
Module Tracker.
Import UserEntity DualVerification Invariants.

Lemma filter_app_last {A} (f : A -> bool) (l : list A) (a : A) :
  f a = true -> List.filter f (l ++ [a])%list = (List.filter f l ++ [a])%list.
Proof. intros H. rewrite List.filter_app. cbn. now rewrite H. Qed.

(** What one recording leaves under its key. *)
Lemma recordLoginAttempt_lookup s now em ip ok why :
  loginAttempts (recordLoginAttempt s now em ip ok why) !! key_of em ip
  = Some (List.filter (fun a => now - 24 * 60 * 60 * 1000 <? timestamp a)
            (default [] (loginAttempts s !! key_of em ip))
          ++ [mkAttempt ip em now ok why])%list.
Proof.
  unfold recordLoginAttempt. cbn. rewrite lookup_insert_eq. f_equal.
  apply filter_app_last. cbn. apply Z.ltb_lt. lia.
Qed.

(** X19. Recording an attempt appends it to the history of its key after
    dropping from that history everything not younger than twenty-four
    hours; the histories of all other keys stay as they are. *)
Theorem recordLoginAttempt_appends_and_prunes s now em ip ok why :
  let s' := recordLoginAttempt s now em ip ok why in
  let before := default [] (loginAttempts s !! key_of em ip) in
  exists kept,
    loginAttempts s' !! key_of em ip = Some (kept ++ [mkAttempt ip em now ok why])%list
    /\ (forall a, In a kept <-> In a before /\ now - 24 * 60 * 60 * 1000 < timestamp a)
    /\ (forall a, In a (kept ++ [mkAttempt ip em now ok why])%list ->
                  now - 24 * 60 * 60 * 1000 < timestamp a)
    /\ (forall k, k <> key_of em ip -> loginAttempts s' !! k = loginAttempts s !! k).
Proof.
  intros s' before. eexists. split; [apply recordLoginAttempt_lookup|].
  fold before. split; [|split].
  - intros a. rewrite List.filter_In, Z.ltb_lt. reflexivity.
  - intros a Hin. apply List.in_app_iff in Hin as [Hin | [<- | []]]; [|cbn; lia].
    apply List.filter_In in Hin as [_ H]. now apply Z.ltb_lt in H.
  - intros k Hk. subst s'. unfold recordLoginAttempt. cbn.
    now rewrite lookup_insert_ne.
Qed.

(** A run of recordings at times that stay within a day of each other
    keeps what it appends. *)
Lemma recordAll_lookup s em ip calls pre suffix :
  default [] (loginAttempts s !! key_of em ip) = (pre ++ suffix)%list ->
  (forall a t ok, In a suffix -> In (t, ok) calls -> t - 24 * 60 * 60 * 1000 < timestamp a) ->
  (forall t ok t' ok', In (t, ok) calls -> In (t', ok') calls ->
                       t' - 24 * 60 * 60 * 1000 < t) ->
  exists pre',
    default [] (loginAttempts (recordAll s em ip calls) !! key_of em ip)
    = (pre' ++ suffix ++ List.map (fun c => mkAttempt ip em c.1 c.2 None) calls)%list.
Proof.
  revert s pre suffix. induction calls as [|[t ok] rest IH]; intros s pre suffix Hs Hsuf Hcalls.
  - exists pre. cbn [recordAll List.map]. now rewrite List.app_nil_r.
  - cbn [recordAll List.map].
    pose proof (recordLoginAttempt_lookup s t em ip ok None) as Hl.
    rewrite Hs, List.filter_app in Hl.
    assert (Hkeep : List.filter (fun a => t - 24 * 60 * 60 * 1000 <? timestamp a) suffix
                    = suffix).
    { apply List.forallb_filter_id. apply List.forallb_forall. intros a Ha.
      apply Z.ltb_lt. apply (Hsuf a t ok Ha). now left. }
    rewrite Hkeep, <- List.app_assoc in Hl.
    destruct (IH (recordLoginAttempt s t em ip ok None)
                (List.filter (fun a => t - 24 * 60 * 60 * 1000 <? timestamp a) pre)
                (suffix ++ [mkAttempt ip em t ok None])%list) as (pre' & Hpre').
    + now rewrite Hl.
    + intros a t' ok' Ha Hin. apply List.in_app_iff in Ha as [Ha | [<- | []]].
      * apply (Hsuf a t' ok' Ha). now right.
      * cbn. apply (Hcalls t ok t' ok'); [now left | now right].
    + intros t1 ok1 t2 ok2 H1 H2. apply (Hcalls t1 ok1 t2 ok2); now right.
    + exists pre'. rewrite Hpre'. now rewrite <- !List.app_assoc.
Qed.

(** X20. Five failed attempts in a row for one key, recorded at times in
    order that all lie within the last fifteen minutes, make the
    brute-force check answer true, whatever the key's earlier history. *)
Theorem five_recent_failures_flag s em ip t1 t2 t3 t4 t5 now :
  t1 <= t2 -> t2 <= t3 -> t3 <= t4 -> t4 <= t5 -> t5 <= now ->
  now - 15 * 60 * 1000 < t1 ->
  checkBruteforceAttempt
    (recordAll s em ip [(t1, false); (t2, false); (t3, false); (t4, false); (t5, false)])
    now em ip = true.
Proof.
  intros H12 H23 H34 H45 H5 H1.
  set (calls := [(t1, false); (t2, false); (t3, false); (t4, false); (t5, false)]).
  assert (Hin : forall t ok, In (t, ok) calls -> t1 <= t <= t5 /\ ok = false).
  { intros t ok Hin. cbn in Hin.
    destruct Hin as [[= <- <-] | [[= <- <-] | [[= <- <-] | [[= <- <-] | [[= <- <-] | []]]]]];
      split; try reflexivity; lia. }
  destruct (recordAll_lookup s em ip calls
              (default [] (loginAttempts s !! key_of em ip)) [])
    as (pre & Hpre).
  - now rewrite List.app_nil_r.
  - intros a t ok [].
  - intros t ok t' ok' Ht Ht'. apply Hin in Ht, Ht'. lia.
  - unfold checkBruteforceAttempt. rewrite Hpre. cbn [List.app List.map calls fst snd].
    set (five := [mkAttempt ip em t1 false None; mkAttempt ip em t2 false None;
                  mkAttempt ip em t3 false None; mkAttempt ip em t4 false None;
                  mkAttempt ip em t5 false None]).
    assert (Hlen : List.length (pre ++ five)%list = (List.length pre + 5)%nat)
      by (rewrite List.length_app; reflexivity).
    rewrite Hlen.
    replace (5 <=? List.length pre + 5)%nat with true by (symmetry; apply Nat.leb_le; lia).
    replace (List.length pre + 5 - 5)%nat with (List.length pre) by lia.
    rewrite drop_app_length. cbn [List.nth_error five timestamp].
    destruct (t5 - t1 <? 30 * 1000); [reflexivity|].
    apply Nat.leb_le. rewrite List.filter_app, List.length_app.
    assert (Hfive : List.filter
                      (fun a => negb (success a) && (now - 15 * 60 * 1000 <? timestamp a))
                      five = five).
    { apply List.forallb_filter_id. cbn.
      repeat (rewrite (proj2 (Z.ltb_lt _ _)) by lia). reflexivity. }
    rewrite Hfive. cbn. lia.
Qed.

Lemma five_recent_failures_witness :
  checkBruteforceAttempt
    (recordAll Fixtures.empty_state "a@b.com" "10.0.0.1"
       [(0, false); (60000, false); (120000, false); (180000, false); (240000, false)])
    300000 "a@b.com" "10.0.0.1" = true.
Proof.
  apply (five_recent_failures_flag Fixtures.empty_state "a@b.com" "10.0.0.1"
           0 60000 120000 180000 240000 300000); lia.
Defined.

Lemma startsWith_append p s : Js.startsWith p (String.append p s) = true.
Proof.
  induction p as [|c p IH]; [reflexivity|].
  change (String.append (String c p) s) with (String c (String.append p s)).
  cbn [Js.startsWith]. now rewrite Ascii.eqb_refl, IH.
Qed.

Lemma key_of_prefix em ip : key_of em ip = String.append (String.append em ":") ip.
Proof.
  unfold key_of. induction em as [|c em IH]; [reflexivity|].
  change (String.append (String c em) (String ":" ip))
    with (String c (String.append em (String ":" ip))).
  rewrite IH. reflexivity.
Qed.

(** X21. Clearing resets the verdict: after [clearLoginAttempts] for an
    identity and an address the brute-force check is false for that key,
    and after [clearLoginAttempts] for an identity alone it is false for
    that identity from every address. *)
Theorem clearLoginAttempts_resets s em now :
  (forall ip, ip <> "" ->
      checkBruteforceAttempt (clearLoginAttempts s em (Some ip)) now em ip = false)
  /\ (forall ip, checkBruteforceAttempt (clearLoginAttempts s em None) now em ip = false).
Proof.
  split.
  - intros ip Hip. unfold clearLoginAttempts, checkBruteforceAttempt, Js.truthy, Js.or_else.
    apply String.eqb_neq in Hip. rewrite Hip. cbn. now rewrite lookup_delete_eq.
  - intros ip. unfold clearLoginAttempts, checkBruteforceAttempt. cbn.
    replace (filter
               (fun kv : string * list LoginAttemptRecord =>
                  Js.startsWith (String.append em ":") kv.1 = false)
               (loginAttempts s) !! key_of em ip)
      with (@None (list LoginAttemptRecord)); [reflexivity|].
    symmetry. apply map_lookup_filter_None. right. intros x _ Hp. cbn in Hp.
    rewrite key_of_prefix, startsWith_append in Hp. discriminate Hp.
Qed.

Lemma clearLoginAttempts_resets_witness :
  let s := recordAll Fixtures.empty_state "a@b.com" "10.0.0.1"
             [(0, false); (1000, false); (2000, false); (3000, false); (4000, false)] in
  checkBruteforceAttempt s 5000 "a@b.com" "10.0.0.1" = true
  /\ "10.0.0.1" <> ""
  /\ checkBruteforceAttempt (clearLoginAttempts s "a@b.com" (Some "10.0.0.1")) 5000
       "a@b.com" "10.0.0.1" = false.
Proof.
  intros s. split; [reflexivity|]. split; [discriminate|].
  apply (proj1 (clearLoginAttempts_resets s "a@b.com" 5000)). discriminate.
Defined.

(** X22. Trust on second sight: a fingerprint the service has not seen is
    not trusted and is remembered; from then on it is trusted at every
    call, for whatever identity it is presented with. *)
Theorem device_trusted_on_second_sight s now fp em :
  deviceFingerprints s !! fp = None ->
  (isDeviceTrusted s now fp em).2 = false
  /\ forall now' em', (isDeviceTrusted (isDeviceTrusted s now fp em).1 now' fp em').2 = true.
Proof.
  intros Hnew. unfold isDeviceTrusted at 1 3. rewrite Hnew. cbn [fst snd].
  split; [reflexivity|]. intros now' em'. unfold isDeviceTrusted. cbn.
  now rewrite lookup_insert_eq.
Qed.

Lemma device_trusted_witness :
  deviceFingerprints Fixtures.empty_state !! "fp-1" = None
  /\ (isDeviceTrusted Fixtures.empty_state 0 "fp-1" "a@b.com").2 = false
  /\ (isDeviceTrusted (isDeviceTrusted Fixtures.empty_state 0 "fp-1" "a@b.com").1
        1000 "fp-1" "mallory@example.com").2 = true.
Proof.
  split; [reflexivity|].
  destruct (device_trusted_on_second_sight Fixtures.empty_state 0 "fp-1" "a@b.com"
              eq_refl) as [H1 H2].
  split; [exact H1 | apply H2].
Defined.

End Tracker.

(** * Further properties of the eligibility verdict and of account freezes *)
Module Eligibility.
Import UserEntity DualVerification DualAccounts.

Section Providers.
Variable fraudLogCount :
  FraudDetection.LogRepo -> (FraudDetection.FraudLog -> bool) -> option Z.
Variable ipInRange : string -> string -> bool.
Variable checkIpReputation : string -> FraudDetection.IpReputation.

#[local] Ltac by_cases :=
  let Hv := fresh "Hverdict" in
  intros Hv; repeat (apply andb_prop in Hv as [Hv ?]);
  repeat match goal with
         | b : bool |- _ => destruct b; try discriminate
         end;
  reflexivity.

(** X23. A positive verdict comes without reproach: whenever
    [canLogin] is true the list of failure reasons is empty. *)
Theorem canLogin_has_no_failure_reason s now em ip fp :
  let v := (checkLoginEligibility fraudLogCount ipInRange checkIpReputation
              s now em ip fp).2 in
  canLogin v = true -> failureReasons v = [].
Proof.
  unfold checkLoginEligibility.
  destruct (findByEmail (users s) em) as [user|]; [|discriminate].
  destruct (IpBlocker.isIpBlocked (blockedIps s) now ip) as [blocked isBlocked].
  match goal with
  | |- context [let '(_, _) := ?c in _] => destruct c as [s' trusted]
  end.
  cbv zeta. cbn [snd canLogin failureReasons].
  generalize (OtpService.isPhoneVerified (otps (set_blockedIps blocked s))
                (Js.or_else (phone user) "")) as phoneOk.
  generalize (Js.truthy (phone user)) as hasPhone.
  generalize (OtpService.isEmailVerified (otps (set_blockedIps blocked s)) em) as emailOk.
  generalize (FraudDetection.isFraud
                (FraudDetection.checkIpFraud fraudLogCount ipInRange checkIpReputation
                   (fraudLogs (set_blockedIps blocked s)) now ip (Some em))) as fraud.
  intros fraud.
  match goal with
  | |- context [checkBruteforceAttempt ?a now em ip] =>
      generalize (checkBruteforceAttempt a now em ip) as brute
  end.
  generalize (UserEntity.status_eqb (status user) SUSPENDED) as suspended.
  destruct (lockedUntil user) as [t|]; [generalize (now <? t) as frozen|];
    clear;
    repeat match goal with
           | |- forall _ : bool, _ => intro
           end;
    by_cases.
Qed.

(** The brute-force check reads the attempt histories and nothing else. *)
Lemma checkBruteforceAttempt_reads_attempts s1 s2 now em ip :
  loginAttempts s1 = loginAttempts s2 ->
  checkBruteforceAttempt s1 now em ip = checkBruteforceAttempt s2 now em ip.
Proof. intros H. unfold checkBruteforceAttempt. now rewrite H. Qed.

(** Looking a device up touches the device map only. *)
Lemma isDeviceTrusted_keeps_blocks s now fp em :
  blockedIps (isDeviceTrusted s now fp em).1 = blockedIps s.
Proof. unfold isDeviceTrusted. now destruct (deviceFingerprints s !! fp). Qed.

(** A reason once listed stays listed when later checks add theirs. *)
Lemma In_grows (x y : string) (l : list string) (b : bool) :
  In x l -> In x (if b then (l ++ [y])%list else l).
Proof. destruct b; [|easy]. intros H. apply List.in_or_app. now left. Qed.

Lemma In_grows_unless (x y : string) (l : list string) (b : bool) :
  In x l -> In x (if b then l else (l ++ [y])%list).
Proof. destruct b; [easy|]. intros H. apply List.in_or_app. now left. Qed.

(** X24. Brute force escalates to a block: when the brute-force check
    fires for a known account, the verdict fails the fraud check and the
    IP check, names the reason, and the address is left blocked for
    twenty-four hours from the time of the call. *)
Theorem bruteforce_escalates_to_block s now em ip fp user :
  findByEmail (users s) em = Some user ->
  checkBruteforceAttempt s now em ip = true ->
  let out := checkLoginEligibility fraudLogCount ipInRange checkIpReputation
               s now em ip fp in
  fraudCheckPassed out.2 = false
  /\ ipClean out.2 = false
  /\ canLogin out.2 = false
  /\ In "Too many login attempts. Please try again later." (failureReasons out.2)
  /\ forall t, (IpBlocker.isIpBlocked (blockedIps out.1) t ip).2
               = negb (now + 24 * 60 * 60 * 1000 <? t).
Proof.
  intros Hu Hb. unfold checkLoginEligibility. rewrite Hu.
  destruct (IpBlocker.isIpBlocked (blockedIps s) now ip) as [blocked isBlocked].
  cbv zeta.
  set (fraud := FraudDetection.isFraud
                  (FraudDetection.checkIpFraud fraudLogCount ipInRange checkIpReputation
                     (fraudLogs (set_blockedIps blocked s)) now ip (Some em))).
  match goal with
  | |- context [checkBruteforceAttempt ?a now em ip] =>
      replace (checkBruteforceAttempt a now em ip) with true
        by (rewrite <- Hb; apply checkBruteforceAttempt_reads_attempts;
            now destruct fraud)
  end.
  cbv iota.
  match goal with
  | |- context [let '(_, _) := ?c in _] =>
      assert (Hdev : blockedIps c.1
                     = (IpBlocker.blockIp blocked now ip "Bruteforce attack detected" 24).1)
        by (destruct (Js.truthy fp);
            [rewrite isDeviceTrusted_keeps_blocks|]; now destruct fraud);
      destruct c as [s' trusted]
  end.
  cbn [fst snd fraudCheckPassed ipClean canLogin failureReasons] in *.
  split; [reflexivity|]. split; [reflexivity|]. split.
  - now rewrite !andb_false_r.
  - split.
    + repeat first [apply In_grows | apply In_grows_unless].
      apply List.in_or_app. right. now left.
    + intros t. rewrite Hdev. apply IpBlockFacts.isIpBlocked_after_block.
Qed.

End Providers.

Lemma canLogin_has_no_failure_reason_witness :
  canLogin (checkLoginEligibility FraudDetection.count_rows
              FraudDetection.Placeholders.ipInRange
              FraudDetection.Placeholders.checkIpReputation
              Fixtures.dave_state 100000 "dave@example.com" "8.8.8.8" None).2 = true
  /\ failureReasons (checkLoginEligibility FraudDetection.count_rows
                       FraudDetection.Placeholders.ipInRange
                       FraudDetection.Placeholders.checkIpReputation
                       Fixtures.dave_state 100000 "dave@example.com" "8.8.8.8" None).2 = [].
Proof.
  split; [reflexivity|].
  apply (canLogin_has_no_failure_reason FraudDetection.count_rows
           FraudDetection.Placeholders.ipInRange
           FraudDetection.Placeholders.checkIpReputation
           Fixtures.dave_state 100000 "dave@example.com" "8.8.8.8" None).
  reflexivity.
Defined.

Lemma bruteforce_escalates_witness :
  findByEmail (users Fixtures.dave_attacked) "dave@example.com" = Some Fixtures.dave
  /\ checkBruteforceAttempt Fixtures.dave_attacked 6000 "dave@example.com" "8.8.8.8" = true
  /\ canLogin (checkLoginEligibility FraudDetection.count_rows
                 FraudDetection.Placeholders.ipInRange
                 FraudDetection.Placeholders.checkIpReputation
                 Fixtures.dave_attacked 6000 "dave@example.com" "8.8.8.8" None).2 = false.
Proof.
  assert (Hu : findByEmail (users Fixtures.dave_attacked) "dave@example.com"
               = Some Fixtures.dave) by reflexivity.
  assert (Hb : checkBruteforceAttempt Fixtures.dave_attacked 6000
                 "dave@example.com" "8.8.8.8" = true) by reflexivity.
  split; [exact Hu|]. split; [exact Hb|].
  exact (proj1 (proj2 (proj2
           (bruteforce_escalates_to_block FraudDetection.count_rows
              FraudDetection.Placeholders.ipInRange
              FraudDetection.Placeholders.checkIpReputation
              Fixtures.dave_attacked 6000 "dave@example.com" "8.8.8.8" None
              Fixtures.dave Hu Hb)))).
Defined.

(** X25. The verification summary and the eligibility verdict agree:
    both fail for an unknown address, and for a known one they report the
    same email and phone verification flags, whatever the clock, the
    caller's address and the device. *)
Theorem summary_agrees_with_eligibility
    (fraudLogCount : FraudDetection.LogRepo -> (FraudDetection.FraudLog -> bool) -> option Z)
    (ipInRange : string -> string -> bool)
    (checkIpReputation : string -> FraudDetection.IpReputation)
    s now em ip fp :
  let v := (checkLoginEligibility fraudLogCount ipInRange checkIpReputation
              s now em ip fp).2 in
  match getVerificationSummary s em with
  | inl msg => msg = "User not found" /\ failureReasons v = ["User not found"]
               /\ canLogin v = false
  | inr sm => s_emailVerified sm = emailVerified v
              /\ s_phoneVerified sm = phoneVerified v
  end.
Proof.
  unfold checkLoginEligibility, getVerificationSummary.
  destruct (findByEmail (users s) em) as [user|]; [|easy].
  destruct (IpBlocker.isIpBlocked (blockedIps s) now ip) as [blocked isBlocked].
  match goal with
  | |- context [let '(_, _) := ?c in _] => destruct c as [s' trusted]
  end.
  cbn. split; reflexivity.
Qed.

End Eligibility.

(** * Further properties of the account table and of the account flows *)
Module UserRepoFacts.
Import UserEntity Auth.

Section Collaborators.
Variable bcrypt_hash : string -> Z -> string.

(** The hashing hook changes the password and nothing else. *)
Lemma hashPassword_keeps_token u :
  UserEntity.refreshToken (hashPassword bcrypt_hash u) = UserEntity.refreshToken u.
Proof.
  unfold hashPassword.
  now destruct (negb (String.eqb (password u) "")
                && negb (Js.startsWith "$2" (password u))).
Qed.

Lemma findByEmail_email users em u :
  findByEmail users em = Some u -> email u = em.
Proof.
  intros H. apply List.find_some in H as [_ H]. now apply String.eqb_eq.
Qed.

(** After a loaded row is saved, a lookup by its address finds the row
    as stored. *)
Lemma findByEmail_save users em user u' :
  findByEmail users em = Some user ->
  id u' = id user ->
  email u' = em ->
  findByEmail (save bcrypt_hash users u').1 em = Some (hashPassword bcrypt_hash u').
Proof.
  intros Hf Hid Hem. unfold save, findByEmail in *. cbn [fst].
  assert (Hs : String.eqb (email (hashPassword bcrypt_hash u')) em = true).
  { apply String.eqb_eq.
    now rewrite (proj1 (proj2 (proj2 (proj2 (proj2
                   (AuthFacts.hashPassword_keeps bcrypt_hash u')))))). }
  induction users as [|x rest IH]; [discriminate|].
  cbn [List.map List.find] in *.
  destruct (String.eqb (id x) (id u')) eqn:Ex.
  - now rewrite Hs.
  - destruct (String.eqb (email x) em) eqn:Ee.
    + injection Hf as ->. rewrite Hid, String.eqb_refl in Ex. discriminate.
    + now apply IH.
Qed.

(** The same for a lookup by key. *)
Lemma findById_save users uid user u' :
  AuthFlows.findById users uid = Some user ->
  id u' = uid ->
  AuthFlows.findById (save bcrypt_hash users u').1 uid
  = Some (hashPassword bcrypt_hash u').
Proof.
  intros Hf <-. unfold save, AuthFlows.findById in *. cbn [fst].
  assert (Hs : String.eqb (id (hashPassword bcrypt_hash u')) (id u') = true).
  { apply String.eqb_eq.
    exact (proj1 (proj2 (proj2 (proj2
             (AuthFacts.hashPassword_keeps bcrypt_hash u'))))). }
  induction users as [|x rest IH]; [discriminate|].
  cbn [List.map List.find] in *.
  destruct (String.eqb (id x) (id u')) eqn:Ex.
  - now rewrite Hs.
  - rewrite Ex. now apply IH.
Qed.

Lemma findByEmail_new users em u :
  findByEmail users em = None ->
  email u = em ->
  findByEmail (users ++ [u])%list em = Some u.
Proof.
  intros Hn He. unfold findByEmail in *.
  induction users as [|x rest IH]; cbn [List.app List.find] in *.
  - now rewrite He, String.eqb_refl.
  - destruct (String.eqb (email x) em); [discriminate|]. now apply IH.
Qed.

End Collaborators.

End UserRepoFacts.

(** * The sign-in flow on the account table *)
Module Lockout.
Import UserEntity Auth Scenario.

Section Collaborators.
Variable bcrypt_hash : string -> Z -> string.
Variable bcrypt_compare : string -> string -> bool.
Variable totp_verify : option string -> string -> Z -> Js.Date -> bool.
Variable jwt_sign : Payload -> string -> Js.Date -> string.

(** Two saves of the same account, one after the other, leave the table
    with the second version in the place of the account. *)
Lemma save_twice users (u1 u2 : User) :
  id u2 = id (hashPassword bcrypt_hash u1) ->
  (save bcrypt_hash (save bcrypt_hash users u1).1 u2).1
  = (save bcrypt_hash users u2).1.
Proof.
  intros Hid. unfold save. cbn [fst]. rewrite List.map_map.
  assert (Hsame : id u2 = id u1).
  { rewrite Hid. apply (AuthFacts.hashPassword_keeps bcrypt_hash u1). }
  apply List.map_ext. intros x. rewrite Hsame.
  destruct (String.eqb (id x) (id u1)) eqn:E; [|now rewrite E].
  replace (id (hashPassword bcrypt_hash u1)) with (id u1)
    by (symmetry; apply (AuthFacts.hashPassword_keeps bcrypt_hash u1)).
  now rewrite String.eqb_refl.
Qed.

(** The account as a successful login stores it the second time, with
    the refresh token [token]. *)
Lemma logged_in_row token now ip user :
  let row := hashPassword bcrypt_hash
               (with_refreshToken token
                  (hashPassword bcrypt_hash (with_login now ip user))) in
  id row = id user /\ email row = email user
  /\ failedLoginAttempts row = 0 /\ lockedUntil row = None /\ status row = ACTIVE
  /\ lastLoginAt row = Some now /\ lastLoginIp row = Some ip
  /\ UserEntity.refreshToken row = Some token.
Proof.
  cbv zeta. unfold hashPassword.
  repeat match goal with
         | |- context [if ?c then _ else _] => destruct c
         end; cbn; repeat split; reflexivity.
Qed.

(** The table a successful login leaves: the account is in its place as
    stored the second time. *)
Lemma logged_in_table users now ip user em :
  findByEmail users em = Some user ->
  let first := save bcrypt_hash users (with_login now ip user) in
  let out := generateTokens bcrypt_hash jwt_sign first.1 now first.2 in
  let row := hashPassword bcrypt_hash
               (with_refreshToken (t_refreshToken out.2)
                  (hashPassword bcrypt_hash (with_login now ip user))) in
  out.1.1 = List.map (fun x => if String.eqb (id x) (id user) then row else x) users
  /\ findByEmail out.1.1 em = Some row.
Proof.
  intros Hu first out row.
  pose proof (UserRepoFacts.findByEmail_email _ _ _ Hu) as He.
  set (u2 := with_refreshToken (t_refreshToken out.2)
               (hashPassword bcrypt_hash (with_login now ip user))).
  assert (Hout : out.1.1 = (save bcrypt_hash first.1 u2).1) by reflexivity.
  assert (Hid1 : id u2 = id (hashPassword bcrypt_hash (with_login now ip user)))
    by reflexivity.
  rewrite Hout. subst first. rewrite (save_twice users _ u2 Hid1).
  assert (Hid : id u2 = id user).
  { rewrite Hid1. apply (AuthFacts.hashPassword_keeps bcrypt_hash (with_login now ip user)). }
  assert (Hem : email u2 = em).
  { rewrite <- He. change (email u2)
      with (email (hashPassword bcrypt_hash (with_login now ip user))).
    apply (AuthFacts.hashPassword_keeps bcrypt_hash (with_login now ip user)). }
  split.
  - unfold save. cbn [fst]. now rewrite Hid.
  - now apply (UserRepoFacts.findByEmail_save bcrypt_hash users em user u2 Hu).
Qed.

(** What [signin] leaves in the account table: for an account that is
    found and may attempt to log in,
    - a wrong password stores the account, in its place, with
      [failedLoginAttempts] one higher; from the fifth failure on it is
      stored with [lockedUntil = now + 15 min] and with status
      [SUSPENDED], below that with its lock and status as they were;
    - whenever tokens are returned, the account is stored, in its place,
      with no failure counted, no lock, status [ACTIVE], the time and
      address of this login, and the refresh token just issued;
    - every other refusal leaves the table as it was. *)
Lemma signin_table users now dto ip user :
  findByEmail users (dto_email dto) = Some user ->
  canAttemptLogin user now = true ->
  let out := signin bcrypt_hash bcrypt_compare totp_verify jwt_sign users now dto ip in
  let put stored :=
    List.map (fun x => if String.eqb (id x) (id user) then stored else x) users in
  (bcrypt_compare (dto_password dto) (password user) = false ->
     exists stored,
       out.1.1 = put stored
       /\ findByEmail out.1.1 (dto_email dto) = Some stored
       /\ failedLoginAttempts stored = failedLoginAttempts user + 1
       /\ (5 <= failedLoginAttempts user + 1 ->
           lockedUntil stored = Some (now + 15 * 60 * 1000)
           /\ status stored = SUSPENDED)
       /\ (failedLoginAttempts user + 1 < 5 ->
           lockedUntil stored = lockedUntil user /\ status stored = status user))
  /\ (forall tokens, out.2 = inr tokens ->
      exists stored,
        out.1.1 = put stored
        /\ findByEmail out.1.1 (dto_email dto) = Some stored
        /\ failedLoginAttempts stored = 0 /\ lockedUntil stored = None
        /\ status stored = ACTIVE
        /\ lastLoginAt stored = Some now /\ lastLoginIp stored = Some ip
        /\ UserEntity.refreshToken stored = Some (t_refreshToken tokens))
  /\ (forall e, out.2 = inl e -> e <> UnauthorizedException "Invalid credentials" ->
      out.1.1 = users).
Proof.
  intros Hu Hcan out put.
  pose proof (UserRepoFacts.findByEmail_email _ _ _ Hu) as He.
  assert (Hplace : forall u1, id u1 = id user -> email u1 = email user ->
            (save bcrypt_hash users u1).1 = put (hashPassword bcrypt_hash u1)
            /\ findByEmail (save bcrypt_hash users u1).1 (dto_email dto)
               = Some (hashPassword bcrypt_hash u1)).
  { intros u1 Hid Hem. split.
    - unfold save, put. cbn [fst]. now rewrite Hid.
    - apply (UserRepoFacts.findByEmail_save bcrypt_hash users _ user u1 Hu Hid).
      now rewrite Hem. }
  subst out. unfold signin. rewrite Hu, Hcan. cbn [negb]. unfold validatePassword.
  match goal with
  | |- context [if mfaEnabled user && negb (totp_verify _ _ _ _) then _ else ?s] =>
      set (success := s)
  end.
  assert (Hok : exists tokens stored,
             success.2 = inr tokens
             /\ success.1.1 = put stored
             /\ findByEmail success.1.1 (dto_email dto) = Some stored
             /\ failedLoginAttempts stored = 0 /\ lockedUntil stored = None
             /\ status stored = ACTIVE
             /\ lastLoginAt stored = Some now /\ lastLoginIp stored = Some ip
             /\ UserEntity.refreshToken stored = Some (t_refreshToken tokens)).
  { destruct (logged_in_table users now ip user (dto_email dto) Hu) as [Hput Hfind].
    cbv zeta in Hput, Hfind.
    eexists _, _. split; [reflexivity|]. split; [exact Hput|]. split; [exact Hfind|].
    apply logged_in_row. }
  clearbody success. destruct Hok as (tokens0 & stored0 & Hans & Hok).
  destruct (bcrypt_compare (dto_password dto) (password user)) eqn:Hpw; cbn [negb].
  - split; [discriminate|].
    destruct (mfaEnabled user && negb (Js.truthy (mfaCode dto)));
      [split; [discriminate|reflexivity]|].
    destruct (mfaEnabled user && negb (totp_verify _ _ _ _));
      [split; [discriminate|reflexivity]|].
    split.
    + intros tokens Ht. exists stored0.
      assert (tokens = tokens0) by congruence. subst tokens. exact Hok.
    + intros e Ht. congruence.
  - split; [|split; [intros t Ht; exfalso; revert Ht|]].
    + intros _.
      destruct (5 <=? failedLoginAttempts user + 1) eqn:E5.
      * apply Z.leb_le in E5.
        set (u1 := with_failure _ _ SUSPENDED user).
        destruct (Hplace u1 eq_refl eq_refl) as [Hput Hfind].
        destruct (AuthFacts.hashPassword_keeps bcrypt_hash u1) as (Hn & Hl & Hs & _).
        exists (hashPassword bcrypt_hash u1). rewrite Hn, Hl, Hs.
        repeat split; try assumption; try reflexivity; lia.
      * apply Z.leb_gt in E5.
        set (u1 := with_failure _ _ (status user) user).
        destruct (Hplace u1 eq_refl eq_refl) as [Hput Hfind].
        destruct (AuthFacts.hashPassword_keeps bcrypt_hash u1) as (Hn & Hl & Hs & _).
        exists (hashPassword bcrypt_hash u1). rewrite Hn, Hl, Hs.
        repeat split; try assumption; try reflexivity; lia.
    + destruct (5 <=? failedLoginAttempts user + 1); discriminate.
    + intros e. destruct (5 <=? failedLoginAttempts user + 1); cbn; congruence.
Qed.

End Collaborators.

(** C8, where the code departs from it: Bob has four failed logins
    behind him and mistypes his password at time 0.  The account is
    stored with five failures and [lockedUntil] at 15 minutes, 900 000
    ms, and with status [SUSPENDED].  One millisecond after the 15
    minutes the lock has lapsed by its date, and the password and the
    MFA code now supplied are the right ones (on the account as it was
    they obtain tokens at that instant), yet the login is refused as
    locked and nothing is stored. *)
Theorem lockout_outlasts_fifteen_minutes :
  let wrong := mkLogin "bob@example.com" "wrong-password" None in
  let right := mkLogin "bob@example.com" "hunter2hunter2" (Some "492039") in
  let first := signin toy_hash toy_compare toy_totp toy_sign [bob] 0 wrong "10.0.0.1" in
  let locked := first.1.1 in
  first.2 = inl (UnauthorizedException "Invalid credentials")
  /\ (exists stored,
        findByEmail locked "bob@example.com" = Some stored
        /\ failedLoginAttempts stored = 5
        /\ lockedUntil stored = Some (15 * 60 * 1000)
        /\ status stored = SUSPENDED
        /\ isAccountLocked stored (15 * 60 * 1000 + 1) = false
        /\ canAttemptLogin stored (15 * 60 * 1000 + 1) = false)
  /\ signin toy_hash toy_compare toy_totp toy_sign locked (15 * 60 * 1000 + 1)
       right "10.0.0.1"
     = (locked, [],
        inl (UnauthorizedException
               "Account is locked or inactive. Please contact support."))
  /\ (exists tokens,
        (signin toy_hash toy_compare toy_totp toy_sign [bob] (15 * 60 * 1000 + 1)
           right "10.0.0.1").2 = inr tokens).
Proof.
  cbv zeta. split; [reflexivity|]. split.
  - eexists. repeat split; reflexivity.
  - split; [reflexivity|]. eexists. reflexivity.
Qed.

End Lockout.

Module AccountFreeze.
Import UserEntity DualVerification DualAccounts.

(** X26. A freeze holds until it is lifted, and lifting it keeps the
    failure count: after [freezeUserAccount] the account is stored with
    [lockedUntil] at the call time plus the duration and can attempt no
    login at any time, also after that instant; after
    [unfreezeUserAccount] it can attempt one at any time, with the
    number of failed logins it had before. *)
Theorem freeze_holds_until_unfreeze (bcrypt_hash : string -> Z -> string)
    s now em durationMinutes user :
  findByEmail (users s) em = Some user ->
  let frozen := freezeUserAccount bcrypt_hash s now em durationMinutes in
  (exists u, findByEmail (users frozen) em = Some u
             /\ lockedUntil u = Some (now + durationMinutes * 60 * 1000)
             /\ forall t, canAttemptLogin u t = false)
  /\ (exists u, findByEmail (users (unfreezeUserAccount bcrypt_hash frozen em)) em = Some u
                /\ failedLoginAttempts u = failedLoginAttempts user
                /\ forall t, canAttemptLogin u t = true).
Proof.
  intros Hf frozen.
  pose proof (UserRepoFacts.findByEmail_email _ _ _ Hf) as He.
  set (u1 := Auth.with_failure (failedLoginAttempts user)
               (Some (now + durationMinutes * 60 * 1000)) SUSPENDED user).
  assert (H1 : findByEmail (users frozen) em = Some (Auth.hashPassword bcrypt_hash u1)).
  { subst frozen. unfold freezeUserAccount. rewrite Hf. cbn [users set_users].
    now apply UserRepoFacts.findByEmail_save with (user := user). }
  destruct (AuthFacts.hashPassword_keeps bcrypt_hash u1) as (Hn1 & Hl1 & Hs1 & Hi1 & He1 & _).
  split.
  - exists (Auth.hashPassword bcrypt_hash u1). split; [exact H1|]. split.
    + now rewrite Hl1.
    + intros t. unfold canAttemptLogin. now rewrite Hs1.
  - set (u2 := Auth.with_failure (failedLoginAttempts (Auth.hashPassword bcrypt_hash u1))
                 None ACTIVE (Auth.hashPassword bcrypt_hash u1)).
    destruct (AuthFacts.hashPassword_keeps bcrypt_hash u2) as (Hn2 & Hl2 & Hs2 & _).
    exists (Auth.hashPassword bcrypt_hash u2). split.
    + unfold unfreezeUserAccount. rewrite H1. cbn [users set_users].
      apply UserRepoFacts.findByEmail_save with (user := Auth.hashPassword bcrypt_hash u1);
        [exact H1|reflexivity|].
      cbn. now rewrite He1.
    + split.
      * now rewrite Hn2; cbn; rewrite Hn1.
      * intros t. unfold canAttemptLogin, isAccountLocked. now rewrite Hs2, Hl2.
Qed.

Lemma freeze_holds_until_unfreeze_witness :
  findByEmail (users Fixtures.dave_state) "dave@example.com" = Some Fixtures.dave
  /\ exists u,
       findByEmail (users (freezeUserAccount Scenario.toy_hash Fixtures.dave_state
                             0 "dave@example.com" 1)) "dave@example.com" = Some u
       /\ lockedUntil u = Some (0 + 1 * 60 * 1000)
       /\ forall t, canAttemptLogin u t = false.
Proof.
  split; [reflexivity|].
  apply (freeze_holds_until_unfreeze Scenario.toy_hash Fixtures.dave_state
           0 "dave@example.com" 1 Fixtures.dave).
  reflexivity.
Defined.

End AccountFreeze.

Module AuthLifecycle.
Import UserEntity Auth AuthFlows.

(** A result flagged as fraud carries a score of fifty or more. *)
Lemma flagged_means_fifty a :
  FraudDetection.isFraud (FraudDetection.finish a) = true ->
  (50 <=? FraudDetection.fraudScore (FraudDetection.finish a)) = true.
Proof. cbn. rewrite !Z.leb_le. lia. Qed.

Section Collaborators.
Variable bcrypt_hash : string -> Z -> string.
Variable bcrypt_compare : string -> string -> bool.
Variable totp_verify : option string -> string -> Z -> Js.Date -> bool.
Variable jwt_sign : Payload -> string -> Js.Date -> string.
Variable jwt_verify : string -> Js.Date -> option Payload.
Variable fraudLogCount :
  FraudDetection.LogRepo -> (FraudDetection.FraudLog -> bool) -> option Z.
Variable ipInRange : string -> string -> bool.
Variable checkIpReputation : string -> FraudDetection.IpReputation.

(** X27. Registration from a blocked or flagged address never goes
    through: with matching passwords and an address given, if the
    address is blocked or the IP check reports fraud, [register] throws a
    Forbidden error, creates no account and writes exactly one row to the
    fraud log. *)
Theorem register_refuses_screened_ip st now uuid dto ip :
  r_password dto = confirmPassword dto ->
  ip <> "" ->
  (IpBlocker.isIpBlocked (a_blockedIps st) now ip).2 = true
  \/ FraudDetection.isFraud
       (FraudDetection.checkIpFraud fraudLogCount ipInRange checkIpReputation
          (a_fraudLogs st) now ip (Some (r_email dto))) = true ->
  let out := register bcrypt_hash fraudLogCount ipInRange checkIpReputation
               st now uuid dto (Some ip) in
  (exists msg, out.2 = inl (Forbidden msg))
  /\ a_users out.1 = a_users st
  /\ List.length (a_fraudLogs out.1) = S (List.length (a_fraudLogs st)).
Proof.
  intros Hpw Hip Hscreen. unfold register.
  rewrite Hpw, String.eqb_refl. cbn [negb].
  replace (Js.truthy (Some ip)) with true
    by (symmetry; apply AuthFacts.truthy_Some; now exists ip).
  rewrite (AuthFacts.or_else_Some ip "" Hip).
  unfold screenIp.
  destruct (IpBlocker.isIpBlocked (a_blockedIps st) now ip) as [m1 blocked].
  cbn [snd] in Hscreen.
  destruct blocked.
  - destruct (IpBlocker.getBlockRecord m1 now ip) as [m2 record].
    cbn. unfold FraudDetection.logFraudAttempt.
    rewrite List.length_app. cbn. repeat split; eauto. lia.
  - destruct Hscreen as [|Hfraud]; [discriminate|]. rewrite Hfraud.
    assert (Hscore : (50 <=? FraudDetection.fraudScore
                        (FraudDetection.checkIpFraud fraudLogCount ipInRange
                           checkIpReputation (a_fraudLogs st) now ip
                           (Some (r_email dto)))) = true).
    { revert Hfraud. unfold FraudDetection.checkIpFraud.
      cbv zeta. apply flagged_means_fifty. }
    rewrite Hscore.
    destruct (_ || _); cbn; unfold FraudDetection.logFraudAttempt;
      rewrite List.length_app; cbn; repeat split; eauto; lia.
Qed.

(** X28. A fresh registration cannot sign in: once [register] has
    succeeded, every [signin] with the registered address, whatever the
    password, the clock and the caller, is refused as locked or inactive
    and leaves the account table as it is. *)
Theorem registered_account_cannot_signin st now uuid dto ip st' done :
  register bcrypt_hash fraudLogCount ipInRange checkIpReputation st now uuid dto ip
  = (st', inr done) ->
  forall t login from,
    dto_email login = r_email dto ->
    signin bcrypt_hash bcrypt_compare totp_verify jwt_sign (a_users st') t login from
    = (a_users st', [],
       inl (UnauthorizedException
              "Account is locked or inactive. Please contact support.")).
Proof.
  unfold register.
  destruct (negb (String.eqb (r_password dto) (confirmPassword dto))); [discriminate|].
  destruct (if Js.truthy ip then _ else _) as [st1 [e|]]; [discriminate|].
  destruct (findByEmail (a_users st1) (r_email dto)) eqn:Hnone; [discriminate|].
  intros [= <- _] t login from Hlogin. cbn [a_users].
  unfold signin. rewrite Hlogin.
  set (fresh := mkUser uuid _ _ _ _ _ _ _ _ _ _ _ _ _ _).
  destruct (AuthFacts.hashPassword_keeps bcrypt_hash fresh) as (_ & _ & Hs & _ & He & _).
  rewrite (UserRepoFacts.findByEmail_new _ _ (hashPassword bcrypt_hash fresh) Hnone)
    by now rewrite He.
  unfold canAttemptLogin. now rewrite Hs.
Qed.

(** X29. The lock of the fifth failure does not lapse: when a wrong
    password brings an account's failure count to five or more, every
    later [signin] for that address is refused as locked or inactive, at
    any time (also after the fifteen minutes) and with any password,
    and changes nothing. *)
Theorem fifth_failure_locks_for_good users now login ip user :
  findByEmail users (dto_email login) = Some user ->
  canAttemptLogin user now = true ->
  validatePassword bcrypt_compare user (dto_password login) = false ->
  5 <= failedLoginAttempts user + 1 ->
  let users' := (signin bcrypt_hash bcrypt_compare totp_verify jwt_sign
                   users now login ip).1.1 in
  forall t login' from,
    dto_email login' = dto_email login ->
    signin bcrypt_hash bcrypt_compare totp_verify jwt_sign users' t login' from
    = (users', [],
       inl (UnauthorizedException
              "Account is locked or inactive. Please contact support.")).
Proof.
  intros Hf Hcan Hpw Hn users'.
  pose proof (UserRepoFacts.findByEmail_email _ _ _ Hf) as He.
  set (u1 := with_failure (failedLoginAttempts user + 1)
               (Some (now + 15 * 60 * 1000)) SUSPENDED user).
  assert (Hu : users' = (save bcrypt_hash users u1).1).
  { subst users'. unfold signin. rewrite Hf, Hcan, Hpw. cbn [negb].
    replace (5 <=? failedLoginAttempts user + 1) with true
      by (symmetry; now apply Z.leb_le).
    reflexivity. }
  clearbody users'. subst users'.
  intros t login' from Hlogin. unfold signin. rewrite Hlogin.
  rewrite (UserRepoFacts.findByEmail_save bcrypt_hash users (dto_email login) user u1 Hf)
    by (try reflexivity; exact He).
  destruct (AuthFacts.hashPassword_keeps bcrypt_hash u1) as (_ & _ & Hs & _).
  unfold canAttemptLogin. now rewrite Hs.
Qed.

(** X30. Logging out revokes the refresh token: after [logout] of a
    known user, [refreshToken] refuses every token whose payload names
    that user, however the JWT library judges it, and changes nothing. *)
Theorem logout_revokes_refresh_token users userId users' msg :
  logout bcrypt_hash users userId = (users', inr msg) ->
  forall now token payload,
    jwt_verify token now = Some payload ->
    sub payload = userId ->
    refreshToken bcrypt_hash jwt_sign jwt_verify users' now token
    = (users', [], inl (Unauthorized "Invalid refresh token")).
Proof.
  unfold logout.
  destruct (findById users userId) as [user|] eqn:Hf; [|discriminate].
  intros [= <- _] now token payload Hv Hsub.
  unfold refreshToken. rewrite Hv, Hsub.
  assert (Hid : id (without_refreshToken user) = userId).
  { apply List.find_some in Hf as [_ Hf]. now apply String.eqb_eq in Hf. }
  pose proof (UserRepoFacts.findById_save bcrypt_hash users userId user _ Hf Hid) as Hs.
  unfold save in Hs. cbn [fst id without_refreshToken] in Hs. rewrite Hs.
  now rewrite UserRepoFacts.hashPassword_keeps_token.
Qed.

End Collaborators.

Lemma register_refuses_screened_ip_witness :
  r_password Fixtures.carol_dto = confirmPassword Fixtures.carol_dto
  /\ "6.6.6.6" <> ""
  /\ a_users (register Scenario.toy_hash FraudDetection.count_rows
                FraudDetection.Placeholders.ipInRange
                FraudDetection.Placeholders.checkIpReputation
                Fixtures.blocked_auth 1000 "u-9" Fixtures.carol_dto (Some "6.6.6.6")).1
     = a_users Fixtures.blocked_auth.
Proof.
  split; [reflexivity|]. split; [discriminate|].
  apply (register_refuses_screened_ip Scenario.toy_hash FraudDetection.count_rows
           FraudDetection.Placeholders.ipInRange
           FraudDetection.Placeholders.checkIpReputation
           Fixtures.blocked_auth 1000 "u-9" Fixtures.carol_dto "6.6.6.6");
    [reflexivity|discriminate|left; reflexivity].
Defined.

Lemma registered_account_cannot_signin_witness :
  exists st' done,
    register Scenario.toy_hash FraudDetection.count_rows
      FraudDetection.Placeholders.ipInRange FraudDetection.Placeholders.checkIpReputation
      Fixtures.empty_auth 1000 "u-9" Fixtures.carol_dto (Some "8.8.8.8") = (st', inr done)
    /\ signin Scenario.toy_hash Scenario.toy_compare Scenario.toy_totp Scenario.toy_sign
         (a_users st') 2000 (mkLogin "carol@example.com" "Secret123!" None) "8.8.8.8"
       = (a_users st', [],
          inl (UnauthorizedException
                 "Account is locked or inactive. Please contact support.")).
Proof.
  eexists _, _. split; [reflexivity|].
  apply (registered_account_cannot_signin Scenario.toy_hash Scenario.toy_compare
           Scenario.toy_totp Scenario.toy_sign FraudDetection.count_rows
           FraudDetection.Placeholders.ipInRange
           FraudDetection.Placeholders.checkIpReputation
           Fixtures.empty_auth 1000 "u-9" Fixtures.carol_dto (Some "8.8.8.8")
           _ _ eq_refl).
  reflexivity.
Defined.

Lemma fifth_failure_locks_for_good_witness :
  findByEmail [Scenario.bob] "bob@example.com" = Some Scenario.bob
  /\ canAttemptLogin Scenario.bob 0 = true
  /\ validatePassword Scenario.toy_compare Scenario.bob "wrong" = false
  /\ 5 <= failedLoginAttempts Scenario.bob + 1
  /\ signin Scenario.toy_hash Scenario.toy_compare Scenario.toy_totp Scenario.toy_sign
       (signin Scenario.toy_hash Scenario.toy_compare Scenario.toy_totp Scenario.toy_sign
          [Scenario.bob] 0 (mkLogin "bob@example.com" "wrong" None) "8.8.8.8").1.1
       3600000 (mkLogin "bob@example.com" "hunter2hunter2" (Some "492039")) "8.8.8.8"
     = ((signin Scenario.toy_hash Scenario.toy_compare Scenario.toy_totp Scenario.toy_sign
           [Scenario.bob] 0 (mkLogin "bob@example.com" "wrong" None) "8.8.8.8").1.1, [],
        inl (UnauthorizedException
               "Account is locked or inactive. Please contact support.")).
Proof.
  split; [reflexivity|]. split; [reflexivity|]. split; [reflexivity|]. split; [cbn; lia|].
  apply (fifth_failure_locks_for_good Scenario.toy_hash Scenario.toy_compare
           Scenario.toy_totp Scenario.toy_sign [Scenario.bob] 0
           (mkLogin "bob@example.com" "wrong" None) "8.8.8.8" Scenario.bob);
    [reflexivity|reflexivity|reflexivity|cbn; lia|reflexivity].
Defined.

Lemma logout_revokes_refresh_token_witness :
  exists users',
    logout Scenario.toy_hash [Scenario.bob] "u-2" = (users', inr "Logged out successfully")
    /\ refreshToken Scenario.toy_hash Scenario.toy_sign Fixtures.toy_verify users' 0 "7d"
       = (users', [], inl (Unauthorized "Invalid refresh token")).
Proof.
  eexists. split; [reflexivity|].
  apply (logout_revokes_refresh_token Scenario.toy_hash Scenario.toy_sign
           Fixtures.toy_verify [Scenario.bob] "u-2" _ _ eq_refl 0 "7d"
           (mkPayload "u-2" "bob@example.com" USER));
    reflexivity.
Defined.

End AuthLifecycle.
